(** * dsb3.pipeline: run / step artifact versioning and resolution

    A shallow embedding of [dsb3/pipeline.py].  Module globals become the
    fields of a [State] record, the file system is part of that state, and
    every function of the module is a computation in a state-and-exception
    monad whose state survives a raised exception (as Python's globals and
    the disk do).

    Outside the module, and taken as follows: the codec [hrjson], [utils]
    and [vis] (modelled where they are used), the wall clock and the listing
    of the raw data (fields of the state), what [print] writes (left out),
    and the step modules (a table given to the executor). *)

From Stdlib Require Import String Ascii ZArith List Bool Lia.
From Stdlib Require Decimal DecimalString DecimalZ DecimalPos.
Set Warnings "-register-all".
Import ListNotations.
Local Open Scope string_scope.
Local Open Scope Z_scope.

(** ** Python strings and integers *)

Module Py.

(** [str(n)] for an [int]. *)
Definition str (n : Z) : string := DecimalString.NilZero.string_of_int (Z.to_int n).

(** [int(s)] on the decimal literals that [str] prints (an optional minus
    sign followed by digits).  Python also accepts surrounding blanks, a plus
    sign and underscores; on those this model answers [None]. *)
Definition int (s : string) : option Z :=
  option_map Z.of_int (DecimalString.NilZero.int_of_string s).

(** [sep.join(l)]. *)
Fixpoint join (sep : string) (l : list string) : string :=
  match l with
  | [] => ""
  | [x] => x
  | x :: r => x ++ sep ++ join sep r
  end.

(** [str(l)] for a list of [int]s, e.g. "[3, 1, 0]". *)
Definition str_list (l : list Z) : string :=
  "[" ++ join ", " (map str l) ++ "]".

(** [list(range(start, -1, -1))]: start, start-1, ..., 0; empty when
    [start < 0]. *)
Definition range_down (start : Z) : list Z :=
  map (fun k => start - Z.of_nat k) (seq 0 (Z.to_nat (start + 1))).

(** [sub in s]. *)
Fixpoint contains (sub s : string) : bool :=
  prefix sub s ||
  match s with
  | EmptyString => false
  | String _ r => contains sub r
  end.

Definition slash : ascii := "/"%char.

(** [s.endswith('/')]. *)
Fixpoint ends_slash (s : string) : bool :=
  match s with
  | EmptyString => false
  | String c EmptyString => Ascii.eqb c slash
  | String _ r => ends_slash r
  end.

(** The longest prefix of [s] that ends with a slash, [""] when [s] has no
    slash: [os.path.dirname(s)] with its final slash kept. *)
Fixpoint dirname (s : string) : string :=
  match s with
  | EmptyString => ""
  | String c r =>
      match dirname r with
      | EmptyString => if Ascii.eqb c slash then String c "" else ""
      | d => String c d
      end
  end.

(** [s.split(c)]. *)
Fixpoint split (c : ascii) (s : string) : list string :=
  match s with
  | EmptyString => [""]
  | String a r =>
      if Ascii.eqb a c then "" :: split c r
      else match split c r with
           | [] => [String a ""]
           | w :: ws => String a w :: ws
           end
  end.

(** [l[i]] with Python's negative indices; [None] is [IndexError]. *)
Definition index {A : Type} (l : list A) (i : Z) : option A :=
  let n := Z.of_nat (length l) in
  let j := if i <? 0 then i + n else i in
  if (j <? 0) || (n <=? j) then None else nth_error l (Z.to_nat j).

(** [l[a:b]] with Python's clipping of out-of-range and negative bounds. *)
Definition clip (len i : Z) : Z :=
  if i <? 0 then Z.max 0 (i + len) else Z.min i len.

Definition slice {A : Type} (l : list A) (a b : Z) : list A :=
  let n := Z.of_nat (length l) in
  let a' := clip n a in
  let b' := clip n b in
  firstn (Z.to_nat (b' - a')) (skipn (Z.to_nat a') l).

End Py.

(** ** JSON values and insertion-ordered dictionaries *)

Inductive json : Type :=
| JNull
| JBool (b : bool)
| JNum (n : Z)
| JFloat (literal : string)
| JStr (s : string)
| JList (l : list json)
| JDict (d : list (string * json)).

(** An [OrderedDict] with string keys: an association list in insertion
    order, at most one binding per key. *)
Definition odict : Type := list (string * json).

Module OD.

Definition keys (d : odict) : list string := map fst d.

(** [k in d]. *)
Definition mem (k : string) (d : odict) : bool :=
  existsb (String.eqb k) (keys d).

(** [d.get(k)]. *)
Fixpoint get (k : string) (d : odict) : option json :=
  match d with
  | [] => None
  | (k', v) :: r => if String.eqb k k' then Some v else get k r
  end.

(** [d[k] = v]: an existing key keeps its position, a new key goes last. *)
Fixpoint set (k : string) (v : json) (d : odict) : odict :=
  match d with
  | [] => [(k, v)]
  | (k', v') :: r =>
      if String.eqb k k' then (k', v) :: r else (k', v') :: set k v r
  end.

(** [d.update(e)]: the bindings of [e] are assigned in [e]'s order. *)
Definition update (d e : odict) : odict :=
  fold_left (fun acc kv => set (fst kv) (snd kv) acc) e d.

(** [next(reversed(d))]: the key inserted last. *)
Definition last_key (d : odict) : option string :=
  match rev d with
  | [] => None
  | (k, _) :: _ => Some k
  end.

(** The dictionary invariant. *)
Definition wf (d : odict) : Prop := NoDup (keys d).

Fixpoint wfb (d : odict) : bool :=
  match d with
  | [] => true
  | (k, _) :: r => negb (mem k r) && wfb r
  end.

End OD.

(** ** Exceptions *)

Inductive exn : Type :=
| FileNotFoundError (msg : string)
| IsADirectoryError (path : string)
| JSONDecodeError (path : string)
| KeyError (key : string)
| IndexError
| TypeError (msg : string)
| ValueError (msg : string)
| AttributeError (msg : string)
| StopIteration
| UnboundLocalError (name : string)
| ModuleNotFoundError (name : string)
| OtherError (cls msg : string).

Inductive result (A : Type) : Type :=
| Ok (a : A)
| Raise (e : exn).
Arguments Ok {A} a.
Arguments Raise {A} e.

(** ** The file system *)

(** What a file holds.  The codec [hrjson] is not part of this module: a file
    written by [json.dump] holds the value itself. *)
Inductive content : Type :=
| Json (j : json)
| Text (lines : list string)
| Raw.

(** Paths are compared as strings (no normalisation).  Directories are written
    with their final slash.  [dirs] lists the directories that were created;
    every slash-terminated prefix of a listed directory or of a file is a
    directory too, so a file never lacks its parent. *)
Record FS : Type := mkFS {
  dirs : list string;
  files : list (string * content)
}.

Module Fs.

Definition empty : FS := mkFS [] [].

Definition paths (fs : FS) : list string := dirs fs ++ map fst (files fs).

Fixpoint lookup (p : string) (l : list (string * content)) : option content :=
  match l with
  | [] => None
  | (q, c) :: r => if String.eqb p q then Some c else lookup p r
  end.

Fixpoint store (p : string) (c : content) (l : list (string * content))
  : list (string * content) :=
  match l with
  | [] => [(p, c)]
  | (q, c') :: r =>
      if String.eqb p q then (q, c) :: r else (q, c') :: store p c r
  end.

(** [d] (slash-terminated) is a directory. *)
Definition isdir (fs : FS) (d : string) : bool :=
  existsb (prefix d) (paths fs).

Definition isfile (fs : FS) (p : string) : bool :=
  match lookup p (files fs) with Some _ => true | None => false end.

(** [os.path.exists(p)]. *)
Definition exists_ (fs : FS) (p : string) : bool :=
  if Py.ends_slash p then isdir fs p
  else isfile fs p || isdir fs (p ++ "/").

(** The directory a new file would be created in is there. *)
Definition parent_ok (fs : FS) (p : string) : bool :=
  match Py.dirname p with
  | EmptyString => true
  | d => isdir fs d
  end.

(** [open(p).read()]. *)
Definition read (fs : FS) (p : string) : result content :=
  match lookup p (files fs) with
  | Some c => Ok c
  | None =>
      if exists_ fs p then Raise (IsADirectoryError p)
      else Raise (FileNotFoundError p)
  end.

(** [open(p, 'w').write(c)]. *)
Definition write (fs : FS) (p : string) (c : content) : result FS :=
  if isfile fs p then Ok (mkFS (dirs fs) (store p c (files fs)))
  else if Py.ends_slash p || isdir fs (p ++ "/")
  then Raise (IsADirectoryError p)
  else if parent_ok fs p then Ok (mkFS (dirs fs) (store p c (files fs)))
  else Raise (FileNotFoundError p).

(** [os.makedirs(d)] for a slash-terminated [d] that is not there yet. *)
Definition makedirs (fs : FS) (d : string) : FS :=
  mkFS (dirs fs ++ [d]) (files fs).

(** Modelled from the spec: [utils.dir_is_empty] is not part of this module;
    a figures directory is empty when there is no entry below it. *)
Definition dir_is_empty (fs : FS) (d : string) : bool :=
  negb (existsb (fun p => prefix d p && negb (String.eqb p d)) (paths fs)).

End Fs.

(** ** The module's globals, the disk and the outside world *)

Record State : Type := mkState {
  (** Toplevel directory to store all runs and datasets (set at configuration). *)
  write_basedir : string;
  (** Either LUNA16 or dsb3 (set at configuration). *)
  dataset_name : string;
  (** Stores optimization runs.  Is read from file at startup. *)
  avail_runs : odict;
  (** Number of patients. *)
  n_patients : option Z;
  (** List of all patients. *)
  patients : option (list string);
  (** For each patient id the path to the raw data. *)
  patients_raw_data_paths : option odict;
  (** Global logger for the whole pipeline: the file it appends to. *)
  log_pipe : option string;
  (** Step logger ([log] is the same object): the file it writes to. *)
  log_step : option string;
  (** Logfile for the tensorflow output. *)
  log_tf : option string;
  (** Name of the step that is currently processed. *)
  __step_name : option string;
  (** Key characterizing the current step. *)
  __step : option string;
  (** Appended to the step directory. *)
  __step_dir_suffix : string;
  (** Integer that identifies the current run of the pipeline. *)
  __run : Z;
  (** The run that is used to initialize the current run. *)
  __init_run : Z;
  (** The disk. *)
  fs : FS;
  (** What [time.strftime('%Y-%m-%d %H:%M', time.localtime())] answers. *)
  clock : string;
  (** What the naturally sorted [glob] of the raw data directory answers. *)
  raw_glob : list string
}.

Definition set_avail_runs (x : odict) (w : State) : State :=
  mkState (write_basedir w) (dataset_name w) x (n_patients w) (patients w)
    (patients_raw_data_paths w) (log_pipe w) (log_step w) (log_tf w)
    (__step_name w) (__step w) (__step_dir_suffix w) (__run w) (__init_run w)
    (fs w) (clock w) (raw_glob w).

Definition set_n_patients (x : option Z) (w : State) : State :=
  mkState (write_basedir w) (dataset_name w) (avail_runs w) x (patients w)
    (patients_raw_data_paths w) (log_pipe w) (log_step w) (log_tf w)
    (__step_name w) (__step w) (__step_dir_suffix w) (__run w) (__init_run w)
    (fs w) (clock w) (raw_glob w).

Definition set_patients (x : option (list string)) (w : State) : State :=
  mkState (write_basedir w) (dataset_name w) (avail_runs w) (n_patients w) x
    (patients_raw_data_paths w) (log_pipe w) (log_step w) (log_tf w)
    (__step_name w) (__step w) (__step_dir_suffix w) (__run w) (__init_run w)
    (fs w) (clock w) (raw_glob w).

Definition set_patients_raw_data_paths (x : option odict) (w : State) : State :=
  mkState (write_basedir w) (dataset_name w) (avail_runs w) (n_patients w)
    (patients w) x (log_pipe w) (log_step w) (log_tf w) (__step_name w)
    (__step w) (__step_dir_suffix w) (__run w) (__init_run w) (fs w) (clock w)
    (raw_glob w).

Definition set_log_pipe (x : option string) (w : State) : State :=
  mkState (write_basedir w) (dataset_name w) (avail_runs w) (n_patients w)
    (patients w) (patients_raw_data_paths w) x (log_step w) (log_tf w)
    (__step_name w) (__step w) (__step_dir_suffix w) (__run w) (__init_run w)
    (fs w) (clock w) (raw_glob w).

Definition set_log_step (x : option string) (w : State) : State :=
  mkState (write_basedir w) (dataset_name w) (avail_runs w) (n_patients w)
    (patients w) (patients_raw_data_paths w) (log_pipe w) x (log_tf w)
    (__step_name w) (__step w) (__step_dir_suffix w) (__run w) (__init_run w)
    (fs w) (clock w) (raw_glob w).

Definition set_log_tf (x : option string) (w : State) : State :=
  mkState (write_basedir w) (dataset_name w) (avail_runs w) (n_patients w)
    (patients w) (patients_raw_data_paths w) (log_pipe w) (log_step w) x
    (__step_name w) (__step w) (__step_dir_suffix w) (__run w) (__init_run w)
    (fs w) (clock w) (raw_glob w).

Definition set_step_name (x : option string) (w : State) : State :=
  mkState (write_basedir w) (dataset_name w) (avail_runs w) (n_patients w)
    (patients w) (patients_raw_data_paths w) (log_pipe w) (log_step w)
    (log_tf w) x (__step w) (__step_dir_suffix w) (__run w) (__init_run w)
    (fs w) (clock w) (raw_glob w).

Definition set_step (x : option string) (w : State) : State :=
  mkState (write_basedir w) (dataset_name w) (avail_runs w) (n_patients w)
    (patients w) (patients_raw_data_paths w) (log_pipe w) (log_step w)
    (log_tf w) (__step_name w) x (__step_dir_suffix w) (__run w)
    (__init_run w) (fs w) (clock w) (raw_glob w).

Definition set_step_dir_suffix (x : string) (w : State) : State :=
  mkState (write_basedir w) (dataset_name w) (avail_runs w) (n_patients w)
    (patients w) (patients_raw_data_paths w) (log_pipe w) (log_step w)
    (log_tf w) (__step_name w) (__step w) x (__run w) (__init_run w) (fs w)
    (clock w) (raw_glob w).

Definition set_run (x : Z) (w : State) : State :=
  mkState (write_basedir w) (dataset_name w) (avail_runs w) (n_patients w)
    (patients w) (patients_raw_data_paths w) (log_pipe w) (log_step w)
    (log_tf w) (__step_name w) (__step w) (__step_dir_suffix w) x
    (__init_run w) (fs w) (clock w) (raw_glob w).

Definition set_init_run (x : Z) (w : State) : State :=
  mkState (write_basedir w) (dataset_name w) (avail_runs w) (n_patients w)
    (patients w) (patients_raw_data_paths w) (log_pipe w) (log_step w)
    (log_tf w) (__step_name w) (__step w) (__step_dir_suffix w) (__run w) x
    (fs w) (clock w) (raw_glob w).

Definition set_fs (x : FS) (w : State) : State :=
  mkState (write_basedir w) (dataset_name w) (avail_runs w) (n_patients w)
    (patients w) (patients_raw_data_paths w) (log_pipe w) (log_step w)
    (log_tf w) (__step_name w) (__step w) (__step_dir_suffix w) (__run w)
    (__init_run w) x (clock w) (raw_glob w).
(** ** Computations: state and exceptions *)

(** A computation gets the state, answers a value or raises, and leaves a
    state behind in both cases. *)
Definition M (A : Type) : Type := State -> State * result A.

Definition ret {A : Type} (a : A) : M A := fun w => (w, Ok a).

Definition bind {A B : Type} (m : M A) (k : A -> M B) : M B :=
  fun w =>
    match m w with
    | (w', Ok a) => k a w'
    | (w', Raise e) => (w', Raise e)
    end.

Definition raise {A : Type} (e : exn) : M A := fun w => (w, Raise e).

Definition gets {A : Type} (f : State -> A) : M A := fun w => (w, Ok (f w)).

Definition modify (f : State -> State) : M unit := fun w => (f w, Ok tt).

(** A computation that only reads the state. *)
Definition lift {A : Type} (f : State -> result A) : M A := fun w => (w, f w).

(** [try: m  except Exception as e: h e]. *)
Definition catch {A : Type} (m : M A) (h : exn -> M A) : M A :=
  fun w =>
    match m w with
    | (w', Raise e) => h e w'
    | r => r
    end.

Declare Scope py_scope.
Delimit Scope py_scope with py.
Notation "x <- c1 ;; c2" := (bind c1 (fun x => c2))
  (at level 61, c1 at next level, right associativity) : py_scope.
Notation "c1 ;; c2" := (bind c1 (fun _ => c2))
  (at level 61, right associativity) : py_scope.
Local Open Scope py_scope.

(** ** Text of the interpreter's own messages *)

Definition nl : string := String "010"%char "".
Definition dquote : string := String "034"%char "".

(** [str + None]. *)
Definition concat_none_msg : string :=
  "can only concatenate str (not " ++ dquote ++ "NoneType" ++ dquote
  ++ ") to str".

Definition none_has_no (attr : string) : string :=
  "'NoneType' object has no attribute '" ++ attr ++ "'".

(** ** File access *)

Definition os_path_exists (p : string) : M bool :=
  gets (fun w => Fs.exists_ (fs w) p).

Definition open_read (p : string) : M content :=
  lift (fun w => Fs.read (fs w) p).

Definition open_write (p : string) (c : content) : M unit :=
  fun w =>
    match Fs.write (fs w) p c with
    | Ok fs' => (set_fs fs' w, Ok tt)
    | Raise e => (w, Raise e)
    end.

(** Modelled from the spec: the codec [hrjson] (imported as [json]) is not
    part of this module; the spec treats it as an abstract structured store
    whose [load] gives back what [dump] wrote and fails on a file that cannot
    be parsed. *)
Definition json_load (p : string) : M json :=
  c <- open_read p ;;
  match c with
  | Json j => ret j
  | _ => raise (JSONDecodeError p)
  end.

(** [json.dump(j, open(p, 'w'), ...)], under the same reading of the codec:
    the file is opened for writing and then holds [j]. *)
Definition json_dump (j : json) (p : string) : M unit :=
  open_write p (Json j).

(** A loaded document used as an [OrderedDict].  The module only ever writes
    objects; on another document the first dictionary operation of the
    caller fails, which is raised here. *)
Definition as_dict (j : json) : M odict :=
  match j with
  | JDict d => ret d
  | _ => raise (TypeError "not a dictionary")
  end.

(** Modelled from the spec: [utils.ensure_dir] is not part of this module; it
    makes sure the directory part of its argument exists on disk, creating it
    with its parents. *)
Definition ensure_dir (p : string) : M unit :=
  modify (fun w =>
    match Py.dirname p with
    | EmptyString => w
    | d => if Fs.isdir (fs w) d then w else set_fs (Fs.makedirs (fs w) d) w
    end).

(** ** The step catalog *)

Definition avail_steps : list (string * string) :=
  [ ("0", "resample_lungs");
    ("1", "gen_prob_maps");
    ("2", "gen_nodule_masks");
    ("3", "gen_candidates");
    ("3eval", "gen_candidates_eval");
    ("3vis", "gen_candidates_vis");
    ("4", "interpolate_candidates");
    ("5", "filter_candidates");
    ("6", "gen_nodule_seg_data");
    ("7", "gen_submission");
    ("8", "include_nodule_distr");
    ("9", "pred_cancer_per_candidate") ].

(** ** User functions *)

(** Output directory where all processed data of a run is written. *)
Definition get_write_dir (w : State) (run : option Z) : string :=
  let run := match run with None => __run w | Some r => r end in
  write_basedir w ++ dataset_name w ++ "_" ++ Py.str run ++ "/".

(** Output directory where all processed data of a specific step in a
    specific run is written. *)
Definition get_step_dir (w : State) (step_name : option string)
    (run : option Z) : result string :=
  let step_name :=
    match step_name with None => __step_name w | Some s => Some s end in
  match step_name with
  | None => Raise (TypeError concat_none_msg)
  | Some s => Ok (get_write_dir w run ++ s ++ __step_dir_suffix w ++ "/")
  end.

(** ** Helper functions *)

Definition trial_runs (w : State) : list Z :=
  [__run w] ++ Py.range_down (__init_run w).

(** The loop of [_get_step_dir_for_load] over the runs still to try;
    [step_dir] is the loop's variable of that name, unbound before the first
    round. *)
Fixpoint for_run_in (step_name : option string) (runs : list Z)
    (step_dir : option string) (trial : list Z) : M string :=
  match runs with
  | run :: rest =>
      step_dir <- lift (fun w => get_step_dir w step_name (Some run)) ;;
      found <- os_path_exists step_dir ;;
      if found : bool then ret step_dir
      else for_run_in step_name rest (Some step_dir) trial
  | [] =>
      match step_dir with
      | Some d =>
          raise (FileNotFoundError
                   ("Did not find " ++ d ++ " in runs " ++ Py.str_list trial
                    ++ "."))
      | None => raise (UnboundLocalError "step_dir")
      end
  end.

(** Go backwards in run history to find the directory. *)
Definition _get_step_dir_for_load (step_name : option string) : M string :=
  trial <- gets trial_runs ;;
  for_run_in step_name trial None trial.

Definition load_json (basename : string) (step_name : option string)
  : M odict :=
  step_dir <- _get_step_dir_for_load step_name ;;
  j <- json_load (step_dir ++ basename) ;;
  as_dict j.

Definition load_json_troll (filename : string) : M odict :=
  j <- json_load filename ;;
  as_dict j.

Definition save_json (basename : string) (dictionary : odict)
    (step_name : option string) (mode : string) : M unit :=
  step_dir <- lift (fun w => get_step_dir w step_name None) ;;
  let filename := step_dir ++ basename in
  found <- os_path_exists filename ;;
  dictionary <-
    (if String.eqb mode "a" && found then
       old_d <- load_json basename step_name ;;
       ret (OD.update old_d dictionary)
     else ret dictionary) ;;
  json_dump (JDict dictionary) filename.

(** [avail_runs[key][1]]. *)
Definition entry_descr (runs : odict) (key : string) : M json :=
  match OD.get key runs with
  | None => raise (KeyError key)
  | Some (JList l) =>
      match Py.index l 1 with
      | Some v => ret v
      | None => raise IndexError
      end
  | Some (JStr s) =>
      match Py.index (list_ascii_of_string s) 1 with
      | Some c => ret (JStr (String c ""))
      | None => raise IndexError
      end
  | Some (JDict _) => raise (KeyError "1")
  | Some _ => raise (TypeError "object is not subscriptable")
  end.

(** [avail_runs = json.load(open(runs_filename), ...)]. *)
Definition load_avail_runs (runs_filename : string) : M odict :=
  j <- json_load runs_filename ;;
  d <- as_dict j ;;
  modify (set_avail_runs d) ;;
  ret d.

(** The first block of [_init_run], from [if run == -1:] to the end of its
    [else:]: the run and the description the call goes on with. *)
Definition select_run (runs_filename : string) (run : Z) (run_descr : string)
  : M (Z * string) :=
  if run =? -1 then
    found <- os_path_exists runs_filename ;;
    if found : bool then
      d <- load_avail_runs runs_filename ;;
      match OD.last_key d with
      | None => raise StopIteration
      | Some k =>
          match Py.int k with
          | None => raise (ValueError k)
          | Some run =>
              if negb (String.eqb run_descr "") then ret (run + 1, run_descr)
              else ret (run, run_descr)
          end
      end
    else
      ret (0, if String.eqb run_descr "" then "run zero" else run_descr)
  else
    load_avail_runs runs_filename ;;
    ret (run, run_descr).

(** The statement [if avail_runs and run_descr == '': run_descr =
    avail_runs[str(run)][1]] of [_init_run]: the description to record. *)
Definition keep_descr (runs : odict) (run : Z) (run_descr : string) : M json :=
  match runs with
  | _ :: _ =>
      if String.eqb run_descr "" then entry_descr runs (Py.str run)
      else ret (JStr run_descr)
  | [] => ret (JStr run_descr)
  end.

Definition _init_run (run : Z) (run_descr : string) (init_run : Z) : M unit :=
  w <- gets (fun w => w) ;;
  let runs_filename := write_basedir w ++ dataset_name w ++ "_runs.json" in
  rd <- select_run runs_filename run run_descr ;;
  let run := fst rd in
  let run_descr := snd rd in
  runs <- gets avail_runs ;;
  run_descr <- keep_descr runs run run_descr ;;
  now <- gets clock ;;
  modify (fun w =>
    set_avail_runs
      (OD.set (Py.str run) (JList [JStr now; run_descr]) (avail_runs w)) w) ;;
  runs <- gets avail_runs ;;
  json_dump (JDict runs) runs_filename ;;
  modify (set_run run) ;;
  modify (set_init_run (if init_run >? -1 then init_run else run - 1)) ;;
  dir <- gets (fun w => get_write_dir w None) ;;
  ensure_dir dir.

(** ** Logging *)

(** [open(p, mode)] for a log file: ['a'] keeps what is there, any other
    mode (the module passes ['w']) truncates. *)
Definition open_log (p mode : string) : M unit :=
  isfile <- gets (fun w => Fs.isfile (fs w) p) ;;
  if String.eqb mode "a" && isfile then ret tt
  else open_write p (Text []).

(** One more line in an open log file.  Formatting (elapsed time, level) is
    left out: the line is the message. *)
Definition append_line (p line : string) : M unit :=
  modify (fun w =>
    let c :=
      match Fs.lookup p (files (fs w)) with
      | Some (Text l) => Text (l ++ [line])
      | Some _ => Raw
      | None => Text [line]
      end in
    set_fs (mkFS (dirs (fs w)) (Fs.store p c (files (fs w)))) w).

(** [logger.info(msg)] on the logger held in a global. *)
Definition log_info (logger : State -> option string) (msg : string)
  : M unit :=
  l <- gets logger ;;
  match l with
  | None => raise (AttributeError (none_has_no "info"))
  | Some p => append_line p msg
  end.

Definition _init_log_pipe : M unit :=
  filename <- gets (fun w => get_write_dir w None ++ "log.txt") ;;
  found <- os_path_exists filename ;;
  (if found : bool then
     isfile <- gets (fun w => Fs.isfile (fs w) filename) ;;
     if isfile : bool then append_line filename ""
     else raise (IsADirectoryError filename)
   else ret tt) ;;
  modify (set_log_pipe (Some filename)) ;;
  open_log filename "a".

Definition _init_log_step (step_name : string) (mode : string) : M unit :=
  step_dir <- lift (fun w => get_step_dir w (Some step_name) None) ;;
  let filename := step_dir ++ "log.txt" in
  modify (set_log_step (Some filename)) ;;
  open_log filename mode ;;
  pipe <- gets (fun w => get_write_dir w None ++ "log.txt") ;;
  open_log pipe "a" ;;
  modify (set_log_tf (Some (step_dir ++ "log_tf.txt"))) ;;
  open_log (step_dir ++ "log_tf.txt") mode.

(** ** Steps *)

Definition _init_step (step_name mode suffix : string) : M unit :=
  match filter (fun kv => String.eqb (snd kv) step_name) avail_steps with
  | [] => raise IndexError
  | (k, _) :: _ =>
      modify (set_step (Some k)) ;;
      modify (set_step_name (Some step_name)) ;;
      modify (fun w => set_step_dir_suffix (suffix ++ __step_dir_suffix w) w) ;;
      step_dir <- lift (fun w => get_step_dir w None None) ;;
      ensure_dir (step_dir ++ "arrays/") ;;
      ensure_dir (step_dir ++ "figs/") ;;
      _init_log_step step_name mode
  end.

(** [s[:-1]]. *)
Fixpoint drop_last (s : string) : string :=
  match s with
  | EmptyString => ""
  | String _ EmptyString => ""
  | String c r => String c (drop_last r)
  end.

(** Modelled from the spec: [vis.write_figs_overview_html] is not part of
    this module; given a figures directory it produces a single overview
    document, which the step log names [<step dir>figs.html]. *)
Definition write_figs_overview_html (figs_dir : string) : M unit :=
  open_write (drop_last figs_dir ++ ".html") Raw.

Definition _visualize_step (step_name : option string) : M bool :=
  match step_name with
  | None => ret tt
  | Some s => _init_step s "a" ""
  end ;;
  step_dir <- lift (fun w => get_step_dir w None None) ;;
  let figs_dir := step_dir ++ "figs/" in
  found <- os_path_exists figs_dir ;;
  empty <- gets (fun w => Fs.dir_is_empty (fs w) figs_dir) ;;
  if found && negb empty then
    write_figs_overview_html figs_dir ;;
    ret true
  else ret false.

(** A step module [dsb3.steps.<name>]: the signature of its [run], the
    docstring of [run] and what [run] does once its arguments are bound. *)
Record StepModule : Type := mkStep {
  run_params : list string;
  run_required : list string;
  run_var_keyword : bool;
  run_doc : option string;
  run_body : odict -> M unit
}.

Definition quoted (s : string) : string := "'" ++ s ++ "'".

(** The names in the interpreter's message about missing arguments. *)
Fixpoint name_list (l : list string) : string :=
  match l with
  | [] => ""
  | [a] => quoted a
  | [a; b] => quoted a ++ " and " ++ quoted b
  | a :: r => quoted a ++ ", " ++ name_list r
  end.

Definition missing_msg (l : list string) : string :=
  "run() missing " ++ Py.str (Z.of_nat (length l))
  ++ " required positional argument"
  ++ (if (length l =? 1)%nat then "" else "s") ++ ": "
  ++ (match l with
      | _ :: _ :: _ :: _ =>
          Py.join ", " (map quoted (removelast l)) ++ ", and "
          ++ quoted (last l "")
      | _ => name_list l
      end).

(** A keyword the signature of [run] does not declare. *)
Definition unknown (step : StepModule) (k : string) : bool :=
  negb (existsb (String.eqb k) (run_params step)).

(** [step.run] called with [params] unpacked as keyword arguments: the
    interpreter binds them before the body of [run] starts. *)
Definition call_run (step : StepModule) (params : odict) : M unit :=
  match
    (if run_var_keyword step then None
     else find (unknown step) (OD.keys params))
  with
  | Some k =>
      raise (TypeError
               ("run() got an unexpected keyword argument " ++ quoted k))
  | None =>
      match filter (fun a => negb (OD.mem a params)) (run_required step) with
      | [] => run_body step params
      | missing => raise (TypeError (missing_msg missing))
      end
  end.

(** Python's name for the type of a loaded value. *)
Definition type_name (j : json) : string :=
  match j with
  | JNull => "NoneType"
  | JBool _ => "bool"
  | JNum _ => "int"
  | JFloat _ => "float"
  | JStr _ => "str"
  | JList _ => "list"
  | JDict _ => "collections.OrderedDict"
  end.

(** A value used as an operand of [str + value]. *)
Definition as_str (j : json) : M string :=
  match j with
  | JStr s => ret s
  | _ =>
      raise (TypeError ("can only concatenate str (not " ++ dquote
                        ++ type_name j ++ dquote ++ ") to str"))
  end.

Definition unexpected_keyword : string :=
  "run() got an unexpected keyword argument".

Section Executor.

(** [str(value)] of a parameter value, as ['{}'.format] prints it. *)
Variable py_format : json -> string.

(** [import_module('.steps.' + step_name, 'dsb3')]. *)
Variable steps : string -> option StepModule.

Definition import_module (step_name : string) : M StepModule :=
  match steps step_name with
  | Some m => ret m
  | None => raise (ModuleNotFoundError ("dsb3.steps." ++ step_name))
  end.

(** [_run_step] from its first line up to the import of the step module,
    that is, all that happens before the entry point is called. *)
Definition before_entry (step_name : string) (params : odict)
    (suffix : string) : M StepModule :=
  _init_step step_name "w" suffix ;;
  w <- gets (fun w => w) ;;
  descr <- entry_descr (avail_runs w) (Py.str (__run w)) ;;
  descr <- as_str descr ;;
  let step_key := match __step w with Some k => k | None => "None" end in
  name <- as_str (match __step_name w with Some n => JStr n | None => JNull end) ;;
  let info :=
    "run " ++ Py.str (__run w) ++ " (" ++ descr ++ ")"
    ++ " / step " ++ step_key ++ " (" ++ name ++ ")"
    ++ (if __init_run w >? -1 then " with init " ++ Py.str (__init_run w)
        else "") in
  info <-
    (if negb (String.eqb (__step_dir_suffix w) "") then
       step_dir <- lift (fun w => get_step_dir w None None) ;;
       ret (info ++ " / writing to " ++ step_dir)
     else ret info) ;;
  log_info log_pipe info ;;
  let params_info :=
    fold_left
      (fun acc kv =>
         acc ++ nl ++ "    " ++ fst kv ++ " = " ++ py_format (snd kv))
      params info in
  log_info log_step params_info ;;
  log_info log_step
    (if __init_run w >? -1
     then "start step with " ++ ("init_run=" ++ Py.str (__init_run w))
     else "default init_run (most recent run)") ;;
  step_dir <- lift (fun w => get_step_dir w None None) ;;
  json_dump (JDict params) (step_dir ++ "params.json") ;;
  import_module step_name.

(** The [try: step.run(...) except TypeError as e: ...] of [_run_step]. *)
Definition guarded_run (step : StepModule) (params : odict) : M unit :=
  catch (call_run step params)
    (fun e =>
       match e with
       | TypeError msg =>
           if Py.contains unexpected_keyword msg then
             match run_doc step with
             | Some doc =>
                 raise (TypeError
                          (msg ++ nl ++ " Provide one of the valid parameters"
                           ++ nl ++ doc))
             | None => raise (TypeError concat_none_msg)
             end
           else raise e
       | _ => raise e
       end).

(** [_run_step] after the entry point has returned. *)
Definition after_entry : M unit :=
  wrote <- _visualize_step None ;;
  (if wrote : bool then
     step_dir <- lift (fun w => get_step_dir w None None) ;;
     log_info log_step ("... wrote " ++ step_dir ++ "figs" ++ ".html")
   else ret tt) ;;
  let finish_msg := "... finished the step" in
  log_info log_step finish_msg ;;
  log_info log_pipe finish_msg.

Definition _run_step (step_name : string) (params : odict)
    (suffix : string) : M unit :=
  step <- before_entry step_name params suffix ;;
  guarded_run step params ;;
  after_entry.

End Executor.

(** ** Patients *)

Definition dsb3_patients : list string :=
  [ "09ee522a3b7dbea48aa6d39afe240129"; "cb64ff663195832e0b66a9bb17891954";
    "74b3ef4c2125d636980a19754702dbb9"; "4aa3131e76b28e30235664087407edc3";
    "edad5e439ba696b89872f6b9af10cba0"; "007c1246c5fe6f200378f6b91323dc2a";
    "e4a87107f94e4a8e32b735d18cef1137"; "eb8d5136918d6859ca3cc3abafe369ac";
    "d51dffd06b80ed003aa6095b0639f511"; "d81ab3ad896e4198caed105c469a4817" ].

Definition LUNA16_patients : list string :=
  [ "164790817284381538042494285101"; "756684168227383088294595834066";
    "143410010885830403003179808334"; "154703816225841204080664115280";
    "908250781706513856628130123235"; "922852847124879997825997808179" ].

(** The patient a raw data path belongs to; [None] is [IndexError]. *)
Definition patient_of_path (luna : bool) (p : string) : option string :=
  if luna then
    match Py.index (Py.split Py.slash p) (-1) with
    | Some f => Py.index (Py.split "."%char f) (-2)
    | None => None
    end
  else Py.index (Py.split Py.slash p) (-2).

Fixpoint traverse {A B : Type} (f : A -> option B) (l : list A)
  : option (list B) :=
  match l with
  | [] => Some []
  | a :: r =>
      match f a, traverse f r with
      | Some b, Some bs => Some (b :: bs)
      | _, _ => None
      end
  end.

Definition the_patients : M (list string) :=
  p <- gets patients ;;
  match p with
  | Some l => ret l
  | None => raise (TypeError "'NoneType' object is not subscriptable")
  end.

Definition item (l : list Z) (i : Z) : M Z :=
  match Py.index l i with
  | Some x => ret x
  | None => raise IndexError
  end.

(** The first part of [_init_patients], up to the statement [global
    __step_dir_suffix]: the patients are read from the run's list, which is
    written first when it is not there. *)
Definition read_patients : M unit :=
  filename <-
    gets (fun w => get_write_dir w None ++ "patients_raw_data_paths.json") ;;
  found <- os_path_exists filename ;;
  if found : bool then
     j <- json_load filename ;;
     d <- as_dict j ;;
     modify (set_patients_raw_data_paths (Some d)) ;;
     modify (set_patients (Some (OD.keys d)))
   else
     name <- gets dataset_name ;;
     let luna := String.eqb name "LUNA16" in
     patient_paths <-
       (if luna || String.eqb name "dsb3" then gets raw_glob
        else raise (UnboundLocalError "patient_paths")) ;;
     match traverse (patient_of_path luna) patient_paths with
     | None => raise IndexError
     | Some ps =>
         modify (set_patients (Some ps)) ;;
         let paths := OD.update [] (combine ps (map JStr patient_paths)) in
         modify (set_patients_raw_data_paths (Some paths)) ;;
         ensure_dir filename ;;
         json_dump (JDict paths) filename
     end.

Definition _init_patients (_n_patients : Z) (single_patient_id : option string)
    (fromto_patients : option (list Z)) : M unit :=
  read_patients ;;
  modify (set_step_dir_suffix "") ;;
  (if _n_patients >? 0 then
     ps <- the_patients ;;
     modify (set_patients (Some (firstn (Z.to_nat _n_patients) ps))) ;;
     name <- gets dataset_name ;;
     (if String.eqb name "dsb3" then modify (set_patients (Some dsb3_patients))
      else ret tt) ;;
     (if String.eqb name "LUNA16"
      then modify (set_patients (Some LUNA16_patients)) else ret tt)
   else
     match single_patient_id, fromto_patients with
     | Some id, _ => modify (set_patients (Some [id]))
     | None, Some fromto =>
         ps <- the_patients ;;
         a <- item fromto 0 ;;
         b <- item fromto (-1) ;;
         modify (set_patients (Some (Py.slice ps a b))) ;;
         a <- item fromto 0 ;;
         b <- item fromto 1 ;;
         modify (set_step_dir_suffix
                   ("_fromto" ++ Py.str a ++ "-" ++ Py.str b))
     | None, None => ret tt
     end) ;;
  ps <- the_patients ;;
  modify (set_n_patients (Some (Z.of_nat (length ps)))).

(** ** A freshly imported module *)

(** The globals as the module's top level leaves them, for a configured base
    directory and dataset, over a given disk and outside world. *)
Definition imported (basedir dataset : string) (disk : FS) (now : string)
    (glob : list string) : State :=
  mkState basedir dataset [] None None None None None None None None "" 0 (-1)
    disk now glob.

(** The state a computation leaves, and what it answers. *)
Definition after {A : Type} (m : M A) (w : State) : State := fst (m w).
Definition answer {A : Type} (m : M A) (w : State) : result A := snd (m w).

(** ** Vocabulary of the specification *)

(** [s] holds a slash. *)
Fixpoint has_slash (s : string) : bool :=
  match s with
  | EmptyString => false
  | String c r => Ascii.eqb c Py.slash || has_slash r
  end.

(** The step name a call works on: its argument, else the current step. *)
Definition resolved_name (w : State) (step_name : option string)
  : option string :=
  match step_name with None => __step_name w | Some s => Some s end.

(** The directory of step [name] in run [run], under the current suffix. *)
Definition step_dir_of (w : State) (name : string) (run : Z) : string :=
  get_write_dir w (Some run) ++ name ++ __step_dir_suffix w ++ "/".

(** n, n-1, ..., 0. *)
Fixpoint count_down (n : nat) : list Z :=
  match n with
  | O => [0]
  | S k => Z.of_nat (S k) :: count_down k
  end.

(** The lineage chain in the specification's words:
    [current_run, init_run, init_run-1, ..., 0]. *)
Definition lineage_chain (current_run init_run : Z) : list Z :=
  current_run ::
  (if init_run <? 0 then [] else count_down (Z.to_nat init_run)).

(** The registry file of the configured dataset. *)
Definition runs_filename (w : State) : string :=
  write_basedir w ++ dataset_name w ++ "_runs.json".

(** The registry as persisted. *)
Definition registry_on_disk (w : State) : option odict :=
  match Fs.lookup (runs_filename w) (files (fs w)) with
  | Some (Json (JDict d)) => Some d
  | _ => None
  end.

(** The highest run identifier of a registry. *)
Definition highest_id (d : odict) : option Z :=
  fold_left
    (fun acc k =>
       match Py.int k, acc with
       | Some n, Some m => Some (Z.max n m)
       | Some n, None => Some n
       | None, _ => acc
       end)
    (OD.keys d) None.

(** The registry a call of [_init_run] starts from: the persisted one when
    the call loads it, else the one in memory. *)
Definition registry_before (w : State) (run : Z) : odict :=
  if (run =? -1) && negb (Fs.exists_ (fs w) (runs_filename w))
  then avail_runs w
  else match registry_on_disk w with
       | Some d => d
       | None => avail_runs w
       end.

(** The record stored under [basename] in the current directory of a step. *)
Definition record_at (w : State) (step_dir basename : string)
  : option odict :=
  match Fs.lookup (step_dir ++ basename) (files (fs w)) with
  | Some (Json (JDict d)) => Some d
  | _ => None
  end.

(** A computation leaves an observation of the state as it found it,
    whether it returns or raises. *)
Definition keeps {A X : Type} (obs : State -> X) (m : M A) : Prop :=
  forall w, obs (after m w) = obs w.

(** The globals a step directory is computed from. *)
Definition path_globals (w : State)
  : string * string * Z * option string * string :=
  (write_basedir w, dataset_name w, __run w, __step_name w,
   __step_dir_suffix w).

(** The suffix a returning [_init_patients] leaves. *)
Definition patients_suffix (_n_patients : Z) (single_patient_id : option string)
    (fromto_patients : option (list Z)) : string :=
  if _n_patients >? 0 then ""
  else
    match single_patient_id, fromto_patients with
    | None, Some fromto =>
        match Py.index fromto 0, Py.index fromto 1 with
        | Some a, Some b => "_fromto" ++ Py.str a ++ "-" ++ Py.str b
        | _, _ => ""
        end
    | _, _ => ""
    end.

(** The hint the executor puts before the docstring. *)
Definition valid_parameters_hint : string :=
  nl ++ " Provide one of the valid parameters" ++ nl.

(** ** Sample states *)

Module Sample.

(** A disk holding only the base directory; a module just imported over it. *)
Definition disk : FS := mkFS ["/data/"] [].

Definition start : State :=
  imported "/data/" "dsb3" disk "2017-03-01 09:00" [].

(** Time passes: the clock answers [now]. *)
Definition tick (now : string) (w : State) : State :=
  mkState (write_basedir w) (dataset_name w) (avail_runs w) (n_patients w)
    (patients w) (patients_raw_data_paths w) (log_pipe w) (log_step w)
    (log_tf w) (__step_name w) (__step w) (__step_dir_suffix w) (__run w)
    (__init_run w) (fs w) now (raw_glob w).

(** The first call ever: run 0 is created. *)
Definition resumed : State := after (_init_run (-1) "" (-1)) start.

(** Run 5 is selected explicitly, then run 2: the registry now lists the
    runs 0, 5, 2 in this order. *)
Definition pinned5 : State := after (_init_run 5 "five" (-1)) resumed.
Definition pinned2 : State := after (_init_run 2 "two" (-1)) pinned5.

(** Run 3 is selected with run 1 pinned as its initialization; no run has
    run any step yet. *)
Definition run3_init1 : State := after (_init_run 3 "third" 1) resumed.

(** Step [S] was run in the runs 0 and 2 only, and left [out.json] in run 2
    only; the active run is 3 with run 1 pinned as its initialization. *)
Definition lineage_disk : FS :=
  mkFS ["/data/"; "/data/dsb3_0/S/"; "/data/dsb3_1/"; "/data/dsb3_2/S/";
        "/data/dsb3_3/"]
       [("/data/dsb3_2/S/out.json", Json (JDict [("a", JNum 1)]))].

Definition lineage : State :=
  set_init_run 1
    (set_run 3 (imported "/data/" "dsb3" lineage_disk "2017-03-01 09:00" [])).

(** Run 1 is about to run [gen_candidates]; run 0 has run it and left an
    [out.json], run 1 has only the step's directories. *)
Definition merge_disk : FS :=
  mkFS ["/data/"; "/data/dsb3_0/gen_candidates/arrays/";
        "/data/dsb3_1/gen_candidates/arrays/"]
       [("/data/dsb3_0/gen_candidates/out.json",
         Json (JDict [("z", JNum 0)]))].

Definition merging : State :=
  set_step_name (Some "gen_candidates")
    (set_init_run 0
       (set_run 1 (imported "/data/" "dsb3" merge_disk "2017-03-01 09:00" []))).

(** Run 0 exists and the pipeline log is open: steps can be run. *)
Definition ready : State := after _init_log_pipe resumed.

(** Parameter values are numbers or texts here. *)
Definition format (j : json) : string :=
  match j with
  | JNum n => Py.str n
  | JStr s => s
  | _ => "..."
  end.

(** A step that takes [n] and does nothing. *)
Definition plain_step : StepModule :=
  mkStep ["n"] [] false (Some "n: number of candidates") (fun _ => ret tt).

(** A step that takes [n] and crashes. *)
Definition crashing_step : StepModule :=
  mkStep ["n"] [] false (Some "n: number of candidates")
    (fun _ => raise (OtherError "RuntimeError" "out of memory")).

(** A step that takes [n] and passes a keyword [level] to a function [run]
    of its own that does not take it. *)
Definition inner_error : exn :=
  TypeError "run() got an unexpected keyword argument 'level'".

Definition misusing_step : StepModule :=
  mkStep ["n"] [] false (Some "n: number of candidates")
    (fun _ => raise inner_error).

Definition steps (name : string) : option StepModule :=
  if String.eqb name "gen_candidates" then Some plain_step
  else if String.eqb name "filter_candidates" then Some crashing_step
  else if String.eqb name "gen_submission" then Some misusing_step
  else None.

Definition params : odict := [("n", JNum 5)].

Definition bad_params : odict := [("n", JNum 5); ("bad", JNum 1)].

End Sample.

(** ** Further vocabulary *)

(** A relation between the state a computation finds and the state it
    leaves, whether it returns or raises. *)
Definition preserves {A : Type} (R : State -> State -> Prop) (m : M A)
  : Prop :=
  forall w, R w (after m w).

(** Every path that is on the disk of [w] is on the disk of [w']. *)
Definition grows (w w' : State) : Prop :=
  incl (Fs.paths (fs w)) (Fs.paths (fs w')).

(** The disk and the active run with its initialization run. *)
Definition disk_and_run (w : State) : FS * Z * Z :=
  (fs w, __run w, __init_run w).

(** The keys "0", "1", ..., "n" in this order. *)
Definition dense_keys (n : nat) : list string :=
  map (fun i => Py.str (Z.of_nat i)) (seq 0 (S n)).


Module Cases.

(** The registry file is there and holds an empty object. *)
Definition empty_registry : State :=
  imported "/data/" "dsb3"
    (mkFS ["/data/"] [("/data/dsb3_runs.json", Json (JDict []))])
    "2017-03-01 09:00" [].

(** The base directory itself is missing. *)
Definition no_basedir : State :=
  imported "/data/" "dsb3" (mkFS [] []) "2017-03-01 09:00" [].

End Cases.


Module Cases2.

(** The step directory of run 1 holds a step log under the name of the
    record. *)
Definition log_in_the_way : State :=
  set_step_name (Some "gen_candidates")
    (set_run 1
       (imported "/data/" "dsb3"
          (mkFS ["/data/"; "/data/dsb3_1/gen_candidates/arrays/"]
                [("/data/dsb3_1/gen_candidates/out.json", Text ["started"])])
          "2017-03-01 09:00" [])).

(** The raw data of three dsb3 patients; run 0 is registered. *)
Definition with_raw_data : State :=
  after (_init_run (-1) "" (-1))
    (imported "/data/" "dsb3" (mkFS ["/data/"] []) "2017-03-01 09:00"
       ["/raw/p1/"; "/raw/p2/"; "/raw/p3/"]).

End Cases2.


Module Cases3.

(** Run 0 has run [gen_candidates], which has left an [out.json]. *)
Definition first_run_done : State :=
  after (save_json "out.json" Sample.params (Some "gen_candidates") "w")
    (after (_init_step "gen_candidates" "w" "") Sample.ready).

End Cases3.

(** * Properties *)

(** ** Strings *)

Lemma append_nil_r (s : string) : s ++ "" = s.
Proof. induction s as [|c s IH]; simpl; [reflexivity | now rewrite IH]. Qed.

Lemma append_assoc (a b c : string) : (a ++ b) ++ c = a ++ b ++ c.
Proof. induction a as [|x a IH]; simpl; [reflexivity | now rewrite IH]. Qed.

Lemma append_length (a b : string) :
  String.length (a ++ b) = (String.length a + String.length b)%nat.
Proof. induction a as [|x a IH]; simpl; [reflexivity | now rewrite IH]. Qed.

Lemma append_inv_head (a x y : string) : a ++ x = a ++ y -> x = y.
Proof.
  induction a as [|c a IH]; simpl; intros H; [exact H|].
  injection H as H. now apply IH.
Qed.

Lemma append_inv_tail (c a b : string) : a ++ c = b ++ c -> a = b.
Proof.
  revert b. induction a as [|x a IH]; intros [|y b] H; simpl in H.
  - reflexivity.
  - apply (f_equal String.length) in H. simpl in H.
    rewrite append_length in H. lia.
  - apply (f_equal String.length) in H. simpl in H.
    rewrite append_length in H. lia.
  - injection H as Hx H. subst y. f_equal. now apply IH.
Qed.

(** Two texts cut at their first slash agree piece by piece. *)
Lemma split_at_first_slash (a b x y : string) :
  has_slash a = false -> has_slash b = false ->
  a ++ String Py.slash x = b ++ String Py.slash y -> a = b /\ x = y.
Proof.
  revert b. induction a as [|c a IH]; intros [|d b] Ha Hb H; simpl in *.
  - injection H as H. now split.
  - injection H as Hc _. subst d.
    rewrite Ascii.eqb_refl in Hb. discriminate.
  - injection H as Hc _. subst c.
    rewrite Ascii.eqb_refl in Ha. discriminate.
  - injection H as Hc H. subst d.
    apply orb_false_iff in Ha as [_ Ha]. apply orb_false_iff in Hb as [_ Hb].
    destruct (IH b Ha Hb H) as [-> ->]. now split.
Qed.

Lemma prefix_append (a b : string) : prefix a (a ++ b) = true.
Proof.
  induction a as [|c a IH]; simpl; [now destruct b|].
  destruct (ascii_dec c c) as [_|n]; [exact IH | now elim n].
Qed.

Lemma prefix_of_longer (a b p : string) :
  prefix (a ++ b) p = true -> prefix a p = true.
Proof.
  revert p. induction a as [|c a IH]; intros p H; simpl in *.
  - now destruct p.
  - destruct p as [|d p]; [discriminate|]. simpl in *.
    destruct (ascii_dec c d); [now apply IH | discriminate].
Qed.

Lemma ends_slash_append (s : string) : Py.ends_slash (s ++ "/") = true.
Proof.
  induction s as [|c s IH]; [reflexivity|].
  simpl. destruct (s ++ "/") eqn:E; [destruct s; discriminate | exact IH].
Qed.

(** ** Decimal numerals *)

Lemma uint_digits_no_slash (d : Decimal.uint) :
  has_slash (DecimalString.NilEmpty.string_of_uint d) = false.
Proof. induction d; simpl; auto. Qed.

Lemma str_no_slash (n : Z) : has_slash (Py.str n) = false.
Proof.
  unfold Py.str.
  destruct (Z.to_int n) as [d|d]; simpl;
    destruct d; simpl; auto using uint_digits_no_slash.
Qed.

Lemma to_int_nonnil (n : Z) :
  Z.to_int n <> Decimal.Pos Decimal.Nil /\
  Z.to_int n <> Decimal.Neg Decimal.Nil.
Proof.
  destruct n as [|p|p]; simpl; split; try discriminate;
    intros H; injection H as H;
    exact (DecimalPos.Unsigned.to_uint_nonnil p H).
Qed.

(** [int(str(n)) == n]. *)
Lemma int_str (n : Z) : Py.int (Py.str n) = Some n.
Proof.
  unfold Py.int, Py.str.
  destruct (to_int_nonnil n) as [Hp Hn].
  rewrite (DecimalString.NilZero.isi _ Hp Hn). simpl.
  now rewrite DecimalZ.of_to.
Qed.

Lemma str_inj (n m : Z) : Py.str n = Py.str m -> n = m.
Proof.
  intros H. apply (f_equal Py.int) in H. rewrite !int_str in H.
  now injection H.
Qed.

(** ** Path resolver *)

Lemma get_step_dir_named (w : State) (name : string) (run : Z) :
  get_step_dir w (Some name) (Some run) = Ok (step_dir_of w name run).
Proof. reflexivity. Qed.

Lemma step_dir_of_ends_slash (w : State) (name : string) (run : Z) :
  Py.ends_slash (step_dir_of w name run) = true.
Proof.
  unfold step_dir_of.
  rewrite <- (append_assoc name), <- append_assoc.
  apply ends_slash_append.
Qed.

Lemma step_dir_of_suffix (w : State) (s name : string) (run : Z) :
  step_dir_of (set_step_dir_suffix s w) name run
  = write_basedir w ++ dataset_name w ++ "_" ++ Py.str run ++ "/"
    ++ name ++ s ++ "/".
Proof.
  unfold step_dir_of, get_write_dir.
  cbn [write_basedir dataset_name __step_dir_suffix set_step_dir_suffix].
  now rewrite !append_assoc.
Qed.

(** C4, as stated, fails: two catalog steps, one of them with a suffix, share
    a directory.  Step [gen_candidates] with suffix [_eval] and step
    [gen_candidates_eval] without suffix are distinct triples of run 0 with
    the same path. *)
Lemma step_dir_collision :
  (0, "gen_candidates", "_eval") <> (0, "gen_candidates_eval", "") /\
  get_step_dir (set_step_dir_suffix "_eval" Sample.start)
    (Some "gen_candidates") (Some 0)
  = get_step_dir (set_step_dir_suffix "" Sample.start)
      (Some "gen_candidates_eval") (Some 0).
Proof. split; [discriminate | reflexivity]. Qed.

(** C4, amended: the step directory is a function of the triple, and two
    triples (run, step name, suffix) have the same directory exactly when
    they have the same run and the same concatenation of step name and
    suffix.  So the path is injective in (run, step name) for a fixed suffix
    and in (run, suffix) for a fixed step name. *)
Theorem step_dir_eq_iff (w : State) (r1 r2 : Z) (n1 n2 s1 s2 : string) :
  (get_step_dir (set_step_dir_suffix s1 w) (Some n1) (Some r1)
   = get_step_dir (set_step_dir_suffix s2 w) (Some n2) (Some r2)
   <-> r1 = r2 /\ n1 ++ s1 = n2 ++ s2)
  /\ (get_step_dir (set_step_dir_suffix s1 w) (Some n1) (Some r1)
      = get_step_dir (set_step_dir_suffix s1 w) (Some n2) (Some r2)
      <-> r1 = r2 /\ n1 = n2)
  /\ (get_step_dir (set_step_dir_suffix s1 w) (Some n1) (Some r1)
      = get_step_dir (set_step_dir_suffix s2 w) (Some n1) (Some r2)
      <-> r1 = r2 /\ s1 = s2).
Proof.
  assert (main : forall a b c d,
    get_step_dir (set_step_dir_suffix b w) (Some a) (Some r1)
    = get_step_dir (set_step_dir_suffix d w) (Some c) (Some r2)
    <-> r1 = r2 /\ a ++ b = c ++ d).
  { intros a b c d. rewrite !get_step_dir_named, !step_dir_of_suffix. split.
    - intros H. injection H as H.
      do 2 apply append_inv_head in H.
      change ("_" ++ ?x) with (String "_" x) in H. injection H as H.
      change ("/" ++ ?x) with (String Py.slash x) in H.
      apply split_at_first_slash in H; try apply str_no_slash.
      destruct H as [Hr H]. split; [now apply str_inj|].
      rewrite <- !append_assoc in H. now apply append_inv_tail in H.
    - intros [-> H].
      now rewrite <- (append_assoc a b), <- (append_assoc c d), H. }
  split; [apply main|]. split.
  - rewrite main. split; intros [Hr H]; split; trivial.
    + now apply append_inv_tail in H.
    + now rewrite H.
  - rewrite main. split; intros [Hr H]; split; trivial.
    + now apply append_inv_head in H.
    + now rewrite H.
Qed.

(** ** Lineage resolver *)

Lemma range_down_count (n : nat) :
  map (fun k => Z.of_nat n - Z.of_nat k) (seq 0 (S n)) = count_down n.
Proof.
  induction n as [|n IH].
  - reflexivity.
  - change (seq 0 (S (S n))) with (0%nat :: seq 1 (S n)).
    rewrite <- seq_shift, map_cons, map_map.
    change (count_down (S n)) with (Z.of_nat (S n) :: count_down n).
    f_equal; try lia.
    rewrite <- IH. apply map_ext. intros k. lia.
Qed.

(** [list(range(i, -1, -1))] is i, i-1, ..., 0. *)
Lemma range_down_spec (i : Z) :
  Py.range_down i = if i <? 0 then [] else count_down (Z.to_nat i).
Proof.
  unfold Py.range_down. destruct (i <? 0) eqn:E.
  - apply Z.ltb_lt in E. now replace (Z.to_nat (i + 1)) with 0%nat by lia.
  - apply Z.ltb_ge in E.
    replace (Z.to_nat (i + 1)) with (S (Z.to_nat i)) by lia.
    rewrite <- range_down_count. apply map_ext. intros k. lia.
Qed.

Lemma trial_runs_chain (w : State) :
  trial_runs w = lineage_chain (__run w) (__init_run w).
Proof. unfold trial_runs, lineage_chain. now rewrite range_down_spec. Qed.

Lemma get_step_dir_resolved (w : State) (sn : option string) (name : string)
    (run : Z) :
  resolved_name w sn = Some name ->
  get_step_dir w sn (Some run) = Ok (step_dir_of w name run).
Proof.
  unfold resolved_name, get_step_dir. intros H.
  destruct sn as [s|]; [injection H as ->; reflexivity|].
  now rewrite H.
Qed.

Lemma exists_step_dir (w : State) (name : string) (run : Z) :
  Fs.exists_ (fs w) (step_dir_of w name run)
  = Fs.isdir (fs w) (step_dir_of w name run).
Proof. unfold Fs.exists_. now rewrite step_dir_of_ends_slash. Qed.

(** The loop returns the directory of the first run that has one, and
    otherwise raises with the directory it tried last. *)
Lemma for_run_in_spec (w : State) (sn : option string) (name : string)
    (runs : list Z) (tried : option string) (trial : list Z) :
  resolved_name w sn = Some name ->
  for_run_in sn runs tried trial w =
  (w,
   match find (fun run => Fs.isdir (fs w) (step_dir_of w name run)) runs with
   | Some run => Ok (step_dir_of w name run)
   | None =>
       match
         fold_left (fun _ run => Some (step_dir_of w name run)) runs tried
       with
       | Some d =>
           Raise (FileNotFoundError
                    ("Did not find " ++ d ++ " in runs " ++ Py.str_list trial
                     ++ "."))
       | None => Raise (UnboundLocalError "step_dir")
       end
   end).
Proof.
  intros Hname. revert tried.
  induction runs as [|run rest IH]; intros tried.
  - simpl. now destruct tried.
  - cbn [for_run_in find fold_left].
    unfold bind at 1, lift. rewrite (get_step_dir_resolved _ _ _ run Hname).
    unfold bind at 1, os_path_exists, gets. rewrite exists_step_dir.
    destruct (Fs.isdir (fs w) (step_dir_of w name run)); [reflexivity|].
    apply IH.
Qed.

Lemma last_any_default (x a b : Z) (l : list Z) :
  last (x :: l) a = last (x :: l) b.
Proof.
  revert x. induction l as [|y l IH]; intros x; [reflexivity|].
  change (last (y :: l) a = last (y :: l) b). apply IH.
Qed.

Lemma fold_left_last_tried (f : Z -> string) (runs : list Z) (r : Z)
    (tried : option string) :
  fold_left (fun _ run => Some (f run)) (r :: runs) tried
  = Some (f (last (r :: runs) r)).
Proof.
  revert r tried. induction runs as [|x runs IH]; intros r tried.
  - reflexivity.
  - change (fold_left (fun _ run => Some (f run)) (x :: runs) (Some (f r))
            = Some (f (last (x :: runs) r))).
    rewrite IH. do 2 f_equal. apply last_any_default.
Qed.

Lemma get_step_dir_for_load_spec (w : State) (sn : option string)
    (name : string) :
  resolved_name w sn = Some name ->
  let chain := lineage_chain (__run w) (__init_run w) in
  _get_step_dir_for_load sn w =
  (w,
   match find (fun run => Fs.isdir (fs w) (step_dir_of w name run)) chain with
   | Some run => Ok (step_dir_of w name run)
   | None =>
       Raise (FileNotFoundError
                ("Did not find " ++ step_dir_of w name (last chain (__run w))
                 ++ " in runs " ++ Py.str_list chain ++ "."))
   end).
Proof.
  intros Hname chain. unfold _get_step_dir_for_load, bind, gets.
  rewrite (for_run_in_spec _ _ _ _ _ _ Hname), trial_runs_chain.
  fold chain. destruct (find _ chain); [reflexivity|].
  unfold chain, lineage_chain. now rewrite fold_left_last_tried.
Qed.

(** ** Files *)

Lemma lookup_store_same (p : string) (c : content)
    (l : list (string * content)) :
  Fs.lookup p (Fs.store p c l) = Some c.
Proof.
  induction l as [|[q c'] l IH]; simpl.
  - now rewrite String.eqb_refl.
  - destruct (String.eqb p q) eqn:E; simpl; rewrite E; [reflexivity | exact IH].
Qed.

Lemma lookup_store_other (p q : string) (c : content)
    (l : list (string * content)) :
  p <> q -> Fs.lookup q (Fs.store p c l) = Fs.lookup q l.
Proof.
  intros Hpq. induction l as [|[r c'] l IH]; simpl.
  - destruct (String.eqb_spec q p); [congruence | reflexivity].
  - destruct (String.eqb_spec p r) as [->|Hpr]; simpl.
    + destruct (String.eqb_spec q r); [congruence | reflexivity].
    + destruct (String.eqb q r); [reflexivity | exact IH].
Qed.

Lemma write_ok (disk disk' : FS) (p : string) (c : content) :
  Fs.write disk p c = Ok disk' ->
  disk' = mkFS (dirs disk) (Fs.store p c (files disk)).
Proof.
  unfold Fs.write. intros H.
  destruct (Fs.isfile disk p); [congruence|].
  destruct (Py.ends_slash p || Fs.isdir disk (p ++ "/")); [discriminate|].
  destruct (Fs.parent_ok disk p); congruence.
Qed.

(** Writing over a file that is there succeeds. *)
Lemma write_existing (disk : FS) (p : string) (c c' : content) :
  Fs.lookup p (files disk) = Some c' ->
  Fs.write disk p c = Ok (mkFS (dirs disk) (Fs.store p c (files disk))).
Proof. unfold Fs.write, Fs.isfile. now intros ->. Qed.

(** ** Run registry *)

Lemma load_avail_runs_inv (f : string) (w w1 : State) (r : result odict) :
  load_avail_runs f w = (w1, r) ->
  match r with
  | Ok d =>
      Fs.lookup f (files (fs w)) = Some (Json (JDict d))
      /\ w1 = set_avail_runs d w
  | Raise _ => w1 = w
  end.
Proof.
  unfold load_avail_runs, json_load, open_read, bind, lift, Fs.read.
  destruct (Fs.lookup f (files (fs w))) as [c|] eqn:E.
  - destruct c as [j| |]; cbn; try (intros H; injection H as <- <-; reflexivity).
    destruct j; cbn; intros H; injection H as <- <-; auto.
  - destruct (Fs.exists_ (fs w) f); intros H; injection H as <- <-;
      reflexivity.
Qed.

Lemma load_avail_runs_ok (f : string) (w : State) (d : odict) :
  Fs.lookup f (files (fs w)) = Some (Json (JDict d)) ->
  load_avail_runs f w = (set_avail_runs d w, Ok d).
Proof.
  intros H.
  unfold load_avail_runs, json_load, open_read, bind, lift, Fs.read.
  now rewrite H.
Qed.

(** What a successful run selection has done. *)
Lemma select_run_cases (w w1 : State) (f : string) (run run' : Z)
    (descr descr' : string) :
  select_run f run descr w = (w1, Ok (run', descr')) ->
  (run = -1 /\ Fs.exists_ (fs w) f = true /\
   exists reg k n,
     Fs.lookup f (files (fs w)) = Some (Json (JDict reg))
     /\ w1 = set_avail_runs reg w
     /\ OD.last_key reg = Some k /\ Py.int k = Some n
     /\ run' = (if String.eqb descr "" then n else n + 1)
     /\ descr' = descr)
  \/ (run = -1 /\ Fs.exists_ (fs w) f = false /\ w1 = w /\ run' = 0
      /\ descr' = (if String.eqb descr "" then "run zero" else descr))
  \/ (run <> -1 /\
      exists reg,
        Fs.lookup f (files (fs w)) = Some (Json (JDict reg))
        /\ w1 = set_avail_runs reg w /\ run' = run /\ descr' = descr).
Proof.
  unfold select_run. destruct (Z.eqb_spec run (-1)) as [->|Hrun].
  - unfold bind at 1, os_path_exists, gets.
    destruct (Fs.exists_ (fs w) f) eqn:Hex.
    + unfold bind.
      destruct (load_avail_runs f w) as [w2 [reg|e]] eqn:Hload;
        [|discriminate].
      apply load_avail_runs_inv in Hload as [Hfile ->].
      destruct (OD.last_key reg) as [k|] eqn:Hk; [|discriminate].
      destruct (Py.int k) as [n|] eqn:Hn; [|discriminate].
      intros H. left. split; [reflexivity|]. split; [reflexivity|].
      exists reg, k, n.
      destruct (String.eqb descr ""); cbn in H; injection H as <- <- <-; auto 10.
    + intros H. injection H as <- <- <-. right. left. auto.
  - unfold bind.
    destruct (load_avail_runs f w) as [w2 [reg|e]] eqn:Hload; [|discriminate].
    apply load_avail_runs_inv in Hload as [Hfile ->].
    intros H. injection H as <- <- <-. right. right. split; [exact Hrun|].
    exists reg. auto.
Qed.

(** The selection touches no global but [avail_runs], which becomes the
    registry the call starts from. *)
Lemma select_run_frame (w w1 : State) (run run' : Z) (descr descr' : string) :
  select_run (runs_filename w) run descr w = (w1, Ok (run', descr')) ->
  fs w1 = fs w /\ clock w1 = clock w
  /\ write_basedir w1 = write_basedir w /\ dataset_name w1 = dataset_name w
  /\ __step_dir_suffix w1 = __step_dir_suffix w
  /\ avail_runs w1 = registry_before w run.
Proof.
  intros H. unfold registry_before, registry_on_disk.
  apply select_run_cases in H
    as [(-> & Hex & reg & k & n & Hfile & -> & _)
       |[(-> & Hex & -> & _) | (Hrun & reg & Hfile & -> & _)]].
  - rewrite Hex, Hfile. cbn. auto 10.
  - rewrite Hex. cbn. auto 10.
  - apply Z.eqb_neq in Hrun. rewrite Hrun, Hfile. cbn. auto 10.
Qed.

Lemma keep_descr_pure (runs : odict) (run : Z) (descr : string) (w : State) :
  keep_descr runs run descr w = (w, answer (keep_descr runs run descr) w).
Proof.
  unfold answer, keep_descr, entry_descr.
  destruct runs as [|b runs]; [reflexivity|].
  destruct (String.eqb descr ""); [|reflexivity].
  destruct (OD.get (Py.str run) (b :: runs)) as [[]|]; try reflexivity.
  - destruct (Py.index _ 1); reflexivity.
  - destruct (Py.index l 1); reflexivity.
Qed.

Lemma ensure_dir_frame (p : string) (w : State) :
  let w' := after (ensure_dir p) w in
  answer (ensure_dir p) w = Ok tt
  /\ files (fs w') = files (fs w) /\ avail_runs w' = avail_runs w
  /\ __run w' = __run w /\ __init_run w' = __init_run w
  /\ __step_dir_suffix w' = __step_dir_suffix w
  /\ __step_name w' = __step_name w
  /\ write_basedir w' = write_basedir w /\ dataset_name w' = dataset_name w.
Proof.
  unfold after, answer, ensure_dir, modify. cbn.
  destruct (Py.dirname p); [auto 10|].
  destruct (Fs.isdir (fs w) _); cbn; auto 10.
Qed.

(** ** Dictionaries *)

Lemma get_set_same (k : string) (v : json) (d : odict) :
  OD.get k (OD.set k v d) = Some v.
Proof.
  induction d as [|[k' v'] d IH]; simpl.
  - now rewrite String.eqb_refl.
  - destruct (String.eqb k k') eqn:E; simpl; rewrite E; [reflexivity | exact IH].
Qed.

Lemma get_set_other (k k' : string) (v : json) (d : odict) :
  k' <> k -> OD.get k' (OD.set k v d) = OD.get k' d.
Proof.
  intros Hk. induction d as [|[q v'] d IH]; simpl.
  - destruct (String.eqb_spec k' k); [congruence | reflexivity].
  - destruct (String.eqb_spec k q) as [->|Hq]; simpl.
    + destruct (String.eqb_spec k' q); [congruence | reflexivity].
    + destruct (String.eqb k' q); [reflexivity | exact IH].
Qed.

Lemma mem_get (k : string) (d : odict) :
  OD.mem k d = true <-> OD.get k d <> None.
Proof.
  unfold OD.mem, OD.keys. induction d as [|[q v] d IH]; simpl.
  - split; [discriminate | congruence].
  - destruct (String.eqb k q); simpl; [split; [discriminate | reflexivity]|].
    exact IH.
Qed.

Lemma mem_In (k : string) (d : odict) :
  OD.mem k d = true <-> In k (OD.keys d).
Proof.
  unfold OD.mem. rewrite existsb_exists. split.
  - intros (x & Hx & E). apply String.eqb_eq in E. now subst.
  - intros H. exists k. split; [exact H | apply String.eqb_refl].
Qed.

(** A new key goes last. *)
Lemma set_fresh (k : string) (v : json) (d : odict) :
  OD.mem k d = false -> OD.set k v d = (d ++ [(k, v)])%list.
Proof.
  unfold OD.mem, OD.keys. induction d as [|[q v'] d IH]; simpl; intros H.
  - reflexivity.
  - apply orb_false_iff in H as [Hq H]. rewrite Hq. now rewrite IH.
Qed.

(** Assigning to a key adds no key but that one, and moves none. *)
Lemma keys_set (k : string) (v : json) (d : odict) :
  OD.keys (OD.set k v d)
  = if OD.mem k d then OD.keys d else (OD.keys d ++ [k])%list.
Proof.
  unfold OD.mem, OD.keys. induction d as [|[q v'] d IH]; simpl.
  - reflexivity.
  - destruct (String.eqb k q) eqn:E; simpl; [reflexivity|].
    rewrite IH. now destruct (existsb _ _).
Qed.

Lemma last_key_mem (k : string) (d : odict) :
  OD.last_key d = Some k -> OD.mem k d = true.
Proof.
  unfold OD.last_key. intros H. apply mem_In. unfold OD.keys.
  destruct (rev d) as [|[q v] r] eqn:E; [discriminate|].
  injection H as ->. apply in_map_iff. exists (k, v). split; [reflexivity|].
  apply in_rev. rewrite E. now left.
Qed.

(** No run identifier of a registry exceeds its highest one. *)
Lemma highest_id_bound (d : odict) (k m : Z) :
  highest_id d = Some m -> In (Py.str k) (OD.keys d) -> k <= m.
Proof.
  unfold highest_id.
  set (step := fun (acc : option Z) (key : string) =>
                 match Py.int key, acc with
                 | Some n, Some m => Some (Z.max n m)
                 | Some n, None => Some n
                 | None, _ => acc
                 end).
  assert (grow : forall l acc a m,
            acc = Some a -> fold_left step l acc = Some m -> a <= m).
  { induction l as [|x l IH]; intros acc a m0 -> H; simpl in H.
    - injection H as ->. lia.
    - unfold step at 2 in H. destruct (Py.int x) as [n|].
      + specialize (IH _ _ _ eq_refl H). lia.
      + exact (IH _ _ _ eq_refl H). }
  generalize (@None Z). induction (OD.keys d) as [|x l IH]; intros acc H Hin.
  - destruct Hin.
  - simpl in H. destruct Hin as [->|Hin].
    + unfold step at 2 in H. rewrite int_str in H.
      destruct acc as [a|].
      * specialize (grow _ _ _ _ eq_refl H). lia.
      * exact (grow _ _ _ _ eq_refl H).
    + exact (IH _ H Hin).
Qed.

Lemma ends_slash_append_nonempty (a b : string) :
  b <> "" -> Py.ends_slash (a ++ b) = Py.ends_slash b.
Proof.
  intros Hb. induction a as [|c a IH]; [reflexivity|].
  simpl. destruct (a ++ b) eqn:E; [|exact IH].
  destruct a; simpl in E; [subst b; now elim Hb | discriminate].
Qed.

Lemma runs_file_exists (w : State) (reg : odict) :
  registry_on_disk w = Some reg ->
  Fs.lookup (runs_filename w) (files (fs w)) = Some (Json (JDict reg))
  /\ Fs.exists_ (fs w) (runs_filename w) = true.
Proof.
  unfold registry_on_disk. intros H.
  destruct (Fs.lookup _ _) as [[[]| |]|] eqn:E; try discriminate.
  injection H as ->. split; [reflexivity|].
  unfold Fs.exists_, runs_filename.
  rewrite <- append_assoc, ends_slash_append_nonempty by discriminate.
  cbn [Py.ends_slash]. unfold Fs.isfile. rewrite append_assoc.
  fold (runs_filename w). now rewrite E.
Qed.

Lemma init_run_ok_inv (w w' : State) (run : Z) (descr : string) (init_run : Z) :
  _init_run run descr init_run w = (w', Ok tt) ->
  exists w1 run' descr' d,
    select_run (runs_filename w) run descr w = (w1, Ok (run', descr'))
    /\ answer (keep_descr (avail_runs w1) run' descr') w1 = Ok d
    /\ avail_runs w'
       = OD.set (Py.str run') (JList [JStr (clock w); d]) (avail_runs w1)
    /\ Fs.lookup (runs_filename w) (files (fs w'))
       = Some (Json (JDict (avail_runs w')))
    /\ __run w' = run'
    /\ __init_run w' = (if init_run >? -1 then init_run else run' - 1)
    /\ runs_filename w' = runs_filename w.
Proof.
  unfold _init_run. unfold bind at 1. unfold gets at 1. cbn beta iota.
  fold (runs_filename w). unfold bind at 1.
  destruct (select_run (runs_filename w) run descr w) as [w1 [[run' descr']|e]] eqn:Hsel;
    [|discriminate].
  cbn [fst snd].
  unfold bind at 1. unfold gets at 1. cbn beta iota.
  unfold bind at 1. rewrite keep_descr_pure.
  destruct (answer (keep_descr (avail_runs w1) run' descr') w1) as [d|e] eqn:Hd;
    [|discriminate].
  unfold bind at 1. unfold gets at 1. cbn beta iota.
  unfold bind at 1. unfold modify at 1. cbn beta iota.
  unfold bind at 1. unfold gets at 1. cbn beta iota.
  unfold bind at 1. unfold json_dump, open_write.
  cbn [fs set_avail_runs avail_runs].
  destruct (Fs.write (fs w1) (runs_filename w) _) as [disk|e] eqn:Hw;
    [|discriminate].
  apply write_ok in Hw.
  unfold bind at 1. unfold modify at 1. cbn beta iota.
  unfold bind at 1. unfold modify at 1. cbn beta iota.
  unfold bind at 1. unfold gets at 1. cbn beta iota.
  match goal with |- ensure_dir ?p ?w0 = _ -> _ =>
    pose proof (ensure_dir_frame p w0) as F; unfold after, answer in F;
    destruct (ensure_dir p w0) as [w2 r] end.
  cbn [fst snd] in F. destruct F as (_ & Ff & Fa & Fr & Fi & _ & _ & Fb & Fd).
  intros H. injection H as <- _.
  exists w1, run', descr', d.
  apply select_run_frame in Hsel as (_ & Hc & Hb & Hn & _).
  assert (Hrf : runs_filename w2 = runs_filename w).
  { unfold runs_filename. rewrite Fb, Fd. cbn. now rewrite Hb, Hn. }
  rewrite Ff, Fa, Fr, Fi. cbn. rewrite Hw. cbn.
  rewrite lookup_store_same, Hc. auto 10.
Qed.


Lemma init_run_succeeds (w w1 : State) (run run' : Z) (descr descr' : string)
    (init_run : Z) (d : json) :
  select_run (runs_filename w) run descr w = (w1, Ok (run', descr')) ->
  answer (keep_descr (avail_runs w1) run' descr') w1 = Ok d ->
  Fs.isfile (fs w) (runs_filename w) = true ->
  answer (_init_run run descr init_run) w = Ok tt.
Proof.
  intros Hsel Hd Hfile.
  unfold answer at 1, _init_run. unfold bind at 1. unfold gets at 1.
  cbn beta iota. fold (runs_filename w). unfold bind at 1. rewrite Hsel.
  cbn [fst snd].
  unfold bind at 1. unfold gets at 1. cbn beta iota.
  unfold bind at 1. rewrite keep_descr_pure, Hd.
  unfold bind at 1. unfold gets at 1. cbn beta iota.
  unfold bind at 1. unfold modify at 1. cbn beta iota.
  unfold bind at 1. unfold gets at 1. cbn beta iota.
  unfold bind at 1. unfold json_dump, open_write.
  cbn [fs set_avail_runs avail_runs].
  apply select_run_frame in Hsel as (Hfs & _). rewrite Hfs.
  unfold Fs.write. rewrite Hfile.
  unfold bind at 1. unfold modify at 1. cbn beta iota.
  unfold bind at 1. unfold modify at 1. cbn beta iota.
  unfold bind at 1. unfold gets at 1. cbn beta iota.
  match goal with |- snd (ensure_dir ?p ?w0) = _ =>
    exact (proj1 (ensure_dir_frame p w0)) end.
Qed.

(** Resuming from a persisted registry goes on from its last key. *)
Lemma select_run_resume (w : State) (reg : odict) (k : Z) (descr : string) :
  registry_on_disk w = Some reg ->
  OD.last_key reg = Some (Py.str k) ->
  select_run (runs_filename w) (-1) descr w
  = (set_avail_runs reg w,
     Ok (if String.eqb descr "" then k else k + 1, descr)).
Proof.
  intros Hreg Hlast. apply runs_file_exists in Hreg as [Hfile Hex].
  unfold select_run. change (-1 =? -1) with true. cbn iota.
  unfold bind at 1, os_path_exists, gets. rewrite Hex.
  unfold bind. rewrite (load_avail_runs_ok _ _ _ Hfile), Hlast, int_str.
  now destruct (String.eqb descr "").
Qed.

(** C3, as stated, fails: after run 0 was created and the runs 5 and 2 were
    selected explicitly, the persisted registry lists 0, 5, 2; its highest
    identifier is 5, and resuming with a description allocates run 3, the
    successor of the last entry, not run 6. *)
Lemma resume_after_out_of_order_pins :
  option_map OD.keys (registry_on_disk Sample.pinned2) = Some ["0"; "5"; "2"]
  /\ option_map highest_id (registry_on_disk Sample.pinned2) = Some (Some 5)
  /\ answer (_init_run (-1) "next" (-1)) Sample.pinned2 = Ok tt
  /\ __run (after (_init_run (-1) "next" (-1)) Sample.pinned2) = 3
  /\ __run (after (_init_run (-1) "next" (-1)) Sample.pinned2) <> 5 + 1.
Proof. vm_compute. repeat split; discriminate. Qed.

(** C3, amended: for every persisted registry whose last entry (the one
    added most recently) has identifier k, resuming with a non-empty
    description allocates run k+1 as the active run and records the new
    description (with the current time) under k+1; every entry under another
    identifier is unchanged and keeps its place.  When k is also the highest
    identifier, k+1 is new: the registry is the old one with the new entry
    appended. *)
Theorem resume_allocates_after_last (w : State) (reg : odict) (k : Z)
    (descr : string) (init_run : Z) :
  registry_on_disk w = Some reg ->
  OD.last_key reg = Some (Py.str k) ->
  descr <> "" ->
  let w' := after (_init_run (-1) descr init_run) w in
  let entry := JList [JStr (clock w); JStr descr] in
  let reg' := OD.set (Py.str (k + 1)) entry reg in
  answer (_init_run (-1) descr init_run) w = Ok tt
  /\ __run w' = k + 1
  /\ registry_on_disk w' = Some reg'
  /\ avail_runs w' = reg'
  /\ OD.get (Py.str (k + 1)) reg' = Some entry
  /\ (forall key, key <> Py.str (k + 1) -> OD.get key reg' = OD.get key reg)
  /\ (highest_id reg = Some k -> reg' = (reg ++ [(Py.str (k + 1), entry)])%list).
Proof.
  intros Hreg Hlast Hdescr w' entry reg'.
  pose proof (select_run_resume w reg k descr Hreg Hlast) as Hsel.
  apply String.eqb_neq in Hdescr. rewrite Hdescr in Hsel.
  assert (Hkeep : forall w1 : State,
            answer (keep_descr (avail_runs (set_avail_runs reg w)) (k + 1) descr)
              w1 = Ok (JStr descr)).
  { intros w1. unfold keep_descr. cbn [avail_runs set_avail_runs].
    destruct reg; [reflexivity|]. now rewrite Hdescr. }
  assert (Hok : answer (_init_run (-1) descr init_run) w = Ok tt).
  { eapply init_run_succeeds; [exact Hsel | apply Hkeep |].
    apply runs_file_exists in Hreg as [Hfile _].
    unfold Fs.isfile. now rewrite Hfile. }
  split; [exact Hok|].
  destruct (_init_run (-1) descr init_run w) as [w2 r] eqn:Hrun.
  unfold answer in Hok. rewrite Hrun in Hok. cbn in Hok. subst r.
  assert (Hw : w' = w2) by (unfold w', after; now rewrite Hrun).
  apply init_run_ok_inv in Hrun
    as (w1 & run' & descr' & d & Hsel' & Hd & Hav & Hdisk & Hr & _ & Hf).
  rewrite Hsel in Hsel'. injection Hsel' as <- <- <-.
  rewrite Hkeep in Hd. injection Hd as <-.
  cbn [avail_runs set_avail_runs] in Hav. fold entry in Hav. fold reg' in Hav.
  rewrite Hw. split; [exact Hr|].
  split; [unfold registry_on_disk; now rewrite Hf, Hdisk, Hav|].
  split; [exact Hav|]. split; [apply get_set_same|].
  split; [intros key Hkey; now apply get_set_other|].
  intros Hhigh. apply set_fresh.
  destruct (OD.mem (Py.str (k + 1)) reg) eqn:Hmem; [|reflexivity].
  apply mem_In in Hmem. pose proof (highest_id_bound _ _ _ Hhigh Hmem). lia.
Qed.

Lemma resume_allocates_after_last_witness :
  let reg := [("0", JList [JStr "2017-03-01 09:00"; JStr "run zero"])] in
  registry_on_disk Sample.resumed = Some reg
  /\ OD.last_key reg = Some (Py.str 0)
  /\ "second" <> ""
  /\ __run (after (_init_run (-1) "second" (-1)) Sample.resumed) = 0 + 1
  /\ registry_on_disk (after (_init_run (-1) "second" (-1)) Sample.resumed)
     = Some (OD.set (Py.str (0 + 1))
               (JList [JStr (clock Sample.resumed); JStr "second"]) reg).
Proof.
  intros reg.
  assert (H1 : registry_on_disk Sample.resumed = Some reg)
    by (vm_compute; reflexivity).
  assert (H2 : OD.last_key reg = Some (Py.str 0)) by reflexivity.
  assert (H3 : "second" <> "") by discriminate.
  destruct (resume_allocates_after_last Sample.resumed reg 0 "second" (-1)
              H1 H2 H3) as (_ & Hrun & Hdisk & _).
  repeat split; assumption.
Defined.

(** C8: for every persisted registry whose last entry, the run that is
    resumed, holds a description, resuming with an empty description makes
    that run the active run and writes its entry back with the stored
    description; no entry is added or moved. *)
Theorem resume_keeps_description (w : State) (reg : odict) (k : Z)
    (l : list json) (d : json) (init_run : Z) :
  registry_on_disk w = Some reg ->
  OD.last_key reg = Some (Py.str k) ->
  OD.get (Py.str k) reg = Some (JList l) ->
  Py.index l 1 = Some d ->
  let w' := after (_init_run (-1) "" init_run) w in
  let reg' := OD.set (Py.str k) (JList [JStr (clock w); d]) reg in
  answer (_init_run (-1) "" init_run) w = Ok tt
  /\ __run w' = k
  /\ registry_on_disk w' = Some reg'
  /\ OD.get (Py.str k) reg' = Some (JList [JStr (clock w); d])
  /\ Py.index [JStr (clock w); d] 1 = Some d
  /\ OD.keys reg' = OD.keys reg.
Proof.
  intros Hreg Hlast Hget Hidx w' reg'.
  pose proof (select_run_resume w reg k "" Hreg Hlast) as Hsel.
  cbn [String.eqb] in Hsel.
  assert (Hkeep : forall w1 : State,
            answer (keep_descr (avail_runs (set_avail_runs reg w)) k "") w1
            = Ok d).
  { intros w1. unfold keep_descr, entry_descr. cbn [avail_runs set_avail_runs].
    destruct reg as [|b reg]; [discriminate|].
    cbn [String.eqb]. now rewrite Hget, Hidx. }
  assert (Hok : answer (_init_run (-1) "" init_run) w = Ok tt).
  { eapply init_run_succeeds; [exact Hsel | apply Hkeep |].
    apply runs_file_exists in Hreg as [Hfile _].
    unfold Fs.isfile. now rewrite Hfile. }
  split; [exact Hok|].
  destruct (_init_run (-1) "" init_run w) as [w2 r] eqn:Hrun.
  unfold answer in Hok. rewrite Hrun in Hok. cbn in Hok. subst r.
  assert (Hw : w' = w2) by (unfold w', after; now rewrite Hrun).
  apply init_run_ok_inv in Hrun
    as (w1 & run' & descr' & d' & Hsel' & Hd & Hav & Hdisk & Hr & _ & Hf).
  rewrite Hsel in Hsel'. injection Hsel' as <- <- <-.
  rewrite Hkeep in Hd. injection Hd as <-.
  cbn [avail_runs set_avail_runs] in Hav. fold reg' in Hav.
  rewrite Hw. split; [exact Hr|].
  split; [unfold registry_on_disk; now rewrite Hf, Hdisk, Hav|].
  split; [apply get_set_same|]. split; [reflexivity|].
  unfold reg'. now rewrite keys_set, (last_key_mem _ _ Hlast).
Qed.

Lemma resume_keeps_description_witness :
  let reg := [("0", JList [JStr "2017-03-01 09:00"; JStr "run zero"])] in
  let later := Sample.tick "2017-03-02 18:30" Sample.resumed in
  registry_on_disk later = Some reg
  /\ OD.last_key reg = Some (Py.str 0)
  /\ OD.get (Py.str 0) reg
     = Some (JList [JStr "2017-03-01 09:00"; JStr "run zero"])
  /\ Py.index [JStr "2017-03-01 09:00"; JStr "run zero"] 1
     = Some (JStr "run zero")
  /\ __run (after (_init_run (-1) "" (-1)) later) = 0
  /\ registry_on_disk (after (_init_run (-1) "" (-1)) later)
     = Some [("0", JList [JStr "2017-03-02 18:30"; JStr "run zero"])].
Proof.
  intros reg later.
  assert (H1 : registry_on_disk later = Some reg) by (vm_compute; reflexivity).
  assert (H2 : OD.last_key reg = Some (Py.str 0)) by reflexivity.
  assert (H3 : OD.get (Py.str 0) reg
               = Some (JList [JStr "2017-03-01 09:00"; JStr "run zero"]))
    by reflexivity.
  assert (H4 : Py.index [JStr "2017-03-01 09:00"; JStr "run zero"] 1
               = Some (JStr "run zero")) by reflexivity.
  destruct (resume_keeps_description later reg 0 _ _ (-1) H1 H2 H3 H4)
    as (_ & Hrun & Hdisk & _).
  repeat split; assumption.
Defined.

(** C10: every call of the run initialization that returns has written the
    registry back with the entry of the active run replaced by (current
    time, description) -- also when an existing run is resumed with an empty
    description -- and with every other entry as it was in the registry the
    call started from. *)
Theorem init_run_rewrites_active_entry_only (w w' : State) (run : Z)
    (descr : string) (init_run : Z) :
  _init_run run descr init_run w = (w', Ok tt) ->
  exists d : json,
    let entry := JList [JStr (clock w); d] in
    let before := registry_before w run in
    avail_runs w' = OD.set (Py.str (__run w')) entry before
    /\ registry_on_disk w' = Some (avail_runs w')
    /\ OD.get (Py.str (__run w')) (avail_runs w') = Some entry
    /\ (forall key, key <> Py.str (__run w') ->
        OD.get key (avail_runs w') = OD.get key before)
    /\ OD.keys (avail_runs w')
       = (if OD.mem (Py.str (__run w')) before then OD.keys before
          else (OD.keys before ++ [Py.str (__run w')])%list).
Proof.
  intros H.
  apply init_run_ok_inv in H
    as (w1 & run' & descr' & d & Hsel & _ & Hav & Hdisk & Hr & _ & Hf).
  apply select_run_frame in Hsel as (_ & _ & _ & _ & _ & Hbefore).
  exists d. cbn zeta. rewrite Hr, Hav, Hbefore.
  split; [reflexivity|].
  split; [unfold registry_on_disk; now rewrite Hf, Hdisk, Hav, Hbefore|].
  split; [apply get_set_same|].
  split; [intros key Hkey; now apply get_set_other|].
  apply keys_set.
Qed.

Lemma init_run_rewrites_active_entry_only_witness :
  let later := Sample.tick "2017-03-02 18:30" Sample.pinned2 in
  let w' := after (_init_run 5 "" (-1)) later in
  _init_run 5 "" (-1) later = (w', Ok tt)
  /\ OD.get "5" (registry_before later 5)
     = Some (JList [JStr "2017-03-01 09:00"; JStr "five"])
  /\ exists d : json,
       OD.get (Py.str (__run w')) (avail_runs w')
       = Some (JList [JStr "2017-03-02 18:30"; d])
       /\ forall key, key <> Py.str (__run w') ->
          OD.get key (avail_runs w') = OD.get key (registry_before later 5).
Proof.
  intros later w'.
  assert (H : _init_run 5 "" (-1) later = (w', Ok tt))
    by (vm_compute; reflexivity).
  split; [exact H|]. split; [vm_compute; reflexivity|].
  destruct (init_run_rewrites_active_entry_only later w' 5 "" (-1) H)
    as (d & _ & _ & Hget & Hothers & _).
  exists d. split; [exact Hget | exact Hothers].
Defined.

(** ** Lineage resolver: the claims *)

Lemma find_first {A : Type} (p : A -> bool) (pre post : list A) (x : A) :
  (forall y, In y pre -> p y = false) -> p x = true ->
  find p (pre ++ x :: post) = Some x.
Proof.
  intros Hpre Hx. induction pre as [|y pre IH]; simpl.
  - now rewrite Hx.
  - rewrite (Hpre y (or_introl eq_refl)). apply IH.
    intros z Hz. apply Hpre. now right.
Qed.

Lemma find_none_all {A : Type} (p : A -> bool) (l : list A) :
  (forall y, In y l -> p y = false) -> find p l = None.
Proof.
  intros H. induction l as [|y l IH]; simpl; [reflexivity|].
  rewrite (H y (or_introl eq_refl)). apply IH. intros z Hz. apply H. now right.
Qed.

(** C1: with current run r and initialization run i, the resolver tries the
    runs r, i, i-1, ..., 0 in this order and returns the step directory of
    the first of them that has one; whether the requested file is in that
    directory plays no role (a load then fails instead of searching on).
    The run initialization sets i to the pinned run, else to r-1. *)
Theorem lineage_first_existing (w : State) (sn : option string)
    (name : string) :
  resolved_name w sn = Some name ->
  let chain := lineage_chain (__run w) (__init_run w) in
  let has_dir := fun run => Fs.isdir (fs w) (step_dir_of w name run) in
  trial_runs w = chain
  /\ (forall pre run post,
        chain = (pre ++ run :: post)%list ->
        (forall r, In r pre -> has_dir r = false) ->
        has_dir run = true ->
        _get_step_dir_for_load sn w = (w, Ok (step_dir_of w name run))
        /\ forall basename,
             Fs.lookup (step_dir_of w name run ++ basename) (files (fs w))
             = None ->
             exists e, load_json basename sn w = (w, Raise e))
  /\ (forall w0 w1 run descr init_run,
        _init_run run descr init_run w0 = (w1, Ok tt) ->
        __init_run w1 = if init_run >? -1 then init_run else __run w1 - 1).
Proof.
  intros Hname chain has_dir. split; [apply trial_runs_chain|]. split.
  - intros pre run post Hchain Hpre Hrun.
    assert (Hres : _get_step_dir_for_load sn w
                   = (w, Ok (step_dir_of w name run))).
    { rewrite (get_step_dir_for_load_spec w sn name Hname).
      fold chain. fold has_dir. rewrite Hchain.
      now rewrite (find_first has_dir pre post run Hpre Hrun). }
    split; [exact Hres|]. intros basename Hfile.
    unfold load_json. unfold bind at 1. rewrite Hres.
    unfold json_load, open_read. unfold bind, lift, Fs.read. cbv beta.
    rewrite Hfile.
    destruct (Fs.exists_ (fs w) _); eexists; reflexivity.
  - intros w0 w1 run descr init_run H.
    apply init_run_ok_inv in H as (_ & run' & _ & _ & _ & _ & _ & _ & Hr & Hi & _).
    now rewrite Hi, Hr.
Qed.

Lemma lineage_first_existing_witness :
  resolved_name Sample.lineage (Some "S") = Some "S"
  /\ trial_runs Sample.lineage = [3; 1; 0]
  /\ _get_step_dir_for_load (Some "S") Sample.lineage
     = (Sample.lineage, Ok "/data/dsb3_0/S/")
  /\ exists e, load_json "out.json" (Some "S") Sample.lineage
               = (Sample.lineage, Raise e).
Proof.
  destruct (lineage_first_existing Sample.lineage (Some "S") "S" eq_refl)
    as (Hchain & Hfirst & _).
  destruct (Hfirst [3; 1] 0 [] eq_refl) as [Hdir Hload].
  - intros r [<-|[<-|[]]]; reflexivity.
  - reflexivity.
  - split; [reflexivity|]. split; [exact Hchain|]. split; [exact Hdir|].
    apply Hload. reflexivity.
Defined.

(** C2: when no run of the chain has the step directory, the resolver, and
    with it every load, raises [FileNotFoundError]; the message ends with the
    list of the runs tried, which is exactly the chain. *)
Theorem lineage_exhausted (w : State) (sn : option string) (name : string) :
  resolved_name w sn = Some name ->
  let chain := lineage_chain (__run w) (__init_run w) in
  (forall run, In run chain ->
     Fs.isdir (fs w) (step_dir_of w name run) = false) ->
  let not_found :=
    FileNotFoundError
      ("Did not find " ++ step_dir_of w name (last chain (__run w))
       ++ " in runs " ++ Py.str_list chain ++ ".") in
  _get_step_dir_for_load sn w = (w, Raise not_found)
  /\ forall basename, load_json basename sn w = (w, Raise not_found).
Proof.
  intros Hname chain Hnone not_found.
  assert (Hres : _get_step_dir_for_load sn w = (w, Raise not_found)).
  { rewrite (get_step_dir_for_load_spec w sn name Hname). fold chain.
    now rewrite (find_none_all _ chain Hnone). }
  split; [exact Hres|]. intros basename.
  unfold load_json, bind. now rewrite Hres.
Qed.

Lemma lineage_exhausted_witness :
  resolved_name Sample.run3_init1 (Some "S") = Some "S"
  /\ lineage_chain (__run Sample.run3_init1) (__init_run Sample.run3_init1)
     = [3; 1; 0]
  /\ (forall run, In run [3; 1; 0] ->
        Fs.isdir (fs Sample.run3_init1)
          (step_dir_of Sample.run3_init1 "S" run) = false)
  /\ load_json "out.json" (Some "S") Sample.run3_init1
     = (Sample.run3_init1,
        Raise (FileNotFoundError
                 "Did not find /data/dsb3_0/S/ in runs [3, 1, 0]."))
  /\ Py.str_list [3; 1; 0] = "[3, 1, 0]".
Proof.
  assert (Hnone : forall run, In run [3; 1; 0] ->
            Fs.isdir (fs Sample.run3_init1)
              (step_dir_of Sample.run3_init1 "S" run) = false).
  { intros run [<-|[<-|[<-|[]]]]; reflexivity. }
  destruct (lineage_exhausted Sample.run3_init1 (Some "S") "S" eq_refl Hnone)
    as [_ Hload].
  split; [reflexivity|]. split; [reflexivity|]. split; [exact Hnone|].
  split; [exact (Hload "out.json") | reflexivity].
Defined.

(** ** Structured store *)

Lemma wfb_wf (d : odict) : OD.wfb d = true -> OD.wf d.
Proof.
  unfold OD.wf. induction d as [|[k v] d IH]; simpl; intros H.
  - constructor.
  - apply andb_true_iff in H as [Hk Hd]. constructor; [|now apply IH].
    intros Hin. apply mem_In in Hin. rewrite Hin in Hk. discriminate.
Qed.

Lemma get_none_not_in (k : string) (d : odict) :
  ~ In k (OD.keys d) -> OD.get k d = None.
Proof.
  intros H. destruct (OD.get k d) eqn:E; [|reflexivity].
  elim H. apply mem_In, mem_get. congruence.
Qed.

(** After [d.update(e)] a key of [e] has [e]'s value, any other key keeps
    its own. *)
Lemma get_update (k : string) (d e : odict) :
  OD.wf e ->
  OD.get k (OD.update d e)
  = match OD.get k e with Some v => Some v | None => OD.get k d end.
Proof.
  unfold OD.wf, OD.update. revert d.
  induction e as [|[q v] e IH]; intros d Hwf; [reflexivity|].
  inversion Hwf as [|? ? Hq He]; subst.
  cbn [fold_left fst snd]. rewrite (IH _ He). cbn [OD.get].
  destruct (String.eqb_spec k q) as [->|Hk].
  - rewrite (get_none_not_in _ _ Hq). apply get_set_same.
  - destruct (OD.get k e); [reflexivity|]. now apply get_set_other.
Qed.

Lemma in_keys_update (k : string) (d e : odict) :
  OD.wf e ->
  In k (OD.keys (OD.update d e)) <-> In k (OD.keys d) \/ In k (OD.keys e).
Proof.
  intros Hwf. rewrite <- !mem_In, !mem_get, (get_update k d e Hwf).
  destruct (OD.get k e), (OD.get k d); split; intros H;
    try (left; congruence); try (right; congruence); try congruence.
  destruct H; congruence.
Qed.

Lemma prefix_refl (s : string) : prefix s s = true.
Proof. rewrite <- (append_nil_r s) at 2. apply prefix_append. Qed.

Lemma lookup_In (p : string) (c : content) (l : list (string * content)) :
  Fs.lookup p l = Some c -> In p (map fst l).
Proof.
  induction l as [|[q c'] l IH]; simpl; [discriminate|].
  destruct (String.eqb_spec p q) as [->|]; [now left | right; now apply IH].
Qed.

(** What is below a directory makes the directory exist. *)
Lemma isdir_of_path (disk : FS) (d rest : string) :
  In (d ++ rest) (Fs.paths disk) -> Fs.isdir disk d = true.
Proof.
  intros H. unfold Fs.isdir. apply existsb_exists.
  exists (d ++ rest). split; [exact H | apply prefix_append].
Qed.

Lemma isdir_parent (disk : FS) (d rest : string) :
  Fs.isdir disk (d ++ rest) = true -> Fs.isdir disk d = true.
Proof.
  unfold Fs.isdir. rewrite !existsb_exists. intros (p & Hp & Hpre).
  exists p. split; [exact Hp | now apply prefix_of_longer in Hpre].
Qed.

Lemma exists_in_dir (disk : FS) (d rest : string) :
  Fs.exists_ disk (d ++ rest) = true -> Fs.isdir disk d = true.
Proof.
  unfold Fs.exists_, Fs.isfile.
  destruct (Py.ends_slash (d ++ rest)); [apply isdir_parent|].
  destruct (Fs.lookup (d ++ rest) (files disk)) as [c|] eqn:E.
  - intros _. apply (isdir_of_path disk d rest).
    unfold Fs.paths. apply in_or_app. right. exact (lookup_In _ _ _ E).
  - cbn. rewrite append_assoc. apply isdir_parent.
Qed.

Lemma lookup_exists (disk : FS) (p : string) (c : content) :
  Fs.lookup p (files disk) = Some c -> Fs.exists_ disk p = true.
Proof.
  intros H. unfold Fs.exists_, Fs.isfile. rewrite H.
  destruct (Py.ends_slash p); [|reflexivity].
  unfold Fs.isdir. apply existsb_exists. exists p.
  split; [|apply prefix_refl].
  unfold Fs.paths. apply in_or_app. right. exact (lookup_In _ _ _ H).
Qed.

Lemma get_step_dir_current (w : State) (sn : option string) (name : string) :
  resolved_name w sn = Some name ->
  get_step_dir w sn None = Ok (step_dir_of w name (__run w)).
Proof.
  unfold resolved_name, get_step_dir. intros H.
  destruct sn as [s|]; [injection H as ->; reflexivity|].
  now rewrite H.
Qed.

(** A file of the current step directory is loaded from there: the backward
    search stops at the current run. *)
Lemma load_json_current (w : State) (sn : option string) (name : string)
    (basename : string) (r0 : odict) :
  resolved_name w sn = Some name ->
  record_at w (step_dir_of w name (__run w)) basename = Some r0 ->
  load_json basename sn w = (w, Ok r0).
Proof.
  intros Hname Hrec. unfold record_at in Hrec.
  destruct (Fs.lookup _ _) as [[[]| |]|] eqn:Hfile; try discriminate.
  injection Hrec as ->.
  unfold load_json. unfold bind at 1.
  rewrite (get_step_dir_for_load_spec w sn name Hname).
  unfold lineage_chain. cbn [find].
  rewrite (exists_in_dir _ _ _ (lookup_exists _ _ _ Hfile)).
  unfold json_load, open_read. unfold bind, lift, Fs.read. cbv beta.
  now rewrite Hfile.
Qed.

Lemma save_json_existing (w : State) (sn : option string) (name : string)
    (basename : string) (r0 d : odict) :
  resolved_name w sn = Some name ->
  let p := step_dir_of w name (__run w) ++ basename in
  record_at w (step_dir_of w name (__run w)) basename = Some r0 ->
  save_json basename d sn "a" w
  = (set_fs (mkFS (dirs (fs w))
               (Fs.store p (Json (JDict (OD.update r0 d))) (files (fs w)))) w,
     Ok tt).
Proof.
  intros Hname p Hrec. unfold save_json.
  unfold bind at 1, lift. rewrite (get_step_dir_current w sn name Hname).
  fold p. unfold bind at 1, os_path_exists, gets.
  assert (Hfile : exists c, Fs.lookup p (files (fs w)) = Some c).
  { unfold record_at in Hrec. fold p in Hrec.
    destruct (Fs.lookup p _); [eauto | discriminate]. }
  destruct Hfile as [c Hfile].
  rewrite (lookup_exists _ _ _ Hfile). cbn [String.eqb Ascii.eqb Bool.eqb andb].
  unfold bind at 1. unfold bind at 1.
  rewrite (load_json_current w sn name basename r0 Hname Hrec).
  unfold ret, json_dump, open_write.
  now rewrite (write_existing _ _ _ _ Hfile).
Qed.

Lemma save_json_new (w : State) (sn : option string) (name : string)
    (basename mode : string) (d : odict) :
  resolved_name w sn = Some name ->
  let p := step_dir_of w name (__run w) ++ basename in
  Fs.exists_ (fs w) p = false ->
  Py.ends_slash p = false ->
  Fs.parent_ok (fs w) p = true ->
  save_json basename d sn mode w
  = (set_fs (mkFS (dirs (fs w)) (Fs.store p (Json (JDict d)) (files (fs w)))) w,
     Ok tt).
Proof.
  intros Hname p Hex Hslash Hparent. unfold save_json.
  unfold bind at 1, lift. rewrite (get_step_dir_current w sn name Hname).
  fold p. unfold bind at 1, os_path_exists, gets. rewrite Hex, andb_false_r.
  unfold bind, ret, json_dump, open_write, Fs.write.
  unfold Fs.exists_ in Hex. rewrite Hslash in Hex.
  apply orb_false_iff in Hex as [Hf Hd]. now rewrite Hf, Hslash, Hd, Hparent.
Qed.

Lemma record_after_store (w : State) (sd basename : string) (d : odict)
    (disk : list string) :
  record_at
    (set_fs (mkFS disk
               (Fs.store (sd ++ basename) (Json (JDict d)) (files (fs w)))) w)
    sd basename = Some d.
Proof. unfold record_at. cbn. now rewrite lookup_store_same. Qed.

(** Two merging saves in a row, starting from the record [r0] that the
    current step directory holds. *)
Lemma save_json_twice_existing (w : State) (sn : option string)
    (name basename : string) (r0 d1 d2 : odict) :
  resolved_name w sn = Some name ->
  let sd := step_dir_of w name (__run w) in
  let twice := save_json basename d1 sn "a" ;; save_json basename d2 sn "a" in
  record_at w sd basename = Some r0 ->
  answer twice w = Ok tt
  /\ record_at (after twice w) sd basename
     = Some (OD.update (OD.update r0 d1) d2).
Proof.
  intros Hname sd twice Hrec. unfold answer, after, twice, bind.
  rewrite (save_json_existing w sn name basename r0 d1 Hname Hrec).
  fold sd.
  set (w1 := set_fs _ w).
  assert (Hrec1 : record_at w1 (step_dir_of w1 name (__run w1)) basename
                  = Some (OD.update r0 d1)) by apply record_after_store.
  rewrite (save_json_existing w1 sn name basename _ d2 Hname Hrec1).
  split; [reflexivity|]. apply (record_after_store w1 sd).
Qed.

(** The same when the current step directory holds no such file yet. *)
Lemma save_json_twice_new (w : State) (sn : option string)
    (name basename : string) (d1 d2 : odict) :
  resolved_name w sn = Some name ->
  let sd := step_dir_of w name (__run w) in
  let twice := save_json basename d1 sn "a" ;; save_json basename d2 sn "a" in
  Fs.exists_ (fs w) (sd ++ basename) = false ->
  Py.ends_slash (sd ++ basename) = false ->
  Fs.parent_ok (fs w) (sd ++ basename) = true ->
  answer twice w = Ok tt
  /\ record_at (after twice w) sd basename = Some (OD.update d1 d2).
Proof.
  intros Hname sd twice Hex Hslash Hparent. unfold answer, after, twice, bind.
  rewrite (save_json_new w sn name basename "a" d1 Hname Hex Hslash Hparent).
  fold sd.
  set (w1 := set_fs _ w).
  assert (Hrec1 : record_at w1 (step_dir_of w1 name (__run w1)) basename
                  = Some d1) by apply record_after_store.
  rewrite (save_json_existing w1 sn name basename _ d2 Hname Hrec1).
  split; [reflexivity|]. apply (record_after_store w1 sd).
Qed.

(** C5: two saves in merge mode under one name in one step directory leave
    a record whose keys are those of the record that was there (none when
    there was no file) and of both saved records; a key has the value saved
    last for it.  What was there is the file of the current step directory
    and nothing else: the outcome depends on no other directory. *)
Theorem save_json_merge_twice (w : State) (sn : option string)
    (name basename : string) (r0 d1 d2 : odict) :
  resolved_name w sn = Some name ->
  OD.wf d1 -> OD.wf d2 ->
  let sd := step_dir_of w name (__run w) in
  let twice := save_json basename d1 sn "a" ;; save_json basename d2 sn "a" in
  (record_at w sd basename = Some r0
   \/ (r0 = [] /\ Fs.exists_ (fs w) (sd ++ basename) = false
       /\ Py.ends_slash (sd ++ basename) = false
       /\ Fs.parent_ok (fs w) (sd ++ basename) = true)) ->
  exists r : odict,
    answer twice w = Ok tt
    /\ record_at (after twice w) sd basename = Some r
    /\ (forall k,
          OD.get k r
          = match OD.get k d2 with
            | Some v => Some v
            | None =>
                match OD.get k d1 with
                | Some v => Some v
                | None => OD.get k r0
                end
            end)
    /\ (forall k,
          In k (OD.keys r)
          <-> In k (OD.keys r0) \/ In k (OD.keys d1) \/ In k (OD.keys d2)).
Proof.
  intros Hname Hd1 Hd2 sd twice [Hrec | (-> & Hex & Hslash & Hparent)].
  - exists (OD.update (OD.update r0 d1) d2).
    destruct (save_json_twice_existing w sn name basename r0 d1 d2 Hname Hrec)
      as [Hok Hfinal].
    split; [exact Hok|]. split; [exact Hfinal|]. split.
    + intros k. now rewrite (get_update k _ d2 Hd2), (get_update k r0 d1 Hd1).
    + intros k. rewrite (in_keys_update k _ d2 Hd2), (in_keys_update k r0 d1 Hd1).
      tauto.
  - exists (OD.update d1 d2).
    destruct (save_json_twice_new w sn name basename d1 d2 Hname Hex Hslash
                Hparent) as [Hok Hfinal].
    split; [exact Hok|]. split; [exact Hfinal|]. split.
    + intros k. rewrite (get_update k d1 d2 Hd2).
      now destruct (OD.get k d2), (OD.get k d1).
    + intros k. rewrite (in_keys_update k d1 d2 Hd2). cbn. tauto.
Qed.

Lemma save_json_merge_twice_witness :
  let d1 := [("a", JNum 1); ("b", JNum 2)] in
  let d2 := [("c", JNum 3); ("a", JNum 4)] in
  let sd := "/data/dsb3_1/gen_candidates/" in
  let twice := save_json "out.json" d1 None "a" ;;
               save_json "out.json" d2 None "a" in
  resolved_name Sample.merging None = Some "gen_candidates"
  /\ OD.wf d1 /\ OD.wf d2
  /\ Fs.exists_ (fs Sample.merging) (sd ++ "out.json") = false
  /\ record_at Sample.merging "/data/dsb3_0/gen_candidates/" "out.json"
     = Some [("z", JNum 0)]
  /\ record_at (after twice Sample.merging) sd "out.json"
     = Some [("a", JNum 4); ("b", JNum 2); ("c", JNum 3)]
  /\ exists r : odict,
       record_at (after twice Sample.merging) sd "out.json" = Some r
       /\ (forall k, In k (OD.keys r)
                     <-> In k [] \/ In k (OD.keys d1) \/ In k (OD.keys d2)).
Proof.
  intros d1 d2 sd twice.
  assert (W1 : OD.wf d1) by (apply wfb_wf; reflexivity).
  assert (W2 : OD.wf d2) by (apply wfb_wf; reflexivity).
  destruct (save_json_merge_twice Sample.merging None "gen_candidates"
              "out.json" [] d1 d2 eq_refl W1 W2) as (r & _ & Hr & _ & Hkeys).
  { right. repeat split; reflexivity. }
  split; [reflexivity|]. split; [exact W1|]. split; [exact W2|].
  split; [reflexivity|]. split; [reflexivity|]. split; [reflexivity|].
  exists r. split; [exact Hr | exact Hkeys].
Defined.

(** ** What a computation leaves alone *)

Section Keeps.

Context {X : Type} (obs : State -> X).

(** The observation does not look at the disk. *)
Hypothesis obs_fs : forall disk w, obs (set_fs disk w) = obs w.

Lemma keeps_ret {A : Type} (a : A) : keeps obs (ret a).
Proof. intros w. reflexivity. Qed.

Lemma keeps_raise {A : Type} (e : exn) : keeps obs (@raise A e).
Proof. intros w. reflexivity. Qed.

Lemma keeps_gets {A : Type} (f : State -> A) : keeps obs (gets f).
Proof. intros w. reflexivity. Qed.

Lemma keeps_lift {A : Type} (f : State -> result A) : keeps obs (lift f).
Proof. intros w. reflexivity. Qed.

Lemma keeps_modify (f : State -> State) :
  (forall w, obs (f w) = obs w) -> keeps obs (modify f).
Proof. intros H w. apply H. Qed.

Lemma keeps_bind {A B : Type} (m : M A) (k : A -> M B) :
  keeps obs m -> (forall a, keeps obs (k a)) -> keeps obs (bind m k).
Proof.
  intros Hm Hk w. specialize (Hm w). unfold after, bind in *.
  destruct (m w) as [w1 [a|e]]; cbn in *; [|exact Hm].
  rewrite <- Hm. apply Hk.
Qed.

Lemma keeps_catch {A : Type} (m : M A) (h : exn -> M A) :
  keeps obs m -> (forall e, keeps obs (h e)) -> keeps obs (catch m h).
Proof.
  intros Hm Hh w. specialize (Hm w). unfold after, catch in *.
  destruct (m w) as [w1 [a|e]]; cbn in *; [exact Hm|].
  rewrite <- Hm. apply Hh.
Qed.

Lemma keeps_open_write (p : string) (c : content) : keeps obs (open_write p c).
Proof.
  intros w. unfold after, open_write.
  destruct (Fs.write (fs w) p c); cbn; [apply obs_fs | reflexivity].
Qed.

Lemma keeps_ensure_dir (p : string) : keeps obs (ensure_dir p).
Proof.
  apply keeps_modify. intros w. destruct (Py.dirname p) as [|c d];
    [reflexivity|]. cbv zeta.
  destruct (Fs.isdir (fs w) (String c d)); [reflexivity | apply obs_fs].
Qed.

Lemma keeps_append_line (p line : string) : keeps obs (append_line p line).
Proof. apply keeps_modify. intros w. apply obs_fs. Qed.

End Keeps.

Create HintDb keeps.

(** Going through a computation piece by piece; what is known about a
    function of the module is used before the function is opened. *)
Ltac keeps_step :=
  first
    [ solve [auto with keeps]
    | apply keeps_bind; [|intros ?]
    | apply keeps_ret
    | apply keeps_raise
    | apply keeps_gets
    | apply keeps_lift
    | apply keeps_open_write; solve [auto | intros; reflexivity]
    | apply keeps_ensure_dir; solve [auto | intros; reflexivity]
    | apply keeps_append_line; solve [auto | intros; reflexivity]
    | apply keeps_modify; solve [auto | intros; reflexivity]
    | match goal with
      | |- keeps _ (match ?x with _ => _ end) => destruct x
      end ].

Ltac keeps_all := repeat keeps_step.

Section KeepsPipeline.

Context {X : Type} (obs : State -> X).
Hypothesis obs_fs : forall disk w, obs (set_fs disk w) = obs w.
Hypothesis obs_runs : forall d w, obs (set_avail_runs d w) = obs w.
Hypothesis obs_log_pipe : forall l w, obs (set_log_pipe l w) = obs w.
Hypothesis obs_log_step : forall l w, obs (set_log_step l w) = obs w.
Hypothesis obs_log_tf : forall l w, obs (set_log_tf l w) = obs w.

Lemma keeps_json_load (p : string) : keeps obs (json_load p).
Proof. unfold json_load, open_read. keeps_all. Qed.

Lemma keeps_json_dump (j : json) (p : string) : keeps obs (json_dump j p).
Proof. unfold json_dump. keeps_all. Qed.

Lemma keeps_as_dict (j : json) : keeps obs (as_dict j).
Proof. unfold as_dict. keeps_all. Qed.

#[local] Hint Resolve keeps_json_load keeps_json_dump keeps_as_dict : keeps.

Lemma keeps_for_run_in (sn : option string) (runs : list Z)
    (tried : option string) (trial : list Z) :
  keeps obs (for_run_in sn runs tried trial).
Proof.
  revert tried. induction runs as [|run rest IH]; intros tried; cbn.
  - keeps_all.
  - unfold os_path_exists. keeps_all.
Qed.

#[local] Hint Resolve keeps_for_run_in : keeps.

Lemma keeps_get_step_dir_for_load (sn : option string) :
  keeps obs (_get_step_dir_for_load sn).
Proof. unfold _get_step_dir_for_load. keeps_all. Qed.

#[local] Hint Resolve keeps_get_step_dir_for_load : keeps.

Lemma keeps_load_json (basename : string) (sn : option string) :
  keeps obs (load_json basename sn).
Proof. unfold load_json. keeps_all. Qed.

#[local] Hint Resolve keeps_load_json : keeps.

Lemma keeps_save_json (basename : string) (d : odict) (sn : option string)
    (mode : string) :
  keeps obs (save_json basename d sn mode).
Proof. unfold save_json, os_path_exists. keeps_all. Qed.

Lemma keeps_open_log (p mode : string) : keeps obs (open_log p mode).
Proof. unfold open_log. keeps_all. Qed.

Lemma keeps_log_info (logger : State -> option string) (msg : string) :
  keeps obs (log_info logger msg).
Proof. unfold log_info. keeps_all. Qed.

#[local] Hint Resolve keeps_open_log keeps_log_info : keeps.

Lemma keeps_init_log_pipe : keeps obs _init_log_pipe.
Proof. unfold _init_log_pipe, os_path_exists. keeps_all. Qed.

Lemma keeps_init_log_step (step_name mode : string) :
  keeps obs (_init_log_step step_name mode).
Proof. unfold _init_log_step. keeps_all. Qed.

Lemma keeps_load_avail_runs (f : string) : keeps obs (load_avail_runs f).
Proof. unfold load_avail_runs. keeps_all. Qed.

#[local] Hint Resolve keeps_load_avail_runs : keeps.

Lemma keeps_select_run (f : string) (run : Z) (descr : string) :
  keeps obs (select_run f run descr).
Proof. unfold select_run, os_path_exists. keeps_all. Qed.

Lemma keeps_keep_descr (runs : odict) (run : Z) (descr : string) :
  keeps obs (keep_descr runs run descr).
Proof. unfold keep_descr, entry_descr. keeps_all. Qed.

End KeepsPipeline.

#[global] Hint Resolve keeps_json_load keeps_json_dump keeps_as_dict
  keeps_get_step_dir_for_load keeps_load_json keeps_save_json keeps_open_log
  keeps_log_info keeps_init_log_pipe keeps_init_log_step keeps_load_avail_runs
  keeps_select_run keeps_keep_descr keeps_ensure_dir keeps_open_write : keeps.

(** ** Step directory suffix *)

Lemma keeps_suffix_init_run (run : Z) (descr : string) (init_run : Z) :
  keeps __step_dir_suffix (_init_run run descr init_run).
Proof. unfold _init_run. keeps_all. Qed.

Lemma in_catalog (step_name : string) :
  In step_name (map snd avail_steps) ->
  exists k rest,
    filter (fun kv => String.eqb (snd kv) step_name) avail_steps
    = (k, step_name) :: rest.
Proof.
  intros H. apply in_map_iff in H as ([k n] & Hn & Hin). cbn in Hn. subst n.
  assert (Hf : In (k, step_name)
                 (filter (fun kv => String.eqb (snd kv) step_name) avail_steps)).
  { apply filter_In. split; [exact Hin | apply String.eqb_refl]. }
  destruct (filter _ avail_steps) as [|[k' n'] rest] eqn:E; [destruct Hf|].
  assert (Hk : In (k', n')
                 (filter (fun kv => String.eqb (snd kv) step_name) avail_steps))
    by (rewrite E; now left).
  apply filter_In in Hk as [_ Hk]. apply String.eqb_eq in Hk. cbn in Hk.
  subst n'. eauto.
Qed.

(** What [_init_step] does to the globals a step directory is computed
    from. *)
Lemma init_step_path_globals (w : State) (step_name mode suffix : string) :
  In step_name (map snd avail_steps) ->
  path_globals (after (_init_step step_name mode suffix) w)
  = (write_basedir w, dataset_name w, __run w, Some step_name,
     suffix ++ __step_dir_suffix w).
Proof.
  intros Hin. destruct (in_catalog step_name Hin) as (k & rest & Hf).
  unfold _init_step. rewrite Hf.
  unfold after. unfold bind at 1. unfold modify at 1. cbv beta iota.
  unfold bind at 1. unfold modify at 1. cbv beta iota.
  unfold bind at 1. unfold modify at 1. cbv beta iota.
  match goal with |- path_globals (fst (?m ?w0)) = _ =>
    change (path_globals (after m w0) = path_globals w0);
    assert (K : keeps path_globals m); [|exact (K w0)] end.
  keeps_all.
Qed.

Lemma keeps_suffix_init_step_plain (step_name mode : string) :
  keeps __step_dir_suffix (_init_step step_name mode "").
Proof. unfold _init_step. keeps_all. Qed.

#[global] Hint Resolve keeps_suffix_init_step_plain : keeps.

Lemma keeps_suffix_visualize_step (sn : option string) :
  keeps __step_dir_suffix (_visualize_step sn).
Proof.
  unfold _visualize_step, write_figs_overview_html, os_path_exists. keeps_all.
Qed.

Lemma keeps_suffix_the_patients : keeps __step_dir_suffix the_patients.
Proof. unfold the_patients. keeps_all. Qed.

Lemma keeps_suffix_item (l : list Z) (i : Z) :
  keeps __step_dir_suffix (item l i).
Proof. unfold item. keeps_all. Qed.

#[global] Hint Resolve keeps_suffix_the_patients keeps_suffix_item : keeps.

Lemma index_minus_one (l : list Z) (d : Z) :
  l <> [] -> Py.index l (-1) = Some (last l d).
Proof.
  intros Hl. unfold Py.index. change (-1 <? 0) with true. cbv iota zeta.
  assert (Hn : (0 < length l)%nat) by (destruct l; [congruence | cbn; lia]).
  destruct (Z.ltb_spec (-1 + Z.of_nat (length l)) 0) as [H|_]; [lia|].
  destruct (Z.leb_spec (Z.of_nat (length l)) (-1 + Z.of_nat (length l)))
    as [H|_]; [lia|].
  cbn [orb].
  replace (Z.to_nat (-1 + Z.of_nat (length l))) with (pred (length l)) by lia.
  clear Hn. induction l as [|x l IH]; [congruence|].
  destruct l as [|y l]; [reflexivity|].
  change (nth_error (y :: l) (pred (length (y :: l)))
          = Some (last (y :: l) d)).
  apply IH. discriminate.
Qed.

Lemma index_zero (a : Z) (l : list Z) : Py.index (a :: l) 0 = Some a.
Proof.
  unfold Py.index. change (0 <? 0) with false. cbv iota zeta. cbn [orb].
  destruct (Z.leb_spec (Z.of_nat (length (a :: l))) 0) as [H|_];
    [cbn [length] in H; lia | reflexivity].
Qed.

Lemma index_one (a b : Z) (l : list Z) : Py.index (a :: b :: l) 1 = Some b.
Proof.
  unfold Py.index. change (1 <? 0) with false. cbv iota zeta. cbn [orb].
  destruct (Z.leb_spec (Z.of_nat (length (a :: b :: l))) 1) as [H|_];
    [cbn [length] in H; lia | reflexivity].
Qed.

(** A returning [_init_patients] has reset the suffix, and set a new one
    only for a range of patients. *)
Lemma init_patients_suffix (n : Z) (single : option string)
    (fromto : option (list Z)) (w0 w1 : State) :
  _init_patients n single fromto w0 = (w1, Ok tt) ->
  __step_dir_suffix w1 = patients_suffix n single fromto.
Proof.
  unfold _init_patients. unfold bind at 1.
  destruct (read_patients w0) as [wa [[]|e]]; [|discriminate].
  unfold bind at 1. unfold modify at 1. cbv beta iota.
  set (w2 := set_step_dir_suffix "" wa).
  unfold patients_suffix.
  assert (quiet : forall m : M unit,
            keeps __step_dir_suffix m ->
            (m ;; ps <- the_patients ;;
             modify (set_n_patients (Some (Z.of_nat (length ps))))) w2
            = (w1, Ok tt) ->
            __step_dir_suffix w1 = "").
  { intros m K H. apply (f_equal fst) in H. cbn [fst] in H. rewrite <- H.
    match goal with |- __step_dir_suffix (fst (?r w2)) = _ =>
      assert (K' : keeps __step_dir_suffix r) by keeps_all;
      exact (K' w2) end. }
  destruct (n >? 0).
  - apply quiet. keeps_all.
  - destruct single as [id|]; [apply quiet; keeps_all|].
    destruct fromto as [l|]; [|apply quiet; keeps_all].
    unfold bind, the_patients, item, gets, modify, ret, raise. cbn.
    destruct (patients wa); [|discriminate].
    destruct (Py.index l 0); [|discriminate].
    destruct (Py.index l (-1)); [|discriminate].
    destruct (Py.index l 1); [|discriminate].
    intros H. injection H as <-. reflexivity.
Qed.

Lemma bind_ok_inv {A B : Type} (m : M A) (k : A -> M B) (w w' : State)
    (b : B) :
  bind m k w = (w', Ok b) ->
  exists a w1, m w = (w1, Ok a) /\ k a w1 = (w', Ok b).
Proof.
  unfold bind. destruct (m w) as [w1 [a|e]]; [|discriminate].
  intros H. now exists a, w1.
Qed.

Lemma keeps_suffix_read_patients : keeps __step_dir_suffix read_patients.
Proof. unfold read_patients, os_path_exists. keeps_all. Qed.

Lemma keeps_patients_ensure_dir (p : string) : keeps patients (ensure_dir p).
Proof. apply keeps_ensure_dir. intros; reflexivity. Qed.

Lemma keeps_patients_json_dump (j : json) (p : string) :
  keeps patients (json_dump j p).
Proof. apply keeps_json_dump. intros; reflexivity. Qed.

(** When the first part of [_init_patients] returns, there is a list of
    patients. *)
Lemma read_patients_ok (w0 wa : State) :
  read_patients w0 = (wa, Ok tt) -> exists ps, patients wa = Some ps.
Proof.
  unfold read_patients. unfold bind at 1. unfold gets at 1. cbv beta iota.
  unfold bind at 1. unfold os_path_exists at 1. unfold gets at 1.
  cbv beta iota.
  destruct (Fs.exists_ (fs w0) _).
  - intros H.
    apply bind_ok_inv in H as (j & w2 & _ & H).
    apply bind_ok_inv in H as (d & w3 & _ & H).
    apply bind_ok_inv in H as ([] & w4 & _ & H).
    unfold modify in H. injection H as <-. eexists. reflexivity.
  - intros H.
    apply bind_ok_inv in H as (name & w2 & _ & H).
    apply bind_ok_inv in H as (paths & w3 & _ & H).
    destruct (traverse _ paths) as [ps|]; [|discriminate].
    apply bind_ok_inv in H as ([] & w4 & H4 & H).
    unfold modify in H4. injection H4 as <-.
    apply bind_ok_inv in H as ([] & w5 & H5 & H).
    unfold modify in H5. injection H5 as <-.
    exists ps.
    match type of H with ?m ?w = _ =>
      assert (K : keeps patients m)
        by (apply keeps_bind;
            [apply keeps_patients_ensure_dir
            | intros ?; apply keeps_patients_json_dump]);
      specialize (K w); unfold after in K; rewrite H in K; exact K
    end.
Qed.

(** Every call of [_init_patients], returning or raising, whose first part
    (reading or writing the list of patients) returns has reset the suffix,
    and set a new one only after a range of two or more numbers was read;
    a call whose first part raises has not touched the suffix. *)
Lemma init_patients_resets_suffix (n : Z) (single : option string)
    (fromto : option (list Z)) (w0 : State) :
  let w1 := after (_init_patients n single fromto) w0 in
  (answer read_patients w0 = Ok tt ->
   __step_dir_suffix w1 = patients_suffix n single fromto)
  /\ (forall e, answer read_patients w0 = Raise e ->
                __step_dir_suffix w1 = __step_dir_suffix w0
                /\ answer (_init_patients n single fromto) w0 = Raise e).
Proof.
  intros w1. subst w1. unfold after, answer, _init_patients.
  match goal with |- context [bind read_patients ?k] => set (rest := k) end.
  unfold bind.
  pose proof (keeps_suffix_read_patients w0) as Kr. unfold after in Kr.
  destruct (read_patients w0) as [wa [[]|e]] eqn:Hread; cbn [fst snd] in *.
  2: { split; [discriminate|]. intros e' E. now injection E as <-. }
  split; [intros _ | discriminate].
  destruct (read_patients_ok _ _ Hread) as [ps Hps].
  subst rest. cbv beta.
  unfold bind at 1. unfold modify at 1. cbv beta iota.
  set (w2 := set_step_dir_suffix "" wa).
  assert (Hps2 : patients w2 = Some ps) by exact Hps.
  unfold patients_suffix.
  assert (quiet : forall m : M unit,
            keeps __step_dir_suffix m ->
            __step_dir_suffix
              (fst ((m ;; ps <- the_patients ;;
                     modify (set_n_patients (Some (Z.of_nat (length ps)))))
                      w2))
            = "").
  { intros m K.
    match goal with |- __step_dir_suffix (fst (?r w2)) = _ =>
      assert (K' : keeps __step_dir_suffix r) by keeps_all;
      exact (K' w2) end. }
  destruct (n >? 0).
  - apply quiet. keeps_all.
  - destruct single as [id|]; [apply quiet; keeps_all|].
    destruct fromto as [l|]; [|apply quiet; keeps_all].
    destruct l as [|a l].
    + unfold bind, the_patients, item, gets, modify, ret, raise. cbn.
      now rewrite Hps.
    + unfold item. rewrite (index_minus_one (a :: l) a) by discriminate.
      rewrite index_zero.
      destruct (Py.index (a :: l) 1) as [b|];
        unfold bind, the_patients, gets, modify, ret, raise;
        cbn; rewrite Hps; reflexivity.
Qed.

Lemma step_name_in_catalog : In "gen_candidates" (map snd avail_steps).
Proof. cbn. tauto. Qed.

(** C9: initializing a step with suffix s while the process-wide suffix is t
    leaves the suffix s + t, and the step directory is named after it, so
    suffixes accumulate over successive initializations.  Only the patient
    initialization resets the suffix (to empty, or to a fresh range suffix):
    it does so in every call that gets past the reading of the list of
    patients, also in one that raises afterwards, and leaves the suffix as
    it is when that reading raises; the run initialization, the stores, the
    pipeline log and the visualization leave it as it is. *)
Theorem init_step_prepends_suffix (w : State) (step_name mode suffix : string) :
  In step_name (map snd avail_steps) ->
  let w' := after (_init_step step_name mode suffix) w in
  __step_dir_suffix w' = suffix ++ __step_dir_suffix w
  /\ get_step_dir w' None None
     = Ok (get_write_dir w None ++ step_name
           ++ (suffix ++ __step_dir_suffix w) ++ "/")
  /\ (forall n single fromto w0 w1,
        _init_patients n single fromto w0 = (w1, Ok tt) ->
        __step_dir_suffix w1 = patients_suffix n single fromto)
  /\ (forall n single fromto w0,
        let w1 := after (_init_patients n single fromto) w0 in
        (answer read_patients w0 = Ok tt ->
         __step_dir_suffix w1 = patients_suffix n single fromto)
        /\ (forall e, answer read_patients w0 = Raise e ->
                      __step_dir_suffix w1 = __step_dir_suffix w0
                      /\ answer (_init_patients n single fromto) w0
                         = Raise e))
  /\ (forall run descr init_run,
        keeps __step_dir_suffix (_init_run run descr init_run))
  /\ (forall basename d sn m,
        keeps __step_dir_suffix (save_json basename d sn m))
  /\ (forall basename sn, keeps __step_dir_suffix (load_json basename sn))
  /\ keeps __step_dir_suffix _init_log_pipe
  /\ (forall sn, keeps __step_dir_suffix (_visualize_step sn)).
Proof.
  intros Hin w'.
  pose proof (init_step_path_globals w step_name mode suffix Hin) as G.
  fold w' in G. unfold path_globals in G.
  injection G as Gb Gd Gr Gn Gs.
  split; [exact Gs|]. split.
  { unfold get_step_dir, get_write_dir. now rewrite Gn, Gb, Gd, Gr, Gs. }
  split; [exact init_patients_suffix|].
  split; [exact init_patients_resets_suffix|].
  split; [exact keeps_suffix_init_run|].
  split; [intros; now apply keeps_save_json|].
  split; [intros; now apply keeps_load_json|].
  split; [now apply keeps_init_log_pipe|].
  exact keeps_suffix_visualize_step.
Qed.

Lemma init_step_prepends_suffix_witness :
  let first := after (_init_step "gen_candidates" "w" "_a") Sample.resumed in
  let second := after (_init_step "gen_candidates" "w" "_b") first in
  let ranged := after (_init_patients 0 None (Some [0; 1])) second in
  let failed := after (_init_patients 0 None (Some [1])) second in
  let third := after (_init_step "gen_candidates" "w" "_c") ranged in
  In "gen_candidates" (map snd avail_steps)
  /\ __step_dir_suffix first = "_a"
  /\ __step_dir_suffix second = "_b" ++ "_a"
  /\ get_step_dir second None None = Ok "/data/dsb3_0/gen_candidates_b_a/"
  /\ answer read_patients second = Ok tt
  /\ answer (_init_patients 0 None (Some [0; 1])) second = Ok tt
  /\ __step_dir_suffix ranged = "_fromto0-1"
  /\ answer (_init_patients 0 None (Some [1])) second = Raise IndexError
  /\ __step_dir_suffix failed = ""
  /\ __step_dir_suffix third = "_c" ++ "_fromto0-1".
Proof.
  intros first second ranged failed third.
  destruct (init_step_prepends_suffix first "gen_candidates" "w" "_b"
              step_name_in_catalog) as (Hs & Hd & _ & Hp & _).
  assert (Hread : answer read_patients second = Ok tt)
    by (vm_compute; reflexivity).
  destruct (Hp 0 None (Some [0; 1]) second) as [Hranged _].
  destruct (Hp 0 None (Some [1]) second) as [Hfailed _].
  specialize (Hranged Hread). specialize (Hfailed Hread).
  destruct (init_step_prepends_suffix ranged "gen_candidates" "w" "_c"
              step_name_in_catalog) as (Hthird & _).
  fold third in Hthird. fold ranged in Hranged. rewrite Hranged in Hthird.
  split; [exact step_name_in_catalog|]. split; [reflexivity|].
  split; [exact Hs|]. split; [exact Hd|]. split; [exact Hread|].
  split; [vm_compute; reflexivity|]. split; [exact Hranged|].
  split; [vm_compute; reflexivity|]. split; [exact Hfailed | exact Hthird].
Defined.

(** ** Step executor *)

(** When the entry point is about to be called, the parameter file is in
    the step directory. *)
Lemma before_entry_ok (py_format : json -> string)
    (steps : string -> option StepModule) (step_name : string)
    (params : odict) (suffix : string) (w w1 : State) (m : StepModule) :
  before_entry py_format steps step_name params suffix w = (w1, Ok m) ->
  exists sd,
    get_step_dir w1 None None = Ok sd
    /\ Fs.lookup (sd ++ "params.json") (files (fs w1))
       = Some (Json (JDict params))
    /\ steps step_name = Some m.
Proof.
  unfold before_entry. intros H.
  repeat (cbv zeta in H; apply bind_ok_inv in H;
          destruct H as (? & ? & ? & H)).
  match goal with
  | Hd : lift _ ?wa = (?wb, Ok ?sd),
    Hw : json_dump _ _ ?wb = (?wc, Ok _) |- _ =>
      unfold lift in Hd; injection Hd as <- Hd;
      unfold json_dump, open_write in Hw;
      destruct (Fs.write (fs wa) (sd ++ "params.json") (Json (JDict params)))
        as [disk|e] eqn:Hwrite; [|discriminate];
      injection Hw as <-; apply write_ok in Hwrite; subst disk;
      exists sd
  end.
  unfold import_module in H. destruct (steps step_name) as [m'|]; [|discriminate].
  injection H as <- <-.
  split; [assumption|]. split; [|reflexivity].
  cbn. apply lookup_store_same.
Qed.

(** A failure before the entry point is the failure of the invocation. *)
Lemma run_step_fails_before_entry (py_format : json -> string)
    (steps : string -> option StepModule) (step_name : string)
    (params : odict) (suffix : string) (w w1 : State) (e : exn) :
  before_entry py_format steps step_name params suffix w = (w1, Raise e) ->
  _run_step py_format steps step_name params suffix w = (w1, Raise e).
Proof. intros H. unfold _run_step, bind. now rewrite H. Qed.

Lemma run_step_from_entry (py_format : json -> string)
    (steps : string -> option StepModule) (step_name : string)
    (params : odict) (suffix : string) (w w1 : State) (m : StepModule) :
  before_entry py_format steps step_name params suffix w = (w1, Ok m) ->
  _run_step py_format steps step_name params suffix w
  = (guarded_run m params ;; after_entry) w1.
Proof. intros H. unfold _run_step. unfold bind at 1. now rewrite H. Qed.

(** What the [except] clause makes of an exception of the entry point. *)
Lemma guarded_run_raise (m : StepModule) (params : odict) (w w2 : State)
    (e : exn) :
  call_run m params w = (w2, Raise e) ->
  guarded_run m params w
  = (w2,
     Raise
       match e with
       | TypeError msg =>
           if Py.contains unexpected_keyword msg then
             match run_doc m with
             | Some doc => TypeError (msg ++ valid_parameters_hint ++ doc)
             | None => TypeError concat_none_msg
             end
           else e
       | _ => e
       end).
Proof.
  intros H. unfold guarded_run, catch. rewrite H.
  destruct e; try reflexivity.
  destruct (Py.contains unexpected_keyword msg); [|reflexivity].
  destruct (run_doc m); [|reflexivity].
  unfold raise, valid_parameters_hint. now rewrite !append_assoc.
Qed.

(** C6: when the entry point of a step is called, the parameter file is in
    the step directory and holds the parameters of the invocation; the entry
    point is called in exactly that state, and when it raises, the invocation
    ends in the state the entry point left, with the file still there unless
    the entry point itself touched it. *)
Theorem params_written_before_entry (py_format : json -> string)
    (steps : string -> option StepModule) (step_name : string)
    (params : odict) (suffix : string) (w w1 : State) (m : StepModule) :
  before_entry py_format steps step_name params suffix w = (w1, Ok m) ->
  let invocation := _run_step py_format steps step_name params suffix in
  exists sd,
    get_step_dir w1 None None = Ok sd
    /\ Fs.lookup (sd ++ "params.json") (files (fs w1))
       = Some (Json (JDict params))
    /\ invocation w = (guarded_run m params ;; after_entry) w1
    /\ forall w2 e,
         call_run m params w1 = (w2, Raise e) ->
         after invocation w = w2
         /\ (exists e', answer invocation w = Raise e')
         /\ (Fs.lookup (sd ++ "params.json") (files (fs w2))
             = Fs.lookup (sd ++ "params.json") (files (fs w1)) ->
             Fs.lookup (sd ++ "params.json") (files (fs (after invocation w)))
             = Some (Json (JDict params))).
Proof.
  intros H invocation.
  destruct (before_entry_ok _ _ _ _ _ _ _ _ H) as (sd & Hsd & Hfile & _).
  pose proof (run_step_from_entry _ _ _ _ _ _ _ _ H) as Hrun.
  exists sd. split; [exact Hsd|]. split; [exact Hfile|].
  split; [exact Hrun|]. intros w2 e Hcall.
  assert (Hinv : exists e', invocation w = (w2, Raise e')).
  { eexists. unfold invocation. rewrite Hrun. unfold bind at 1.
    now rewrite (guarded_run_raise _ _ _ _ _ Hcall). }
  destruct Hinv as [e' Hinv]. unfold after, answer. rewrite Hinv. cbn [fst snd].
  split; [reflexivity|]. split; [eexists; reflexivity|].
  intros Hkept. now rewrite Hkept.
Qed.

Lemma params_written_before_entry_witness :
  let invocation :=
    _run_step Sample.format Sample.steps "filter_candidates" Sample.params "" in
  let sd := "/data/dsb3_0/filter_candidates/" in
  before_entry Sample.format Sample.steps "filter_candidates" Sample.params ""
    Sample.ready
  = (after (before_entry Sample.format Sample.steps "filter_candidates"
              Sample.params "") Sample.ready,
     Ok Sample.crashing_step)
  /\ answer invocation Sample.ready
     = Raise (OtherError "RuntimeError" "out of memory")
  /\ Fs.lookup (sd ++ "params.json") (files (fs (after invocation Sample.ready)))
     = Some (Json (JDict Sample.params)).
Proof.
  intros invocation sd.
  set (w1 := after (before_entry Sample.format Sample.steps "filter_candidates"
                      Sample.params "") Sample.ready).
  assert (H : before_entry Sample.format Sample.steps "filter_candidates"
                Sample.params "" Sample.ready = (w1, Ok Sample.crashing_step))
    by (vm_compute; reflexivity).
  destruct (params_written_before_entry _ _ _ _ _ _ _ _ H)
    as (sd' & Hsd & Hfile & _ & Hfail).
  assert (Esd : sd' = sd) by (vm_compute in Hsd; now injection Hsd).
  subst sd'.
  destruct (Hfail w1 (OtherError "RuntimeError" "out of memory") eq_refl)
    as (_ & _ & Hthere).
  split; [exact H|]. split; [vm_compute; reflexivity|].
  apply Hthere. reflexivity.
Defined.

Lemma contains_prefix (sub rest : string) :
  Py.contains sub (sub ++ rest) = true.
Proof.
  destruct (sub ++ rest) eqn:E; cbn [Py.contains]; rewrite <- E;
    now rewrite prefix_append.
Qed.

Lemma contains_append_r (sub a b : string) :
  Py.contains sub b = true -> Py.contains sub (a ++ b) = true.
Proof.
  intros H. induction a as [|c a IH]; [exact H|].
  cbn [append Py.contains]. rewrite IH. apply orb_true_r.
Qed.

Lemma contains_refl (s : string) : Py.contains s s = true.
Proof. rewrite <- (append_nil_r s) at 2. apply contains_prefix. Qed.

(** A keyword that [run] does not declare stops the call before the body of
    [run] starts. *)
Lemma call_run_unknown (m : StepModule) (params : odict) (k : string)
    (w : State) :
  run_var_keyword m = false ->
  find (unknown m) (OD.keys params) = Some k ->
  call_run m params w
  = (w, Raise (TypeError (unexpected_keyword ++ " " ++ quoted k))).
Proof. intros Hkw Hk. unfold call_run. now rewrite Hkw, Hk. Qed.

(** C7, as stated, fails: a step whose parameters are all recognized, and
    whose body raises a [TypeError] about an unexpected keyword of another
    function [run], does not see its exception propagate unchanged: the
    executor takes it for a parameter mismatch and rewrites it. *)
Lemma run_step_alters_inner_type_error :
  let invocation :=
    _run_step Sample.format Sample.steps "gen_submission" Sample.params "" in
  Sample.steps "gen_submission" = Some Sample.misusing_step
  /\ find (unknown Sample.misusing_step) (OD.keys Sample.params) = None
  /\ (forall w, answer (call_run Sample.misusing_step Sample.params) w
                = Raise Sample.inner_error)
  /\ answer invocation Sample.ready
     = Raise (TypeError
                ("run() got an unexpected keyword argument 'level'"
                 ++ valid_parameters_hint ++ "n: number of candidates"))
  /\ answer invocation Sample.ready <> Raise Sample.inner_error.
Proof.
  intros invocation. split; [reflexivity|]. split; [reflexivity|].
  split; [reflexivity|].
  assert (H : answer invocation Sample.ready
              = Raise (TypeError
                         ("run() got an unexpected keyword argument 'level'"
                          ++ valid_parameters_hint
                          ++ "n: number of candidates")))
    by (vm_compute; reflexivity).
  split; [exact H|]. rewrite H. discriminate.
Qed.

(** C7, amended: when the entry point of a step raises a [TypeError] whose
    message contains "run() got an unexpected keyword argument" -- as the
    call does, before the body starts, when it is given a parameter that the
    entry point does not declare -- and the entry point has a docstring, the
    executor raises a [TypeError] whose message is the original one followed
    by a hint and that docstring; every exception of the entry point that is
    not such a [TypeError] propagates to the caller unchanged. *)
Theorem run_step_reraises_by_message (py_format : json -> string)
    (steps : string -> option StepModule) (step_name : string)
    (params : odict) (suffix : string) (w w1 : State) (m : StepModule) :
  before_entry py_format steps step_name params suffix w = (w1, Ok m) ->
  let invocation := _run_step py_format steps step_name params suffix in
  (forall k doc,
     run_var_keyword m = false ->
     find (unknown m) (OD.keys params) = Some k ->
     run_doc m = Some doc ->
     let msg :=
       unexpected_keyword ++ " " ++ quoted k ++ valid_parameters_hint ++ doc in
     invocation w = (w1, Raise (TypeError msg))
     /\ Py.contains doc msg = true)
  /\ (forall w2 msg doc,
        call_run m params w1 = (w2, Raise (TypeError msg)) ->
        Py.contains unexpected_keyword msg = true ->
        run_doc m = Some doc ->
        invocation w
        = (w2, Raise (TypeError (msg ++ valid_parameters_hint ++ doc))))
  /\ (forall w2 e,
        call_run m params w1 = (w2, Raise e) ->
        (forall msg, e = TypeError msg ->
                     Py.contains unexpected_keyword msg = false) ->
        invocation w = (w2, Raise e)).
Proof.
  intros H invocation.
  pose proof (run_step_from_entry _ _ _ _ _ _ _ _ H) as Hrun.
  assert (matched : forall w2 msg doc,
            call_run m params w1 = (w2, Raise (TypeError msg)) ->
            Py.contains unexpected_keyword msg = true ->
            run_doc m = Some doc ->
            invocation w
            = (w2, Raise (TypeError (msg ++ valid_parameters_hint ++ doc)))).
  { intros w2 msg doc Hcall Hmsg Hdoc. unfold invocation. rewrite Hrun.
    unfold bind at 1. rewrite (guarded_run_raise _ _ _ _ _ Hcall).
    now rewrite Hmsg, Hdoc. }
  split; [|split; [exact matched|]].
  - intros k doc Hkw Hk Hdoc msg. split.
    + unfold msg. rewrite <- !append_assoc.
      rewrite (append_assoc unexpected_keyword " " (quoted k)).
      rewrite (append_assoc _ valid_parameters_hint doc).
      apply matched; [now apply call_run_unknown | | exact Hdoc].
      apply contains_prefix.
    + unfold msg. do 4 apply contains_append_r. apply contains_refl.
  - intros w2 e Hcall Hother. unfold invocation. rewrite Hrun.
    unfold bind at 1. rewrite (guarded_run_raise _ _ _ _ _ Hcall).
    destruct e; try reflexivity.
    now rewrite (Hother msg eq_refl).
Qed.

Lemma run_step_reraises_by_message_witness :
  let invocation :=
    _run_step Sample.format Sample.steps "gen_candidates" Sample.bad_params ""
  in
  let w1 := after (before_entry Sample.format Sample.steps "gen_candidates"
                     Sample.bad_params "") Sample.ready in
  before_entry Sample.format Sample.steps "gen_candidates" Sample.bad_params ""
    Sample.ready = (w1, Ok Sample.plain_step)
  /\ find (unknown Sample.plain_step) (OD.keys Sample.bad_params) = Some "bad"
  /\ invocation Sample.ready
     = (w1,
        Raise (TypeError
                 (unexpected_keyword ++ " " ++ quoted "bad"
                  ++ valid_parameters_hint ++ "n: number of candidates"))).
Proof.
  intros invocation w1.
  assert (H : before_entry Sample.format Sample.steps "gen_candidates"
                Sample.bad_params "" Sample.ready = (w1, Ok Sample.plain_step))
    by (vm_compute; reflexivity).
  destruct (run_step_reraises_by_message _ _ _ _ _ _ _ _ H) as (Hbad & _ & _).
  destruct (Hbad "bad" "n: number of candidates" eq_refl eq_refl eq_refl)
    as [Hraise _].
  split; [exact H|]. split; [reflexivity | exact Hraise].
Defined.

(** * Further properties of the module *)

(** ** The chain of runs a load goes through *)

(** X1: the runs a load tries: the active run first, then every run from the
    initialization run down to 0, each once and in decreasing order; a run
    above the initialization run (other than the active one) is never
    tried. *)
Theorem trial_runs_shape (w : State) :
  (forall k, In k (trial_runs w)
             <-> k = __run w \/ 0 <= k <= __init_run w)
  /\ nth_error (trial_runs w) 0 = Some (__run w)
  /\ (forall i : nat,
        nth_error (trial_runs w) (S i)
        = if Z.of_nat i <=? __init_run w
          then Some (__init_run w - Z.of_nat i) else None)
  /\ length (trial_runs w) = S (Z.to_nat (__init_run w + 1)).
Proof.
  unfold trial_runs, Py.range_down. cbn [app nth_error length In].
  split; [|split; [reflexivity|split]].
  - intros k. rewrite in_map_iff. split.
    + intros [H | (i & <- & Hi)]; [now left | right].
      apply in_seq in Hi. lia.
    + intros [-> | H]; [now left | right].
      exists (Z.to_nat (__init_run w - k)). split; [lia|].
      apply in_seq. lia.
  - intros i. rewrite nth_error_map, nth_error_seq.
    destruct (Nat.ltb_spec i (Z.to_nat (__init_run w + 1))),
             (Z.leb_spec (Z.of_nat i) (__init_run w));
      cbn; try reflexivity; lia.
  - now rewrite length_map, length_seq.
Qed.

(** ** Directories of different runs *)

Lemma prefix_append_both (a x y : string) :
  prefix (a ++ x) (a ++ y) = prefix x y.
Proof.
  induction a as [|c a IH]; [reflexivity|]. cbn.
  destruct (ascii_dec c c) as [_|n]; [exact IH | now elim n].
Qed.

Lemma prefix_split (a b : string) :
  prefix a b = true -> exists c, b = a ++ c.
Proof.
  revert b. induction a as [|x a IH]; intros b H.
  - now exists b.
  - destruct b as [|y b]; [discriminate|]. cbn in H.
    destruct (ascii_dec x y) as [->|]; [|discriminate].
    destruct (IH b H) as [c ->]. now exists c.
Qed.

(** X2: the root directories of two runs are the same only for the same run,
    and a step directory of one run never lies below the root directory of
    another run. *)
Theorem runs_have_separate_directories (w : State) (r1 r2 : Z)
    (name : string) :
  (get_write_dir w (Some r1) = get_write_dir w (Some r2) <-> r1 = r2)
  /\ (prefix (get_write_dir w (Some r2)) (step_dir_of w name r1) = true
      <-> r1 = r2).
Proof.
  unfold step_dir_of, get_write_dir. split; split.
  - intros H. do 2 apply append_inv_head in H.
    change ("_" ++ ?x) with (String "_" x) in H. injection H as H.
    apply append_inv_tail in H. now apply str_inj.
  - now intros ->.
  - rewrite !append_assoc, !prefix_append_both.
    change ("_" ++ ?x) with (String "_" x). cbn [prefix].
    destruct (ascii_dec "_" "_") as [_|n]; [|now elim n].
    intros H. apply prefix_split in H as [c H].
    rewrite !append_assoc in H.
    change ("/" ++ ?x) with (String Py.slash x) in H.
    apply split_at_first_slash in H; try apply str_no_slash.
    destruct H as [H _]. now apply str_inj.
  - intros ->. apply prefix_append.
Qed.

(** ** Run registry: first call, explicit selection, failures *)

Lemma exists_false_lookup (disk : FS) (p : string) :
  Fs.exists_ disk p = false -> Fs.lookup p (files disk) = None.
Proof.
  intros H. destruct (Fs.lookup p (files disk)) as [c|] eqn:E; [|reflexivity].
  rewrite (lookup_exists _ _ _ E) in H. discriminate.
Qed.

Lemma runs_filename_no_slash (w : State) :
  Py.ends_slash (runs_filename w) = false.
Proof.
  unfold runs_filename.
  now rewrite <- append_assoc, ends_slash_append_nonempty by discriminate.
Qed.

Lemma init_run_select_fails (w w1 : State) (run : Z) (descr : string)
    (init_run : Z) (e : exn) :
  select_run (runs_filename w) run descr w = (w1, Raise e) ->
  _init_run run descr init_run w = (w1, Raise e).
Proof.
  intros H. unfold _init_run. unfold bind at 1. unfold gets at 1.
  cbn beta iota. fold (runs_filename w). unfold bind at 1. now rewrite H.
Qed.

Lemma init_run_descr_fails (w w1 : State) (run run' : Z)
    (descr descr' : string) (init_run : Z) (e : exn) :
  select_run (runs_filename w) run descr w = (w1, Ok (run', descr')) ->
  answer (keep_descr (avail_runs w1) run' descr') w1 = Raise e ->
  _init_run run descr init_run w = (w1, Raise e).
Proof.
  intros Hsel Hd. unfold _init_run. unfold bind at 1. unfold gets at 1.
  cbn beta iota. fold (runs_filename w). unfold bind at 1. rewrite Hsel.
  cbn [fst snd]. unfold bind at 1. unfold gets at 1. cbn beta iota.
  unfold bind at 1. now rewrite keep_descr_pure, Hd.
Qed.

(** The call returns as soon as the registry can be written. *)
Lemma init_run_succeeds_write (w w1 : State) (run run' : Z)
    (descr descr' : string) (init_run : Z) (d : json) (disk' : FS) :
  select_run (runs_filename w) run descr w = (w1, Ok (run', descr')) ->
  answer (keep_descr (avail_runs w1) run' descr') w1 = Ok d ->
  Fs.write (fs w) (runs_filename w)
    (Json (JDict (OD.set (Py.str run') (JList [JStr (clock w); d])
                    (avail_runs w1)))) = Ok disk' ->
  answer (_init_run run descr init_run) w = Ok tt.
Proof.
  intros Hsel Hd Hwrite.
  unfold answer at 1, _init_run. unfold bind at 1. unfold gets at 1.
  cbn beta iota. fold (runs_filename w). unfold bind at 1. rewrite Hsel.
  cbn [fst snd].
  unfold bind at 1. unfold gets at 1. cbn beta iota.
  unfold bind at 1. rewrite keep_descr_pure, Hd.
  unfold bind at 1. unfold gets at 1. cbn beta iota.
  unfold bind at 1. unfold modify at 1. cbn beta iota.
  unfold bind at 1. unfold gets at 1. cbn beta iota.
  unfold bind at 1. unfold json_dump, open_write.
  cbn [fs set_avail_runs avail_runs].
  apply select_run_frame in Hsel as (Hfs & Hclock & _).
  rewrite Hfs, Hclock, Hwrite.
  unfold bind at 1. unfold modify at 1. cbn beta iota.
  unfold bind at 1. unfold modify at 1. cbn beta iota.
  unfold bind at 1. unfold gets at 1. cbn beta iota.
  match goal with |- snd (ensure_dir ?p ?w0) = _ =>
    exact (proj1 (ensure_dir_frame p w0)) end.
Qed.

Lemma write_new (disk : FS) (p : string) (c : content) :
  Fs.exists_ disk p = false -> Py.ends_slash p = false ->
  Fs.parent_ok disk p = true ->
  Fs.write disk p c = Ok (mkFS (dirs disk) (Fs.store p c (files disk))).
Proof.
  intros Hex Hslash Hparent. unfold Fs.write.
  unfold Fs.exists_ in Hex. rewrite Hslash in Hex.
  apply orb_false_iff in Hex as [Hf Hd]. now rewrite Hf, Hslash, Hd, Hparent.
Qed.

Lemma select_run_first (w : State) (descr : string) :
  Fs.exists_ (fs w) (runs_filename w) = false ->
  select_run (runs_filename w) (-1) descr w
  = (w, Ok (0, if String.eqb descr "" then "run zero" else descr)).
Proof.
  intros Hex. unfold select_run. change (-1 =? -1) with true. cbn iota.
  unfold bind, os_path_exists, gets. now rewrite Hex.
Qed.

(** X3: with no registry file and an empty registry in memory (as after the
    import of the module), the run initialization without an explicit run
    creates run 0, described by the given text or else by "run zero", and
    leaves a registry file with exactly this entry; the initialization run
    is the pinned one, else -1 (no earlier run to search). *)
Theorem first_run_is_zero (w : State) (descr : string) (init_run : Z) :
  Fs.exists_ (fs w) (runs_filename w) = false ->
  Fs.parent_ok (fs w) (runs_filename w) = true ->
  avail_runs w = [] ->
  let w' := after (_init_run (-1) descr init_run) w in
  let text := if String.eqb descr "" then "run zero" else descr in
  answer (_init_run (-1) descr init_run) w = Ok tt
  /\ __run w' = 0
  /\ __init_run w' = (if init_run >? -1 then init_run else -1)
  /\ registry_on_disk w' = Some [("0", JList [JStr (clock w); JStr text])]
  /\ avail_runs w' = [("0", JList [JStr (clock w); JStr text])].
Proof.
  intros Hex Hparent Hmem w' text.
  pose proof (select_run_first w descr Hex) as Hsel. fold text in Hsel.
  assert (Hkeep : answer (keep_descr (avail_runs w) 0 text) w = Ok (JStr text))
    by (now rewrite Hmem).
  assert (Hok : answer (_init_run (-1) descr init_run) w = Ok tt).
  { eapply init_run_succeeds_write; [exact Hsel | exact Hkeep |].
    apply write_new; [exact Hex | apply runs_filename_no_slash | exact Hparent]. }
  split; [exact Hok|].
  destruct (_init_run (-1) descr init_run w) as [w2 r] eqn:Hrun.
  unfold answer in Hok. rewrite Hrun in Hok. cbn in Hok. subst r.
  assert (Hw : w' = w2) by (unfold w', after; now rewrite Hrun).
  apply init_run_ok_inv in Hrun
    as (w1 & run' & descr' & d & Hsel' & Hd & Hav & Hdisk & Hr & Hi & Hf).
  rewrite Hsel in Hsel'. injection Hsel' as <- <- <-.
  rewrite Hkeep in Hd. injection Hd as <-. rewrite Hmem in Hav. cbn in Hav.
  rewrite Hw. split; [exact Hr|]. split; [exact Hi|].
  split; [unfold registry_on_disk; now rewrite Hf, Hdisk, Hav | exact Hav].
Qed.

Lemma first_run_is_zero_witness :
  Fs.exists_ (fs Sample.start) (runs_filename Sample.start) = false
  /\ Fs.parent_ok (fs Sample.start) (runs_filename Sample.start) = true
  /\ avail_runs Sample.start = []
  /\ __run (after (_init_run (-1) "" (-1)) Sample.start) = 0
  /\ registry_on_disk (after (_init_run (-1) "" (-1)) Sample.start)
     = Some [("0", JList [JStr "2017-03-01 09:00"; JStr "run zero"])].
Proof.
  destruct (first_run_is_zero Sample.start "" (-1) eq_refl eq_refl eq_refl)
    as (_ & Hr & _ & Hdisk & _).
  repeat split; try reflexivity; assumption.
Defined.

(** X4: an explicit run cannot be selected before the registry file exists: the
    call raises [FileNotFoundError] for the registry file and changes
    nothing, neither on disk nor in memory. *)
Theorem explicit_run_needs_registry_file (w : State) (run : Z)
    (descr : string) (init_run : Z) :
  run <> -1 ->
  Fs.exists_ (fs w) (runs_filename w) = false ->
  _init_run run descr init_run w
  = (w, Raise (FileNotFoundError (runs_filename w))).
Proof.
  intros Hrun Hex. apply init_run_select_fails.
  unfold select_run. apply Z.eqb_neq in Hrun. rewrite Hrun.
  unfold bind, load_avail_runs, bind, json_load, bind, open_read, lift, Fs.read.
  now rewrite (exists_false_lookup _ _ Hex), Hex.
Qed.

Lemma explicit_run_needs_registry_file_witness :
  2 <> -1
  /\ Fs.exists_ (fs Sample.start) (runs_filename Sample.start) = false
  /\ _init_run 2 "second" (-1) Sample.start
     = (Sample.start, Raise (FileNotFoundError "/data/dsb3_runs.json")).
Proof.
  assert (H1 : 2 <> -1) by discriminate.
  split; [exact H1|]. split; [reflexivity|].
  exact (explicit_run_needs_registry_file Sample.start 2 "second" (-1) H1
           eq_refl).
Defined.

(** X5: resuming from a registry file that holds an empty object raises
    [StopIteration]: there is no last run to go on from.  The disk is left
    as it was. *)
Theorem resume_on_empty_registry (w : State) (descr : string) (init_run : Z) :
  registry_on_disk w = Some [] ->
  _init_run (-1) descr init_run w = (set_avail_runs [] w, Raise StopIteration).
Proof.
  intros Hreg. apply runs_file_exists in Hreg as [Hfile Hex].
  apply init_run_select_fails.
  unfold select_run. change (-1 =? -1) with true. cbn iota.
  unfold bind at 1, os_path_exists, gets. rewrite Hex.
  unfold bind. now rewrite (load_avail_runs_ok _ _ _ Hfile).
Qed.

Lemma resume_on_empty_registry_witness :
  registry_on_disk Cases.empty_registry = Some []
  /\ answer (_init_run (-1) "first" (-1)) Cases.empty_registry
     = Raise StopIteration
  /\ fs (after (_init_run (-1) "first" (-1)) Cases.empty_registry)
     = fs Cases.empty_registry.
Proof.
  assert (H : registry_on_disk Cases.empty_registry = Some []) by reflexivity.
  pose proof (resume_on_empty_registry Cases.empty_registry "first" (-1) H)
    as E.
  split; [exact H|]. unfold answer, after. rewrite E. split; reflexivity.
Defined.

Lemma select_run_explicit (w : State) (reg : odict) (run : Z)
    (descr : string) :
  run <> -1 ->
  registry_on_disk w = Some reg ->
  select_run (runs_filename w) run descr w
  = (set_avail_runs reg w, Ok (run, descr)).
Proof.
  intros Hrun Hreg. apply runs_file_exists in Hreg as [Hfile _].
  unfold select_run. apply Z.eqb_neq in Hrun. rewrite Hrun.
  unfold bind. now rewrite (load_avail_runs_ok _ _ _ Hfile).
Qed.

(** X6: selecting explicitly a run that the (non-empty) registry does not list,
    without a description, raises [KeyError] for the run: such a run must be
    given a description.  Nothing is written; only the registry in memory
    has been reloaded. *)
Theorem unlisted_run_needs_description (w : State) (reg : odict) (run : Z)
    (init_run : Z) :
  run <> -1 ->
  registry_on_disk w = Some reg ->
  reg <> [] ->
  OD.get (Py.str run) reg = None ->
  _init_run run "" init_run w
  = (set_avail_runs reg w, Raise (KeyError (Py.str run))).
Proof.
  intros Hrun Hreg Hne Hget.
  eapply init_run_descr_fails; [now apply select_run_explicit|].
  unfold answer, keep_descr, entry_descr. cbn [avail_runs set_avail_runs].
  destruct reg as [|b reg]; [now elim Hne|].
  cbn [String.eqb]. now rewrite Hget.
Qed.

Lemma unlisted_run_needs_description_witness :
  let reg := [("0", JList [JStr "2017-03-01 09:00"; JStr "run zero"])] in
  7 <> -1
  /\ registry_on_disk Sample.resumed = Some reg
  /\ reg <> []
  /\ OD.get (Py.str 7) reg = None
  /\ answer (_init_run 7 "" (-1)) Sample.resumed = Raise (KeyError "7")
  /\ fs (after (_init_run 7 "" (-1)) Sample.resumed) = fs Sample.resumed
  /\ __run (after (_init_run 7 "" (-1)) Sample.resumed) = __run Sample.resumed.
Proof.
  intros reg.
  assert (H1 : 7 <> -1) by discriminate.
  assert (H2 : registry_on_disk Sample.resumed = Some reg)
    by (vm_compute; reflexivity).
  assert (H3 : reg <> []) by discriminate.
  assert (H4 : OD.get (Py.str 7) reg = None) by reflexivity.
  pose proof (unlisted_run_needs_description Sample.resumed reg 7 (-1)
                H1 H2 H3 H4) as E.
  split; [exact H1|]. split; [exact H2|]. split; [exact H3|].
  split; [exact H4|]. unfold answer, after. rewrite E.
  repeat split; reflexivity.
Defined.

(** X7: selecting a run explicitly makes it the active run, whatever its number
    (it need not follow the last run).  With a description the entry of the
    run is written with that description, replacing an older one; without,
    the description the registry holds for the run is kept.  The
    initialization run is the pinned one, else the run before. *)
Theorem explicit_run_is_recorded (w : State) (reg : odict) (run : Z)
    (descr : string) (d : json) (init_run : Z) :
  run <> -1 ->
  registry_on_disk w = Some reg ->
  (descr <> "" /\ d = JStr descr)
  \/ (descr = "" /\
      exists l, OD.get (Py.str run) reg = Some (JList l)
                /\ Py.index l 1 = Some d) ->
  let w' := after (_init_run run descr init_run) w in
  let reg' := OD.set (Py.str run) (JList [JStr (clock w); d]) reg in
  answer (_init_run run descr init_run) w = Ok tt
  /\ __run w' = run
  /\ __init_run w' = (if init_run >? -1 then init_run else run - 1)
  /\ registry_on_disk w' = Some reg'
  /\ OD.get (Py.str run) reg' = Some (JList [JStr (clock w); d])
  /\ (forall key, key <> Py.str run -> OD.get key reg' = OD.get key reg).
Proof.
  intros Hrun Hreg Hd w' reg'.
  pose proof (select_run_explicit w reg run descr Hrun Hreg) as Hsel.
  assert (Hkeep : forall w1 : State,
            answer (keep_descr (avail_runs (set_avail_runs reg w)) run descr)
              w1 = Ok d).
  { intros w1. unfold keep_descr, entry_descr. cbn [avail_runs set_avail_runs].
    destruct Hd as [[Hne ->] | (-> & l & Hget & Hidx)].
    - apply String.eqb_neq in Hne. rewrite Hne. now destruct reg.
    - destruct reg as [|b reg]; [discriminate|].
      cbn [String.eqb]. now rewrite Hget, Hidx. }
  assert (Hok : answer (_init_run run descr init_run) w = Ok tt).
  { eapply init_run_succeeds; [exact Hsel | apply Hkeep |].
    apply runs_file_exists in Hreg as [Hfile _].
    unfold Fs.isfile. now rewrite Hfile. }
  split; [exact Hok|].
  destruct (_init_run run descr init_run w) as [w2 r] eqn:Hcall.
  unfold answer in Hok. rewrite Hcall in Hok. cbn in Hok. subst r.
  assert (Hw : w' = w2) by (unfold w', after; now rewrite Hcall).
  apply init_run_ok_inv in Hcall
    as (w1 & run' & descr' & d' & Hsel' & Hd' & Hav & Hdisk & Hr & Hi & Hf).
  rewrite Hsel in Hsel'. injection Hsel' as <- <- <-.
  rewrite Hkeep in Hd'. injection Hd' as <-.
  cbn [avail_runs set_avail_runs] in Hav. fold reg' in Hav.
  rewrite Hw. split; [exact Hr|]. split; [exact Hi|].
  split; [unfold registry_on_disk; now rewrite Hf, Hdisk, Hav|].
  split; [apply get_set_same|]. intros key Hkey. now apply get_set_other.
Qed.

Lemma explicit_run_is_recorded_witness :
  let reg := [("0", JList [JStr "2017-03-01 09:00"; JStr "run zero"])] in
  5 <> -1
  /\ registry_on_disk Sample.resumed = Some reg
  /\ "five" <> ""
  /\ __run Sample.pinned5 = 5
  /\ __init_run Sample.pinned5 = 4
  /\ registry_on_disk Sample.pinned5
     = Some [("0", JList [JStr "2017-03-01 09:00"; JStr "run zero"]);
             ("5", JList [JStr "2017-03-01 09:00"; JStr "five"])].
Proof.
  intros reg.
  assert (H1 : 5 <> -1) by discriminate.
  assert (H2 : registry_on_disk Sample.resumed = Some reg)
    by (vm_compute; reflexivity).
  assert (H3 : "five" <> "") by discriminate.
  destruct (explicit_run_is_recorded Sample.resumed reg 5 "five"
              (JStr "five") (-1) H1 H2 (or_introl (conj H3 eq_refl)))
    as (_ & Hr & Hi & Hdisk & _).
  split; [exact H1|]. split; [exact H2|]. split; [exact H3|].
  split; [exact Hr|]. split; [exact Hi | exact Hdisk].
Defined.

(** X8: a run initialization that raises has written nothing and has not
    changed the active run or its initialization run: the registry file is
    rewritten only by a call that returns. *)
Theorem failed_init_run_leaves_disk_and_run (w w' : State) (run : Z)
    (descr : string) (init_run : Z) (e : exn) :
  _init_run run descr init_run w = (w', Raise e) ->
  fs w' = fs w /\ __run w' = __run w /\ __init_run w' = __init_run w.
Proof.
  assert (Ksel : keeps disk_and_run (select_run (runs_filename w) run descr)).
  { unfold select_run, os_path_exists, load_avail_runs, json_load, open_read,
      as_dict.
    repeat first
      [ apply keeps_bind; [|intros ?] | apply keeps_ret | apply keeps_raise
      | apply keeps_gets | apply keeps_lift
      | apply keeps_modify; intros; reflexivity
      | match goal with
        | |- keeps _ (match ?x with _ => _ end) => destruct x
        end ]. }
  specialize (Ksel w). unfold after in Ksel.
  assert (split3 : forall w0, disk_and_run w0 = disk_and_run w ->
            fs w0 = fs w /\ __run w0 = __run w /\ __init_run w0 = __init_run w).
  { unfold disk_and_run. intros w0 E. injection E as -> -> ->. auto. }
  unfold _init_run. unfold bind at 1. unfold gets at 1. cbn beta iota.
  fold (runs_filename w). unfold bind at 1.
  destruct (select_run (runs_filename w) run descr w)
    as [w1 [[run' descr']|e0]] eqn:Hsel; cbn [fst] in Ksel.
  2: { intros H. injection H as <- _. now apply split3. }
  cbn [fst snd].
  unfold bind at 1. unfold gets at 1. cbn beta iota.
  unfold bind at 1. rewrite keep_descr_pure.
  destruct (answer (keep_descr (avail_runs w1) run' descr') w1) as [d|e1].
  2: { intros H. injection H as <- _. now apply split3. }
  unfold bind at 1. unfold gets at 1. cbn beta iota.
  unfold bind at 1. unfold modify at 1. cbn beta iota.
  unfold bind at 1. unfold gets at 1. cbn beta iota.
  unfold bind at 1. unfold json_dump, open_write.
  cbn [fs set_avail_runs avail_runs].
  destruct (Fs.write (fs w1) (runs_filename w) _) as [disk|e2].
  2: { intros H. injection H as <- _. now apply split3. }
  unfold bind at 1. unfold modify at 1. cbn beta iota.
  unfold bind at 1. unfold modify at 1. cbn beta iota.
  unfold bind at 1. unfold gets at 1. cbn beta iota.
  match goal with |- ensure_dir ?p ?w0 = _ -> _ =>
    pose proof (proj1 (ensure_dir_frame p w0)) as F; unfold answer in F;
    destruct (ensure_dir p w0) as [w2 r] end.
  cbn in F. subst r. discriminate.
Qed.

Lemma failed_init_run_leaves_disk_and_run_witness :
  _init_run 7 "" 3 Sample.pinned2
  = (after (_init_run 7 "" 3) Sample.pinned2, Raise (KeyError "7"))
  /\ fs (after (_init_run 7 "" 3) Sample.pinned2) = fs Sample.pinned2
  /\ __run (after (_init_run 7 "" 3) Sample.pinned2) = 2
  /\ __init_run (after (_init_run 7 "" 3) Sample.pinned2) = 1.
Proof.
  assert (H : _init_run 7 "" 3 Sample.pinned2
              = (after (_init_run 7 "" 3) Sample.pinned2,
                 Raise (KeyError "7"))) by (vm_compute; reflexivity).
  destruct (failed_init_run_leaves_disk_and_run _ _ _ _ _ _ H)
    as (Hfs & Hr & Hi).
  split; [exact H|]. split; [exact Hfs|].
  split; [rewrite Hr | rewrite Hi]; reflexivity.
Defined.

Lemma dirname_of_dir (s : string) :
  Py.ends_slash s = true -> Py.dirname s = s.
Proof.
  induction s as [|c s IH]; [discriminate|].
  cbn [Py.ends_slash Py.dirname]. destruct s as [|c' s'].
  - intros H. cbn. now rewrite H, (proj1 (Ascii.eqb_eq _ _) H).
  - intros H. rewrite (IH H). reflexivity.
Qed.

Lemma isdir_listed (disk : FS) (d : string) :
  In d (dirs disk) -> Fs.isdir disk d = true.
Proof.
  intros H. unfold Fs.isdir. apply existsb_exists. exists d.
  split; [|apply prefix_refl]. unfold Fs.paths. apply in_or_app. now left.
Qed.

(** After [ensure_dir] the directory is there. *)
Lemma ensure_dir_makes (d : string) (w : State) :
  Py.ends_slash d = true ->
  Fs.isdir (fs (after (ensure_dir d) w)) d = true.
Proof.
  intros Hd. unfold after, ensure_dir, modify. cbn [fst].
  rewrite (dirname_of_dir d Hd). destruct d as [|c d']; [discriminate|].
  cbv zeta. destruct (Fs.isdir (fs w) (String c d')) eqn:E; [exact E|].
  apply isdir_listed. cbn. apply in_or_app. right. now left.
Qed.

Lemma write_dir_ends_slash (w : State) (run : option Z) :
  Py.ends_slash (get_write_dir w run) = true.
Proof.
  unfold get_write_dir. rewrite <- !append_assoc. apply ends_slash_append.
Qed.

(** The state a returning run initialization leaves is the one its last
    statement, [ensure_dir(get_write_dir())], leaves. *)
Lemma init_run_ok_shape (w w' : State) (run : Z) (descr : string)
    (init_run : Z) :
  _init_run run descr init_run w = (w', Ok tt) ->
  exists w4, w' = after (ensure_dir (get_write_dir w4 None)) w4.
Proof.
  unfold _init_run. unfold bind at 1. unfold gets at 1. cbn beta iota.
  fold (runs_filename w). unfold bind at 1.
  destruct (select_run (runs_filename w) run descr w)
    as [w1 [[run' descr']|e]]; [|discriminate].
  cbn [fst snd].
  unfold bind at 1. unfold gets at 1. cbn beta iota.
  unfold bind at 1. rewrite keep_descr_pure.
  destruct (answer (keep_descr (avail_runs w1) run' descr') w1) as [d|e];
    [|discriminate].
  unfold bind at 1. unfold gets at 1. cbn beta iota.
  unfold bind at 1. unfold modify at 1. cbn beta iota.
  unfold bind at 1. unfold gets at 1. cbn beta iota.
  unfold bind at 1. unfold json_dump, open_write.
  cbn [fs set_avail_runs avail_runs].
  destruct (Fs.write (fs w1) (runs_filename w) _) as [disk|e]; [|discriminate].
  unfold bind at 1. unfold modify at 1. cbn beta iota.
  unfold bind at 1. unfold modify at 1. cbn beta iota.
  unfold bind at 1. unfold gets at 1. cbn beta iota.
  intros H. eexists. unfold after. now rewrite H.
Qed.

(** X9: when the run initialization returns, the root directory of the active
    run and the registry file are on disk, so a later call without an
    explicit run goes on from the registry, and the chain of runs tried by a
    load starts with the active run and ends with run 0 (or is the active
    run alone when its initialization run is -1). *)
Theorem init_run_leaves_run_directory (w w' : State) (run : Z)
    (descr : string) (init_run : Z) :
  _init_run run descr init_run w = (w', Ok tt) ->
  Fs.isdir (fs w') (get_write_dir w' None) = true
  /\ Fs.exists_ (fs w') (get_write_dir w' None) = true
  /\ Fs.exists_ (fs w') (runs_filename w') = true
  /\ trial_runs w'
     = lineage_chain (__run w')
         (if init_run >? -1 then init_run else __run w' - 1).
Proof.
  intros H.
  assert (Hdir : Fs.isdir (fs w') (get_write_dir w' None) = true).
  { destruct (init_run_ok_shape _ _ _ _ _ H) as [w4 ->].
    set (p := get_write_dir w4 None).
    destruct (ensure_dir_frame p w4) as (_ & _ & _ & Fr & _ & _ & _ & Fb & Fd).
    set (w5 := after (ensure_dir p) w4) in *.
    assert (E : get_write_dir w5 None = p).
    { change (write_basedir w5 ++ dataset_name w5 ++ "_"
              ++ Py.str (__run w5) ++ "/" = p).
      now rewrite Fr, Fb, Fd. }
    rewrite E. apply ensure_dir_makes, write_dir_ends_slash. }
  split; [exact Hdir|].
  split; [unfold Fs.exists_; now rewrite write_dir_ends_slash|].
  apply init_run_ok_inv in H
    as (_ & run' & _ & _ & _ & _ & _ & Hdisk & Hr & Hi & Hf).
  split; [rewrite Hf; exact (lookup_exists _ _ _ Hdisk)|].
  now rewrite trial_runs_chain, Hi, Hr.
Qed.

Lemma init_run_leaves_run_directory_witness :
  _init_run (-1) "second" (-1) Sample.resumed
  = (after (_init_run (-1) "second" (-1)) Sample.resumed, Ok tt)
  /\ Fs.isdir (fs (after (_init_run (-1) "second" (-1)) Sample.resumed))
       "/data/dsb3_1/" = true
  /\ trial_runs (after (_init_run (-1) "second" (-1)) Sample.resumed) = [1; 0].
Proof.
  assert (H : _init_run (-1) "second" (-1) Sample.resumed
              = (after (_init_run (-1) "second" (-1)) Sample.resumed, Ok tt))
    by (vm_compute; reflexivity).
  destruct (init_run_leaves_run_directory _ _ _ _ _ H) as (Hdir & _ & _ & Hc).
  split; [exact H|]. split; [exact Hdir | exact Hc].
Defined.

(** ** Run registry: the numbering of runs *)

Lemma last_key_of_keys (d : odict) (pre : list string) (k : string) :
  OD.keys d = (pre ++ [k])%list -> OD.last_key d = Some k.
Proof.
  unfold OD.keys, OD.last_key. intros H.
  apply (f_equal (@rev string)) in H. rewrite <- map_rev, rev_app_distr in H.
  destruct (rev d) as [|[q v] r]; [discriminate|].
  cbn in H. now injection H as -> _.
Qed.

Lemma dense_keys_succ (n : nat) :
  dense_keys (S n) = (dense_keys n ++ [Py.str (Z.of_nat (S n))])%list.
Proof. unfold dense_keys. now rewrite (seq_S (S n)), map_app. Qed.

Lemma dense_keys_last (n : nat) :
  exists pre, dense_keys n = (pre ++ [Py.str (Z.of_nat n)])%list.
Proof.
  unfold dense_keys. rewrite seq_S, map_app. eexists. reflexivity.
Qed.

Lemma dense_keys_below (n : nat) (k : Z) :
  In (Py.str k) (dense_keys n) -> 0 <= k <= Z.of_nat n.
Proof.
  unfold dense_keys. intros H. apply in_map_iff in H as (i & Hi & Hin).
  apply str_inj in Hi. apply in_seq in Hin. lia.
Qed.

(** X10: resuming with descriptions numbers the runs without gaps: when the
    registry lists the runs 0, ..., n in this order, a resume with a
    non-empty description makes run n+1 the active run and the registry
    lists 0, ..., n+1; the initialization run is the pinned one, else n. *)
Theorem resume_keeps_runs_dense (w : State) (reg : odict) (n : nat)
    (descr : string) (init_run : Z) :
  registry_on_disk w = Some reg ->
  OD.keys reg = dense_keys n ->
  descr <> "" ->
  let w' := after (_init_run (-1) descr init_run) w in
  answer (_init_run (-1) descr init_run) w = Ok tt
  /\ __run w' = Z.of_nat (S n)
  /\ __init_run w' = (if init_run >? -1 then init_run else Z.of_nat n)
  /\ option_map OD.keys (registry_on_disk w') = Some (dense_keys (S n)).
Proof.
  intros Hreg Hkeys Hdescr w'.
  assert (Hlast : OD.last_key reg = Some (Py.str (Z.of_nat n))).
  { destruct (dense_keys_last n) as [pre Hpre].
    apply (last_key_of_keys reg pre). now rewrite Hkeys. }
  pose proof (select_run_resume w reg _ descr Hreg Hlast) as Hsel.
  apply String.eqb_neq in Hdescr. rewrite Hdescr in Hsel.
  assert (Hkeep : forall w1 : State,
            answer (keep_descr (avail_runs (set_avail_runs reg w))
                      (Z.of_nat n + 1) descr) w1 = Ok (JStr descr)).
  { intros w1. unfold keep_descr. cbn [avail_runs set_avail_runs].
    destruct reg; [reflexivity|]. now rewrite Hdescr. }
  assert (Hok : answer (_init_run (-1) descr init_run) w = Ok tt).
  { eapply init_run_succeeds; [exact Hsel | apply Hkeep |].
    apply runs_file_exists in Hreg as [Hfile _].
    unfold Fs.isfile. now rewrite Hfile. }
  split; [exact Hok|].
  destruct (_init_run (-1) descr init_run w) as [w2 r] eqn:Hrun.
  unfold answer in Hok. rewrite Hrun in Hok. cbn in Hok. subst r.
  assert (Hw : w' = w2) by (unfold w', after; now rewrite Hrun).
  apply init_run_ok_inv in Hrun
    as (w1 & run' & descr' & d & Hsel' & Hd & Hav & Hdisk & Hr & Hi & Hf).
  rewrite Hsel in Hsel'. injection Hsel' as <- <- <-.
  cbn [avail_runs set_avail_runs] in Hav.
  rewrite Hw. split; [rewrite Hr; lia|].
  split; [rewrite Hi; destruct (init_run >? -1); [reflexivity | lia]|].
  unfold registry_on_disk. rewrite Hf, Hdisk, Hav. cbn [option_map].
  rewrite keys_set, Hkeys.
  destruct (OD.mem (Py.str (Z.of_nat n + 1)) reg) eqn:Hmem.
  - apply mem_In in Hmem. rewrite Hkeys in Hmem.
    apply dense_keys_below in Hmem. lia.
  - rewrite dense_keys_succ. now rewrite Nat2Z.inj_succ.
Qed.

Lemma resume_keeps_runs_dense_witness :
  registry_on_disk Sample.resumed
  = Some [("0", JList [JStr "2017-03-01 09:00"; JStr "run zero"])]
  /\ OD.keys [("0", JList [JStr "2017-03-01 09:00"; JStr "run zero"])]
     = dense_keys 0
  /\ "second" <> ""
  /\ __run (after (_init_run (-1) "second" (-1)) Sample.resumed) = 1
  /\ option_map OD.keys
       (registry_on_disk (after (_init_run (-1) "second" (-1)) Sample.resumed))
     = Some ["0"; "1"].
Proof.
  assert (H1 : registry_on_disk Sample.resumed
               = Some [("0", JList [JStr "2017-03-01 09:00"; JStr "run zero"])])
    by (vm_compute; reflexivity).
  assert (H3 : "second" <> "") by discriminate.
  destruct (resume_keeps_runs_dense Sample.resumed _ 0 "second" (-1)
              H1 eq_refl H3) as (_ & Hr & _ & Hk).
  split; [exact H1|]. split; [reflexivity|]. split; [exact H3|].
  split; [exact Hr | exact Hk].
Defined.

(** ** Steps outside the catalog *)

Lemma not_in_catalog (step_name : string) :
  ~ In step_name (map snd avail_steps) ->
  filter (fun kv => String.eqb (snd kv) step_name) avail_steps = [].
Proof.
  intros H.
  destruct (filter _ avail_steps) as [|[k n] rest] eqn:E; [reflexivity|].
  assert (Hin : In (k, n)
                  (filter (fun kv => String.eqb (snd kv) step_name) avail_steps))
    by (rewrite E; now left).
  apply filter_In in Hin as [Hin Hn]. apply String.eqb_eq in Hn. cbn in Hn.
  subst n. elim H. apply in_map_iff. now exists (k, step_name).
Qed.

(** X11: a step name that is not in the catalog is refused with [IndexError]
    before anything happens: initializing, running or visualizing such a
    step leaves the globals and the disk exactly as they were. *)
Theorem unknown_step_changes_nothing (py_format : json -> string)
    (steps : string -> option StepModule) (w : State)
    (step_name mode suffix : string) (params : odict) :
  ~ In step_name (map snd avail_steps) ->
  _init_step step_name mode suffix w = (w, Raise IndexError)
  /\ _run_step py_format steps step_name params suffix w
     = (w, Raise IndexError)
  /\ _visualize_step (Some step_name) w = (w, Raise IndexError).
Proof.
  intros H.
  assert (Hinit : forall m s, _init_step step_name m s w = (w, Raise IndexError))
    by (intros m s; unfold _init_step; now rewrite (not_in_catalog _ H)).
  split; [apply Hinit|]. split.
  - apply run_step_fails_before_entry. unfold before_entry, bind.
    now rewrite Hinit.
  - unfold _visualize_step, bind. now rewrite Hinit.
Qed.

Lemma unknown_step_changes_nothing_witness :
  ~ In "segment_lungs" (map snd avail_steps)
  /\ _run_step Sample.format Sample.steps "segment_lungs" Sample.params ""
       Sample.ready
     = (Sample.ready, Raise IndexError).
Proof.
  assert (H : ~ In "segment_lungs" (map snd avail_steps)).
  { cbn. intros K.
    repeat (destruct K as [K|K]; [discriminate|]). exact K. }
  destruct (unknown_step_changes_nothing Sample.format Sample.steps
              Sample.ready "segment_lungs" "w" "" Sample.params H)
    as (_ & Hrun & _).
  split; [exact H | exact Hrun].
Defined.

(** ** Loads and saves *)

(** X12: loading never changes anything: the search for the step directory and
    both ways of loading a record leave the globals and the disk as they
    found them, whether they return or raise. *)
Theorem loads_change_nothing (w : State) (basename filename : string)
    (sn : option string) :
  after (_get_step_dir_for_load sn) w = w
  /\ after (load_json basename sn) w = w
  /\ after (load_json_troll filename) w = w.
Proof.
  assert (K1 : forall runs tried trial,
            keeps (fun w => w) (for_run_in sn runs tried trial)).
  { induction runs as [|run rest IH]; intros tried trial; cbn.
    - destruct tried; apply keeps_raise.
    - unfold os_path_exists.
      apply keeps_bind; [apply keeps_lift | intros d].
      apply keeps_bind; [apply keeps_gets | intros found].
      destruct found; [apply keeps_ret | apply IH]. }
  assert (K2 : keeps (fun w => w) (_get_step_dir_for_load sn)).
  { unfold _get_step_dir_for_load.
    apply keeps_bind; [apply keeps_gets | intros trial; apply K1]. }
  assert (K3 : forall p, keeps (fun w => w) (j <- json_load p ;; as_dict j)).
  { intros p. unfold json_load, open_read, as_dict.
    apply keeps_bind.
    - apply keeps_bind; [apply keeps_lift | intros c].
      destruct c; [apply keeps_ret | apply keeps_raise | apply keeps_raise].
    - intros j. destruct j; first [apply keeps_ret | apply keeps_raise]. }
  split; [exact (K2 w)|]. split; [|exact (K3 filename w)].
  assert (K4 : keeps (fun w => w) (load_json basename sn)).
  { unfold load_json. apply keeps_bind; [exact K2 | intros d; apply K3]. }
  exact (K4 w).
Qed.

Lemma save_json_overwrite (w : State) (sn : option string) (name : string)
    (basename mode : string) (d : odict) (disk' : FS) :
  resolved_name w sn = Some name ->
  mode <> "a" ->
  Fs.write (fs w) (step_dir_of w name (__run w) ++ basename) (Json (JDict d))
  = Ok disk' ->
  save_json basename d sn mode w = (set_fs disk' w, Ok tt).
Proof.
  intros Hname Hmode Hwrite. unfold save_json.
  unfold bind at 1, lift. rewrite (get_step_dir_current w sn name Hname).
  unfold bind at 1, os_path_exists, gets.
  apply String.eqb_neq in Hmode. rewrite Hmode. cbn [andb].
  unfold bind, ret, json_dump, open_write. now rewrite Hwrite.
Qed.

(** X13: what is saved in overwrite mode is what a load gives back: if the file
    can be written (it is there already, or its directory is and its name
    is free), a save in a mode other than ['a'] returns and a load of the
    same name in the same step then returns the saved record, whatever the
    file held before. *)
Theorem save_then_load (w : State) (sn : option string) (name : string)
    (basename mode : string) (d : odict) :
  resolved_name w sn = Some name ->
  mode <> "a" ->
  let p := step_dir_of w name (__run w) ++ basename in
  (Fs.isfile (fs w) p = true
   \/ (Fs.exists_ (fs w) p = false /\ Py.ends_slash p = false
       /\ Fs.parent_ok (fs w) p = true)) ->
  let w' := after (save_json basename d sn mode) w in
  answer (save_json basename d sn mode) w = Ok tt
  /\ load_json basename sn w' = (w', Ok d).
Proof.
  intros Hname Hmode p Hwritable w'.
  assert (Hwrite : Fs.write (fs w) p (Json (JDict d))
                   = Ok (mkFS (dirs (fs w))
                           (Fs.store p (Json (JDict d)) (files (fs w))))).
  { destruct Hwritable as [Hfile | (Hex & Hslash & Hparent)].
    - unfold Fs.write. now rewrite Hfile.
    - now apply write_new. }
  pose proof (save_json_overwrite w sn name basename mode d _ Hname Hmode
                Hwrite) as Hsave.
  unfold answer, w', after. rewrite Hsave. cbn [fst snd].
  split; [reflexivity|].
  apply (load_json_current _ sn name); [exact Hname|].
  apply (record_after_store w (step_dir_of w name (__run w))).
Qed.

Lemma save_then_load_witness :
  let d := [("a", JNum 1); ("b", JNum 2)] in
  let w' := after (save_json "out.json" d None "w") Sample.merging in
  resolved_name Sample.merging None = Some "gen_candidates"
  /\ "w" <> "a"
  /\ Fs.exists_ (fs Sample.merging) "/data/dsb3_1/gen_candidates/out.json"
     = false
  /\ load_json "out.json" None w' = (w', Ok d).
Proof.
  intros d w'.
  assert (Hm : "w" <> "a") by discriminate.
  destruct (save_then_load Sample.merging None "gen_candidates" "out.json" "w"
              d eq_refl Hm) as [_ Hload].
  { right. repeat split; reflexivity. }
  split; [reflexivity|]. split; [exact Hm|]. split; [reflexivity | exact Hload].
Defined.

(** X14: a save touches one file: whatever its mode and whether it returns or
    raises, every other file, the list of directories and all globals
    (registry, active run, step, suffix, logs, patients) are as before. *)
Theorem save_json_touches_one_file (w : State) (sn : option string)
    (name basename mode : string) (d : odict) :
  resolved_name w sn = Some name ->
  let w' := after (save_json basename d sn mode) w in
  (forall q, q <> step_dir_of w name (__run w) ++ basename ->
             Fs.lookup q (files (fs w')) = Fs.lookup q (files (fs w)))
  /\ dirs (fs w') = dirs (fs w)
  /\ exists disk', w' = set_fs disk' w.
Proof.
  intros Hname w'.
  set (p := step_dir_of w name (__run w) ++ basename).
  assert (Hshape : forall w2 r,
            save_json basename d sn mode w = (w2, r) ->
            (exists x, w2 = after (json_dump (JDict x) p) w) \/ w2 = w).
  { intros w2 r. unfold save_json.
    unfold bind at 1, lift. rewrite (get_step_dir_current w sn name Hname).
    fold p. unfold bind at 1, os_path_exists, gets.
    destruct (String.eqb mode "a" && Fs.exists_ (fs w) p).
    - unfold bind at 1. unfold bind at 1.
      pose proof (proj1 (proj2 (loads_change_nothing w basename p sn))) as Hl.
      unfold after in Hl. destruct (load_json basename sn w) as [w1 [old|e]];
        cbn [fst] in Hl; subst w1; intros H; apply (f_equal fst) in H;
        cbn [fst] in H; subst w2.
      + left. exists (OD.update old d). reflexivity.
      + right. reflexivity.
    - intros H. apply (f_equal fst) in H. cbn [fst] in H. subst w2.
      left. exists d. reflexivity. }
  destruct (save_json basename d sn mode w) as [w2 r] eqn:Hsave.
  assert (Hw : w' = w2) by (unfold w', after; now rewrite Hsave).
  rewrite Hw. clear Hw w'. specialize (Hshape w2 r eq_refl).
  destruct Hshape as [[x ->] | ->].
  - unfold after, json_dump, open_write.
    destruct (Fs.write (fs w) p (Json (JDict x))) as [disk|e] eqn:Hw; cbn.
    + apply write_ok in Hw. subst disk. cbn. split; [|split; [reflexivity|]].
      * intros q Hq. apply lookup_store_other. congruence.
      * eexists. reflexivity.
    + split; [reflexivity|]. split; [reflexivity|]. exists (fs w).
      now destruct w.
  - split; [reflexivity|]. split; [reflexivity|]. exists (fs w).
    now destruct w.
Qed.

Lemma save_json_touches_one_file_witness :
  let w' := after (save_json "out.json" [("a", JNum 1)] None "a")
              Sample.merging in
  resolved_name Sample.merging None = Some "gen_candidates"
  /\ Fs.lookup "/data/dsb3_0/gen_candidates/out.json" (files (fs w'))
     = Some (Json (JDict [("z", JNum 0)]))
  /\ dirs (fs w') = dirs (fs Sample.merging).
Proof.
  intros w'.
  destruct (save_json_touches_one_file Sample.merging None "gen_candidates"
              "out.json" "a" [("a", JNum 1)] eq_refl) as (Hothers & Hdirs & _).
  split; [reflexivity|]. split; [|exact Hdirs].
  fold w' in Hothers. rewrite Hothers; [reflexivity | discriminate].
Defined.

(** ** What a computation does to the disk: nothing is deleted *)

Section Preserves.

Context (R : State -> State -> Prop).
Hypothesis R_refl : forall w, R w w.
Hypothesis R_trans : forall a b c, R a b -> R b c -> R a c.

Lemma preserves_ret {A : Type} (a : A) : preserves R (ret a).
Proof. intros w. apply R_refl. Qed.

Lemma preserves_raise {A : Type} (e : exn) : preserves R (@raise A e).
Proof. intros w. apply R_refl. Qed.

Lemma preserves_gets {A : Type} (f : State -> A) : preserves R (gets f).
Proof. intros w. apply R_refl. Qed.

Lemma preserves_lift {A : Type} (f : State -> result A) :
  preserves R (lift f).
Proof. intros w. apply R_refl. Qed.

Lemma preserves_modify (f : State -> State) :
  (forall w, R w (f w)) -> preserves R (modify f).
Proof. intros H w. apply H. Qed.

(** The continuation matters only at values the first part can return. *)
Lemma preserves_bind_returned {A B : Type} (m : M A) (k : A -> M B) :
  preserves R m ->
  (forall a, (exists w w1, m w = (w1, Ok a)) -> preserves R (k a)) ->
  preserves R (bind m k).
Proof.
  intros Hm Hk w. specialize (Hm w). unfold after, bind in *.
  destruct (m w) as [w1 [a|e]] eqn:E; cbn in *; [|exact Hm].
  apply (R_trans _ _ _ Hm). apply Hk. now exists w, w1.
Qed.

Lemma preserves_bind {A B : Type} (m : M A) (k : A -> M B) :
  preserves R m -> (forall a, preserves R (k a)) -> preserves R (bind m k).
Proof. intros Hm Hk. apply preserves_bind_returned; auto. Qed.

Lemma preserves_catch {A : Type} (m : M A) (h : exn -> M A) :
  preserves R m -> (forall e, preserves R (h e)) -> preserves R (catch m h).
Proof.
  intros Hm Hh w. specialize (Hm w). unfold after, catch in *.
  destruct (m w) as [w1 [a|e]]; cbn in *; [exact Hm|].
  apply (R_trans _ _ _ Hm). apply Hh.
Qed.

End Preserves.

Lemma grows_refl (w : State) : grows w w.
Proof. apply incl_refl. Qed.

Lemma grows_trans (a b c : State) : grows a b -> grows b c -> grows a c.
Proof. apply incl_tran. Qed.

Lemma store_keeps_paths (p : string) (c : content)
    (l : list (string * content)) :
  incl (map fst l) (map fst (Fs.store p c l)).
Proof.
  induction l as [|[q c'] l IH]; cbn; [apply incl_nil_l|].
  destruct (String.eqb p q); cbn; [apply incl_refl|].
  apply incl_cons; [now left | now apply incl_tl].
Qed.

Lemma grows_store (w : State) (p : string) (c : content) :
  grows w (set_fs (mkFS (dirs (fs w)) (Fs.store p c (files (fs w)))) w).
Proof.
  unfold grows, Fs.paths. cbn.
  apply incl_app_app; [apply incl_refl | apply store_keeps_paths].
Qed.

Lemma grows_isdir (w w' : State) (d : string) :
  grows w w' -> Fs.isdir (fs w) d = true -> Fs.isdir (fs w') d = true.
Proof.
  unfold grows, Fs.isdir. intros G. rewrite !existsb_exists.
  intros (p & Hp & Hpre). exists p. split; [now apply G | exact Hpre].
Qed.

Lemma grows_bind {A B : Type} (m : M A) (k : A -> M B) :
  preserves grows m -> (forall a, preserves grows (k a)) ->
  preserves grows (bind m k).
Proof. apply preserves_bind. exact grows_trans. Qed.

Lemma grows_ret {A : Type} (a : A) : preserves grows (ret a).
Proof. apply preserves_ret. exact grows_refl. Qed.

Lemma grows_raise {A : Type} (e : exn) : preserves grows (@raise A e).
Proof. apply preserves_raise. exact grows_refl. Qed.

Lemma grows_gets {A : Type} (f : State -> A) : preserves grows (gets f).
Proof. apply preserves_gets. exact grows_refl. Qed.

Lemma grows_lift {A : Type} (f : State -> result A) :
  preserves grows (lift f).
Proof. apply preserves_lift. exact grows_refl. Qed.

Lemma grows_open_write (p : string) (c : content) :
  preserves grows (open_write p c).
Proof.
  intros w. unfold after, open_write.
  destruct (Fs.write (fs w) p c) as [disk|e] eqn:Hw; cbn; [|apply grows_refl].
  apply write_ok in Hw. subst disk. apply grows_store.
Qed.

Lemma grows_append_line (p line : string) :
  preserves grows (append_line p line).
Proof. intros w. unfold after, append_line, modify. cbn. apply grows_store. Qed.

Lemma grows_ensure_dir (p : string) : preserves grows (ensure_dir p).
Proof.
  intros w. unfold after, ensure_dir, modify. cbn [fst].
  destruct (Py.dirname p) as [|c d]; [apply grows_refl|]. cbv zeta.
  destruct (Fs.isdir (fs w) (String c d)); [apply grows_refl|].
  unfold grows, Fs.paths. cbn.
  apply incl_app_app; [apply incl_appl |]; apply incl_refl.
Qed.

Create HintDb grows.

#[global] Hint Resolve grows_open_write grows_append_line grows_ensure_dir
  : grows.

Ltac grows_step :=
  first
    [ solve [auto with grows]
    | apply grows_bind; [|intros ?]
    | apply grows_ret
    | apply grows_raise
    | apply grows_gets
    | apply grows_lift
    | apply preserves_modify; intros ?; unfold grows; apply incl_refl
    | match goal with
      | |- preserves grows (match ?x with _ => _ end) => destruct x
      end ].

Ltac grows_all := repeat grows_step.

Lemma grows_for_run_in (sn : option string) (runs : list Z)
    (tried : option string) (trial : list Z) :
  preserves grows (for_run_in sn runs tried trial).
Proof.
  revert tried. induction runs as [|run rest IH]; intros tried; cbn.
  - grows_all.
  - unfold os_path_exists. grows_all.
Qed.

#[global] Hint Resolve grows_for_run_in : grows.

Lemma grows_load_json (basename : string) (sn : option string) :
  preserves grows (load_json basename sn).
Proof.
  unfold load_json, _get_step_dir_for_load, json_load, open_read, as_dict.
  grows_all.
Qed.

#[global] Hint Resolve grows_load_json : grows.

Lemma grows_save_json (basename : string) (d : odict) (sn : option string)
    (mode : string) :
  preserves grows (save_json basename d sn mode).
Proof. unfold save_json, os_path_exists, json_dump. grows_all. Qed.

Lemma grows_init_run (run : Z) (descr : string) (init_run : Z) :
  preserves grows (_init_run run descr init_run).
Proof.
  unfold _init_run, select_run, load_avail_runs, keep_descr, entry_descr,
    json_load, open_read, as_dict, json_dump, os_path_exists.
  grows_all.
Qed.

Lemma grows_open_log (p mode : string) : preserves grows (open_log p mode).
Proof. unfold open_log. grows_all. Qed.

Lemma grows_log_info (logger : State -> option string) (msg : string) :
  preserves grows (log_info logger msg).
Proof. unfold log_info. grows_all. Qed.

#[global] Hint Resolve grows_open_log grows_log_info : grows.

Lemma grows_init_log_pipe : preserves grows _init_log_pipe.
Proof. unfold _init_log_pipe, os_path_exists. grows_all. Qed.

Lemma grows_init_log_step (step_name mode : string) :
  preserves grows (_init_log_step step_name mode).
Proof. unfold _init_log_step. grows_all. Qed.

#[global] Hint Resolve grows_init_log_step : grows.

Lemma grows_init_step (step_name mode suffix : string) :
  preserves grows (_init_step step_name mode suffix).
Proof. unfold _init_step. grows_all. Qed.

#[global] Hint Resolve grows_init_step : grows.

Lemma grows_visualize_step (sn : option string) :
  preserves grows (_visualize_step sn).
Proof.
  unfold _visualize_step, write_figs_overview_html, os_path_exists.
  grows_all.
Qed.

#[global] Hint Resolve grows_visualize_step : grows.

Lemma grows_init_patients (n : Z) (single : option string)
    (fromto : option (list Z)) :
  preserves grows (_init_patients n single fromto).
Proof.
  unfold _init_patients, read_patients, the_patients, item, json_load,
    open_read, as_dict, json_dump, os_path_exists.
  grows_all.
Qed.

Lemma grows_before_entry (py_format : json -> string)
    (steps : string -> option StepModule) (step_name : string)
    (params : odict) (suffix : string) :
  preserves grows (before_entry py_format steps step_name params suffix).
Proof.
  unfold before_entry, import_module, entry_descr, as_str, json_dump.
  grows_all.
Qed.

Lemma grows_after_entry : preserves grows after_entry.
Proof. unfold after_entry. grows_all. Qed.

Lemma grows_guarded_run (m : StepModule) (params : odict) :
  preserves grows (run_body m params) ->
  preserves grows (guarded_run m params).
Proof.
  intros Hbody. unfold guarded_run, call_run.
  apply preserves_catch; [exact grows_trans | |].
  - destruct (if run_var_keyword m then None else _); [apply grows_raise|].
    destruct (filter _ (run_required m)); [exact Hbody | apply grows_raise].
  - intros e. destruct e; try apply grows_raise.
    destruct (Py.contains unexpected_keyword msg); [|apply grows_raise].
    destruct (run_doc m); apply grows_raise.
Qed.

(** X15: nothing on disk is ever removed: every path (file or directory) that
    exists before a call of the run, step, patient or log initialization,
    of a save, of the visualization or of a whole step invocation still
    exists after it, whether the call returns or raises -- for a step
    invocation provided the entry points of the step modules remove nothing
    themselves. *)
Theorem nothing_is_deleted (py_format : json -> string)
    (steps : string -> option StepModule) :
  (forall name m params,
     steps name = Some m -> preserves grows (run_body m params)) ->
  (forall run descr init_run, preserves grows (_init_run run descr init_run))
  /\ (forall name mode suffix, preserves grows (_init_step name mode suffix))
  /\ (forall basename d sn mode,
        preserves grows (save_json basename d sn mode))
  /\ (forall sn, preserves grows (_visualize_step sn))
  /\ (forall n single fromto, preserves grows (_init_patients n single fromto))
  /\ preserves grows _init_log_pipe
  /\ (forall name params suffix,
        preserves grows (_run_step py_format steps name params suffix)).
Proof.
  intros Hsteps.
  split; [exact grows_init_run|]. split; [exact grows_init_step|].
  split; [exact grows_save_json|]. split; [exact grows_visualize_step|].
  split; [exact grows_init_patients|]. split; [exact grows_init_log_pipe|].
  intros name params suffix. unfold _run_step.
  apply preserves_bind_returned;
    [exact grows_trans | apply grows_before_entry |].
  intros m (w & w1 & Hm).
  destruct (before_entry_ok _ _ _ _ _ _ _ _ Hm) as (_ & _ & _ & Hin).
  apply grows_bind; [|intros _; apply grows_after_entry].
  apply grows_guarded_run. now apply (Hsteps name).
Qed.

Lemma nothing_is_deleted_witness :
  (forall name m params,
     Sample.steps name = Some m -> preserves grows (run_body m params))
  /\ forall p,
       In p (Fs.paths (fs Sample.ready)) ->
       In p (Fs.paths
               (fs (after (_run_step Sample.format Sample.steps
                             "filter_candidates" Sample.params "")
                      Sample.ready))).
Proof.
  assert (H : forall name m params,
            Sample.steps name = Some m -> preserves grows (run_body m params)).
  { intros name m params. unfold Sample.steps.
    destruct (String.eqb name "gen_candidates");
      [intros E; injection E as <-; apply grows_ret|].
    destruct (String.eqb name "filter_candidates");
      [intros E; injection E as <-; apply grows_raise|].
    destruct (String.eqb name "gen_submission");
      [intros E; injection E as <-; apply grows_raise | discriminate]. }
  split; [exact H|].
  destruct (nothing_is_deleted Sample.format Sample.steps H)
    as (_ & _ & _ & _ & _ & _ & Hrun).
  exact (Hrun "filter_candidates" Sample.params "" Sample.ready).
Defined.

(** ** A step that has been initialized reads from its own run *)

Lemma init_step_shape (w : State) (step_name mode suffix : string) :
  In step_name (map snd avail_steps) ->
  exists w3,
    path_globals w3
    = (write_basedir w, dataset_name w, __run w, Some step_name,
       suffix ++ __step_dir_suffix w)
    /\ let sd := step_dir_of w3 step_name (__run w3) in
       after (_init_step step_name mode suffix) w
       = after (_init_log_step step_name mode)
           (after (ensure_dir (sd ++ "figs/"))
              (after (ensure_dir (sd ++ "arrays/")) w3)).
Proof.
  intros Hin. destruct (in_catalog step_name Hin) as (k & rest & Hf).
  eexists. split; [|cbv zeta; unfold _init_step; rewrite Hf; reflexivity].
  reflexivity.
Qed.

(** X16: initializing a step of the catalog creates its directory with the
    subdirectories for arrays and figures (whether the logs could be opened
    or not), so that a load for the current step is then answered from the
    active run and never from an earlier one. *)
Theorem init_step_makes_step_current (w : State)
    (step_name mode suffix : string) :
  In step_name (map snd avail_steps) ->
  let w' := after (_init_step step_name mode suffix) w in
  let sd := step_dir_of w' step_name (__run w') in
  Fs.isdir (fs w') sd = true
  /\ Fs.isdir (fs w') (sd ++ "arrays/") = true
  /\ Fs.isdir (fs w') (sd ++ "figs/") = true
  /\ _get_step_dir_for_load None w' = (w', Ok sd).
Proof.
  intros Hin w' sd.
  pose proof (init_step_path_globals w step_name mode suffix Hin) as G.
  fold w' in G.
  destruct (init_step_shape w step_name mode suffix Hin) as (w3 & G3 & Hw).
  cbv zeta in Hw. fold w' in Hw.
  assert (Esd : step_dir_of w3 step_name (__run w3) = sd).
  { rewrite <- G3 in G. unfold path_globals in G.
    injection G as Gb Gd Gr _ Gs.
    unfold sd, step_dir_of, get_write_dir. now rewrite Gb, Gd, Gr, Gs. }
  rewrite Esd in Hw.
  set (w4 := after (ensure_dir (sd ++ "arrays/")) w3) in *.
  set (w5 := after (ensure_dir (sd ++ "figs/")) w4) in *.
  assert (G45 : grows w4 w5) by apply grows_ensure_dir.
  assert (G5 : grows w5 w').
  { rewrite Hw. apply grows_init_log_step. }
  assert (Harrays : Fs.isdir (fs w') (sd ++ "arrays/") = true).
  { apply (grows_isdir w5 w' _ G5), (grows_isdir w4 w5 _ G45).
    apply ensure_dir_makes.
    now rewrite ends_slash_append_nonempty by discriminate. }
  assert (Hfigs : Fs.isdir (fs w') (sd ++ "figs/") = true).
  { apply (grows_isdir w5 w' _ G5).
    apply ensure_dir_makes.
    now rewrite ends_slash_append_nonempty by discriminate. }
  assert (Hsd : Fs.isdir (fs w') sd = true) by exact (isdir_parent _ _ _ Hfigs).
  split; [exact Hsd|]. split; [exact Harrays|]. split; [exact Hfigs|].
  assert (Hname : resolved_name w' None = Some step_name).
  { unfold path_globals in G. now injection G as _ _ _ Gn _. }
  rewrite (get_step_dir_for_load_spec w' None step_name Hname).
  unfold lineage_chain. cbn [find]. fold sd. now rewrite Hsd.
Qed.

Lemma init_step_makes_step_current_witness :
  let w' := after (_init_step "gen_candidates" "w" "") Sample.merging in
  In "gen_candidates" (map snd avail_steps)
  /\ Fs.isdir (fs w') "/data/dsb3_1/gen_candidates/figs/" = true
  /\ _get_step_dir_for_load None w' = (w', Ok "/data/dsb3_1/gen_candidates/")
  /\ exists e, load_json "out.json" None w' = (w', Raise e).
Proof.
  intros w'.
  destruct (init_step_makes_step_current Sample.merging "gen_candidates" "w" ""
              step_name_in_catalog) as (_ & _ & Hfigs & Hload).
  split; [exact step_name_in_catalog|]. split; [exact Hfigs|].
  split; [exact Hload|].
  eexists. vm_compute. reflexivity.
Defined.

(** ** A step invocation needs a registered run *)

Lemma keeps_registry_init_step (step_name mode suffix : string) :
  keeps (fun w => (avail_runs w, __run w)) (_init_step step_name mode suffix).
Proof. unfold _init_step. keeps_all. Qed.

(** X17: a step cannot be run before its run is registered: when the registry in
    memory has no entry for the active run (as right after the import of
    the module), the invocation raises [KeyError] for the run.  By then the
    step has been initialized: its directories exist, but no parameter file
    has been written and the entry point has not been called. *)
Theorem step_needs_registered_run (py_format : json -> string)
    (steps : string -> option StepModule) (w : State) (step_name : string)
    (params : odict) (suffix : string) :
  answer (_init_step step_name "w" suffix) w = Ok tt ->
  OD.get (Py.str (__run w)) (avail_runs w) = None ->
  _run_step py_format steps step_name params suffix w
  = (after (_init_step step_name "w" suffix) w,
     Raise (KeyError (Py.str (__run w)))).
Proof.
  intros Hinit Hget. apply run_step_fails_before_entry.
  pose proof (keeps_registry_init_step step_name "w" suffix w) as K.
  unfold before_entry. unfold bind at 1. unfold answer, after in *.
  destruct (_init_step step_name "w" suffix w) as [w1 r].
  cbn [fst snd] in *. subst r. injection K as Kr Ka.
  unfold bind at 1. unfold gets at 1. cbn beta iota.
  unfold bind at 1. unfold entry_descr. now rewrite Kr, Ka, Hget.
Qed.

Lemma step_needs_registered_run_witness :
  let invocation :=
    _run_step Sample.format Sample.steps "gen_candidates" Sample.params "" in
  answer (_init_step "gen_candidates" "w" "") Sample.start = Ok tt
  /\ OD.get (Py.str (__run Sample.start)) (avail_runs Sample.start) = None
  /\ answer invocation Sample.start = Raise (KeyError "0")
  /\ Fs.isdir (fs (after invocation Sample.start))
       "/data/dsb3_0/gen_candidates/figs/" = true
  /\ Fs.isfile (fs (after invocation Sample.start))
       "/data/dsb3_0/gen_candidates/params.json" = false.
Proof.
  intros invocation.
  assert (H1 : answer (_init_step "gen_candidates" "w" "") Sample.start = Ok tt)
    by (vm_compute; reflexivity).
  pose proof (step_needs_registered_run Sample.format Sample.steps Sample.start
                "gen_candidates" Sample.params "" H1 eq_refl) as E.
  split; [exact H1|]. split; [reflexivity|].
  unfold answer, after, invocation. rewrite E. cbn [fst snd].
  split; [reflexivity|]. split; vm_compute; reflexivity.
Defined.

(** ** A merging save over a file that is no record *)

(** X18: when the file a merging save would extend is there but does not hold a
    record (a log, an array, damaged text), the save raises the decoding
    error of the load and leaves everything as it was: the file is not
    overwritten.  (A save in overwrite mode replaces it.) *)
Theorem merge_save_keeps_unreadable_file (w : State) (sn : option string)
    (name basename : string) (d : odict) (c : content) :
  resolved_name w sn = Some name ->
  let p := step_dir_of w name (__run w) ++ basename in
  Fs.lookup p (files (fs w)) = Some c ->
  (forall j, c <> Json j) ->
  save_json basename d sn "a" w = (w, Raise (JSONDecodeError p)).
Proof.
  intros Hname p Hfile Hc. unfold save_json.
  unfold bind at 1, lift. rewrite (get_step_dir_current w sn name Hname).
  fold p. unfold bind at 1, os_path_exists, gets.
  rewrite (lookup_exists _ _ _ Hfile). cbn [String.eqb Ascii.eqb Bool.eqb andb].
  unfold bind at 1. unfold bind at 1. unfold load_json. unfold bind at 1.
  rewrite (get_step_dir_for_load_spec w sn name Hname).
  unfold lineage_chain. cbn [find].
  rewrite (exists_in_dir _ _ _ (lookup_exists _ _ _ Hfile)).
  unfold bind at 1. unfold json_load, open_read. unfold bind at 1.
  unfold lift, Fs.read. fold p. rewrite Hfile.
  destruct c as [j| |]; [now elim (Hc j) | reflexivity | reflexivity].
Qed.

Lemma merge_save_keeps_unreadable_file_witness :
  let p := "/data/dsb3_1/gen_candidates/out.json" in
  resolved_name Cases2.log_in_the_way None = Some "gen_candidates"
  /\ Fs.lookup p (files (fs Cases2.log_in_the_way)) = Some (Text ["started"])
  /\ (forall j, Text ["started"] <> Json j)
  /\ save_json "out.json" [("a", JNum 1)] None "a" Cases2.log_in_the_way
     = (Cases2.log_in_the_way, Raise (JSONDecodeError p)).
Proof.
  intros p.
  assert (H3 : forall j, Text ["started"] <> Json j) by discriminate.
  split; [reflexivity|]. split; [reflexivity|]. split; [exact H3|].
  exact (merge_save_keeps_unreadable_file Cases2.log_in_the_way None
           "gen_candidates" "out.json" [("a", JNum 1)] (Text ["started"])
           eq_refl eq_refl H3).
Defined.

(** ** Patients *)

Lemma keeps_dataset_read_patients : keeps dataset_name read_patients.
Proof. unfold read_patients, os_path_exists. keeps_all. Qed.

(** X19: a returning patient initialization leaves [n_patients] equal to the
    number of patients it selected.  A positive [_n_patients] has priority
    over the other two arguments and, for the datasets dsb3 and LUNA16,
    selects the fixed list of the module whatever the number asked for; else
    a single patient id has priority over a range. *)
Theorem init_patients_selection (n : Z) (single : option string)
    (fromto : option (list Z)) (w w' : State) :
  _init_patients n single fromto w = (w', Ok tt) ->
  exists ps,
    patients w' = Some ps
    /\ n_patients w' = Some (Z.of_nat (length ps))
    /\ (0 < n -> dataset_name w = "dsb3" -> ps = dsb3_patients)
    /\ (0 < n -> dataset_name w = "LUNA16" -> ps = LUNA16_patients)
    /\ (n <= 0 -> forall id, single = Some id -> ps = [id]).
Proof.
  unfold _init_patients. unfold bind at 1.
  pose proof (keeps_dataset_read_patients w) as Kd. unfold after in Kd.
  destruct (read_patients w) as [w1 [[]|e]]; [|discriminate].
  cbn [fst] in Kd.
  unfold bind at 1. unfold modify at 1. cbv beta iota.
  unfold bind, the_patients, item, gets, modify, ret, raise.
  assert (done : forall (wf : State) (ps : list string),
            patients wf = Some ps ->
            (0 < n -> dataset_name w = "dsb3" -> ps = dsb3_patients) ->
            (0 < n -> dataset_name w = "LUNA16" -> ps = LUNA16_patients) ->
            (n <= 0 -> forall id, single = Some id -> ps = [id]) ->
            (set_n_patients (Some (Z.of_nat (length ps))) wf, @Ok unit tt)
            = (w', Ok tt) ->
            exists ps,
              patients w' = Some ps
              /\ n_patients w' = Some (Z.of_nat (length ps))
              /\ (0 < n -> dataset_name w = "dsb3" -> ps = dsb3_patients)
              /\ (0 < n -> dataset_name w = "LUNA16" -> ps = LUNA16_patients)
              /\ (n <= 0 -> forall id, single = Some id -> ps = [id])).
  { intros wf ps Hp H1 H2 H3 H. injection H as <-. exists ps. cbn. auto. }
  destruct (Z.gtb_spec n 0) as [Hn|Hn].
  - cbn. destruct (patients w1) as [ps0|]; [|intros H; discriminate H].
    cbn. rewrite Kd.
    destruct (String.eqb_spec (dataset_name w) "dsb3") as [Ed|Ed];
      destruct (String.eqb_spec (dataset_name w) "LUNA16") as [El|El];
      try congruence.
    + apply (done _ dsb3_patients); try reflexivity; intros; try lia;
        congruence.
    + apply (done _ LUNA16_patients); try reflexivity; intros; try lia;
        congruence.
    + apply (done _ (firstn (Z.to_nat n) ps0)); try reflexivity; intros;
        try lia; congruence.
  - destruct single as [id|].
    + cbn. apply (done _ [id]); try reflexivity; intros; try lia; congruence.
    + destruct fromto as [l|]; cbn;
        (destruct (patients w1) as [ps0|] eqn:Ep; [|intros H; discriminate H]).
      * cbn. destruct (Py.index l 0) as [z|]; [|intros H; discriminate H]. cbn.
        destruct (Py.index l (-1)) as [z0|]; [|intros H; discriminate H]. cbn.
        destruct (Py.index l 1); [|intros H; discriminate H]. cbn.
        apply (done _ (Py.slice ps0 z z0)); try reflexivity; intros; try lia;
          congruence.
      * apply (done _ ps0); try assumption; intros; try lia; congruence.
Qed.

Lemma init_patients_selection_witness :
  let w' := after (_init_patients 2 (Some "p3") (Some [0; 1]))
              Cases2.with_raw_data in
  _init_patients 2 (Some "p3") (Some [0; 1]) Cases2.with_raw_data
  = (w', Ok tt)
  /\ 0 < 2
  /\ dataset_name Cases2.with_raw_data = "dsb3"
  /\ patients w' = Some dsb3_patients
  /\ n_patients w' = Some 10.
Proof.
  intros w'.
  assert (H : _init_patients 2 (Some "p3") (Some [0; 1]) Cases2.with_raw_data
              = (w', Ok tt)) by (vm_compute; reflexivity).
  assert (Hn : 0 < 2) by lia.
  destruct (init_patients_selection _ _ _ _ _ H) as (ps & Hp & Hc & Hd & _).
  rewrite (Hd Hn eq_refl) in Hp, Hc.
  split; [exact H|]. split; [exact Hn|]. split; [reflexivity|].
  split; [exact Hp | exact Hc].
Defined.

(** ** A new run reads what the run before it wrote *)

Lemma has_slash_append (a b : string) :
  has_slash (a ++ b) = has_slash a || has_slash b.
Proof.
  induction a as [|c a IH]; [reflexivity|]. cbn. rewrite IH.
  now rewrite orb_assoc.
Qed.

Lemma prefix_longer (a x : string) : x <> "" -> prefix (a ++ x) a = false.
Proof.
  intros Hx. induction a as [|c a IH]; cbn.
  - destruct x; [now elim Hx | reflexivity].
  - destruct (ascii_dec c c) as [_|n]; [exact IH | now elim n].
Qed.

(** The registry file is neither a step directory, nor below one. *)
Lemma runs_file_outside_steps (w : State) (name : string) (run : Z)
    (rest : string) :
  prefix (step_dir_of w name run) (runs_filename w) = false
  /\ step_dir_of w name run ++ rest <> runs_filename w.
Proof.
  assert (slash : forall c : string,
            (Py.str run ++ "/" ++ name ++ __step_dir_suffix w ++ "/") ++ c
            <> "runs.json").
  { intros c E. apply (f_equal has_slash) in E.
    rewrite !has_slash_append in E. cbn in E.
    now rewrite orb_true_r in E. }
  unfold step_dir_of, get_write_dir, runs_filename. split.
  - change "_runs.json" with ("_" ++ "runs.json").
    rewrite !append_assoc, !prefix_append_both.
    match goal with |- prefix ?a _ = false =>
      destruct (prefix a "runs.json") eqn:E; [|reflexivity] end.
    apply prefix_split in E as [c E]. symmetry in E.
    rewrite <- !append_assoc in E. elim (slash c).
    now rewrite <- !append_assoc.
  - rewrite !append_assoc. intros E. do 2 apply append_inv_head in E.
    change ("_" ++ ?x) with (String "_" x) in E.
    change "_runs.json" with (String "_" "runs.json") in E.
    injection E as E. elim (slash rest). now rewrite !append_assoc.
Qed.

Lemma store_paths_inv (p q : string) (c : content)
    (l : list (string * content)) :
  In p (map fst (Fs.store q c l)) -> p = q \/ In p (map fst l).
Proof.
  induction l as [|[x c'] l IH]; cbn.
  - intros [H|[]]. now left.
  - destruct (String.eqb q x); cbn; [now right|].
    intros [H|H]; [right; now left|].
    destruct (IH H) as [E|E]; [now left | right; now right].
Qed.

Lemma isdir_false (disk : FS) (d p : string) :
  Fs.isdir disk d = false -> In p (Fs.paths disk) -> prefix d p = false.
Proof.
  unfold Fs.isdir. intros H Hin. destruct (prefix d p) eqn:E; [|reflexivity].
  assert (existsb (prefix d) (Fs.paths disk) = true)
    by (apply existsb_exists; now exists p).
  congruence.
Qed.

(** What a returning run initialization has done to the disk: the registry
    file is written, and at most the root directory of the run is added. *)
Lemma init_run_ok_disk (w w' : State) (run : Z) (descr : string)
    (init_run : Z) :
  _init_run run descr init_run w = (w', Ok tt) ->
  (exists c, files (fs w') = Fs.store (runs_filename w) c (files (fs w)))
  /\ (dirs (fs w') = dirs (fs w)
      \/ dirs (fs w') = (dirs (fs w) ++ [get_write_dir w' None])%list).
Proof.
  intros H.
  assert (Kg : keeps (fun w => (write_basedir w, dataset_name w))
                 (_init_run run descr init_run))
    by (unfold _init_run; keeps_all).
  specialize (Kg w). unfold after in Kg. rewrite H in Kg. cbn [fst] in Kg.
  injection Kg as Kb Kd.
  pose proof (init_run_ok_inv _ _ _ _ _ H)
    as (_ & run' & _ & _ & _ & _ & _ & _ & Hr & _ & _).
  revert H. unfold _init_run. unfold bind at 1. unfold gets at 1.
  cbn beta iota. fold (runs_filename w). unfold bind at 1.
  destruct (select_run (runs_filename w) run descr w)
    as [w1 [[run'' descr']|e]] eqn:Hsel; [|discriminate].
  apply select_run_frame in Hsel as (Hfs & _).
  cbn [fst snd].
  unfold bind at 1. unfold gets at 1. cbn beta iota.
  unfold bind at 1. rewrite keep_descr_pure.
  destruct (answer (keep_descr (avail_runs w1) run'' descr') w1) as [d|e];
    [|discriminate].
  unfold bind at 1. unfold gets at 1. cbn beta iota.
  unfold bind at 1. unfold modify at 1. cbn beta iota.
  unfold bind at 1. unfold gets at 1. cbn beta iota.
  unfold bind at 1. unfold json_dump, open_write.
  cbn [fs set_avail_runs avail_runs].
  destruct (Fs.write (fs w1) (runs_filename w) _) as [disk|e] eqn:Hw;
    [|discriminate].
  apply write_ok in Hw. rewrite Hfs in Hw.
  unfold bind at 1. unfold modify at 1. cbn beta iota.
  unfold bind at 1. unfold modify at 1. cbn beta iota.
  unfold bind at 1. unfold gets at 1. cbn beta iota.
  unfold ensure_dir, modify.
  match goal with |- context [Py.dirname ?p] =>
    rewrite (dirname_of_dir p (write_dir_ends_slash _ _));
    match p with get_write_dir ?w4 None =>
      set (w5 := w4); set (q := get_write_dir w5 None) end
  end.
  assert (Eq : forall disk', get_write_dir (set_fs disk' w5) None = q)
    by reflexivity.
  assert (Ef : fs w5 = disk) by reflexivity.
  destruct q as [|c0 q0] eqn:Edir.
  { intros H. injection H as <-. rewrite Ef, Hw. cbn.
    split; [eexists; reflexivity | now left]. }
  cbv zeta. destruct (Fs.isdir (fs w5) (String c0 q0)).
  - intros H. injection H as <-. rewrite Ef, Hw. cbn.
    split; [eexists; reflexivity | now left].
  - intros H. injection H as <-. rewrite Eq, Hw. cbn.
    split; [eexists; reflexivity | now right].
Qed.

Lemma count_down_head (n : nat) :
  exists post, count_down n = Z.of_nat n :: post.
Proof. destruct n; eexists; reflexivity. Qed.

(** X20: a run created by a resume with a description starts from what the last
    registered run has left: as long as the new run has not run a step
    itself, a load of that step's record answers the record of the run
    before, found in that run's directory. *)
Theorem new_run_reads_previous_run (w : State) (reg : odict) (k : Z)
    (descr name basename : string) (r : odict) :
  registry_on_disk w = Some reg ->
  OD.last_key reg = Some (Py.str k) ->
  0 <= k ->
  descr <> "" ->
  record_at w (step_dir_of w name k) basename = Some r ->
  Fs.isdir (fs w) (step_dir_of w name (k + 1)) = false ->
  let w' := after (_init_run (-1) descr (-1)) w in
  __run w' = k + 1
  /\ __init_run w' = k
  /\ _get_step_dir_for_load (Some name) w' = (w', Ok (step_dir_of w name k))
  /\ load_json basename (Some name) w' = (w', Ok r).
Proof.
  intros Hreg Hlast Hk Hdescr Hrec Hnew w'.
  pose proof (select_run_resume w reg k descr Hreg Hlast) as Hsel.
  apply String.eqb_neq in Hdescr. rewrite Hdescr in Hsel.
  assert (Hkeep : forall w1 : State,
            answer (keep_descr (avail_runs (set_avail_runs reg w)) (k + 1) descr)
              w1 = Ok (JStr descr)).
  { intros w1. unfold keep_descr. cbn [avail_runs set_avail_runs].
    destruct reg; [reflexivity|]. now rewrite Hdescr. }
  assert (Hok : answer (_init_run (-1) descr (-1)) w = Ok tt).
  { eapply init_run_succeeds; [exact Hsel | apply Hkeep |].
    apply runs_file_exists in Hreg as [Hfile _].
    unfold Fs.isfile. now rewrite Hfile. }
  assert (Kg : keeps (fun w => (write_basedir w, dataset_name w,
                                __step_dir_suffix w))
                 (_init_run (-1) descr (-1)))
    by (unfold _init_run; keeps_all).
  specialize (Kg w). fold w' in Kg. injection Kg as Kb Kd Ks.
  pose proof (grows_init_run (-1) descr (-1) w) as Hgrow. fold w' in Hgrow.
  destruct (_init_run (-1) descr (-1) w) as [w2 res] eqn:Hrun.
  unfold answer in Hok. rewrite Hrun in Hok. cbn in Hok. subst res.
  assert (Hw : w' = w2) by (unfold w', after; now rewrite Hrun).
  pose proof (init_run_ok_disk _ _ _ _ _ Hrun) as ([c Hfiles] & Hdirs).
  apply init_run_ok_inv in Hrun
    as (w1 & run' & descr' & d & Hsel' & _ & _ & _ & Hr & Hi & _).
  rewrite Hsel in Hsel'. injection Hsel' as <- <- <-.
  change (-1 >? -1) with false in Hi. cbv iota in Hi.
  rewrite <- Hw in Hfiles, Hdirs, Hr, Hi. clear Hw w2.
  replace (k + 1 - 1) with k in Hi by lia.
  assert (Hsd : forall x, step_dir_of w' name x = step_dir_of w name x)
    by (intros x; unfold step_dir_of, get_write_dir; now rewrite Kb, Kd, Ks).
  assert (Hfile : Fs.lookup (step_dir_of w name k ++ basename) (files (fs w'))
                  = Some (Json (JDict r))).
  { unfold record_at in Hrec.
    destruct (Fs.lookup _ (files (fs w))) as [[[]| |]|] eqn:E;
      try discriminate.
    injection Hrec as ->. rewrite Hfiles, lookup_store_other; [exact E|].
    intros E'. symmetry in E'.
    exact (proj2 (runs_file_outside_steps w name k basename) E'). }
  assert (Hold : Fs.isdir (fs w') (step_dir_of w name k) = true)
    by exact (exists_in_dir _ _ _ (lookup_exists _ _ _ Hfile)).
  assert (Hfresh : Fs.isdir (fs w') (step_dir_of w name (k + 1)) = false).
  { unfold Fs.isdir.
    destruct (existsb _ (Fs.paths (fs w'))) eqn:E; [|reflexivity].
    apply existsb_exists in E as (p & Hp & Hpre).
    assert (Hno : prefix (step_dir_of w name (k + 1)) p = false);
      [|congruence].
    unfold Fs.paths in Hp. apply in_app_or in Hp as [Hp|Hp].
    - destruct Hdirs as [Hd|Hd]; rewrite Hd in Hp.
      + apply (isdir_false _ _ _ Hnew). unfold Fs.paths. apply in_or_app.
        now left.
      + apply in_app_or in Hp as [Hp|[<-|[]]].
        * apply (isdir_false _ _ _ Hnew). unfold Fs.paths. apply in_or_app.
          now left.
        * rewrite <- Hsd. unfold step_dir_of, get_write_dir. rewrite Hr.
          apply prefix_longer. intros E. apply (f_equal has_slash) in E.
          rewrite !has_slash_append in E. cbn in E.
          rewrite !orb_true_r in E. discriminate E.
    - rewrite Hfiles in Hp. apply store_paths_inv in Hp as [->|Hp].
      + exact (proj1 (runs_file_outside_steps w name (k + 1) "")).
      + apply (isdir_false _ _ _ Hnew). unfold Fs.paths. apply in_or_app.
        now right. }
  assert (Hdir : _get_step_dir_for_load (Some name) w'
                 = (w', Ok (step_dir_of w name k))).
  { rewrite (get_step_dir_for_load_spec w' (Some name) name eq_refl).
    rewrite Hr, Hi. unfold lineage_chain.
    destruct (Z.ltb_spec k 0) as [Hneg|_]; [lia|].
    destruct (count_down_head (Z.to_nat k)) as [post ->].
    rewrite Z2Nat.id by exact Hk. cbn [find].
    rewrite (Hsd (k + 1)), (Hsd k), Hfresh, Hold. cbv iota.
    now rewrite Hsd. }
  split; [exact Hr|]. split; [exact Hi|]. split; [exact Hdir|].
  unfold load_json. unfold bind at 1. rewrite Hdir.
  unfold json_load, open_read. unfold bind, lift, Fs.read. cbv beta.
  now rewrite Hfile.
Qed.

Lemma new_run_reads_previous_run_witness :
  let w := Cases3.first_run_done in
  let w' := after (_init_run (-1) "second" (-1)) w in
  __run w' = 0 + 1
  /\ load_json "out.json" (Some "gen_candidates") w' = (w', Ok Sample.params).
Proof.
  intros w w'.
  assert (H1 : registry_on_disk w
               = Some [("0", JList [JStr "2017-03-01 09:00"; JStr "run zero"])])
    by (vm_compute; reflexivity).
  assert (H2 : 0 <= 0) by lia.
  assert (H3 : "second" <> "") by discriminate.
  assert (H4 : record_at w (step_dir_of w "gen_candidates" 0) "out.json"
               = Some Sample.params) by (vm_compute; reflexivity).
  assert (H5 : Fs.isdir (fs w) (step_dir_of w "gen_candidates" (0 + 1)) = false)
    by (vm_compute; reflexivity).
  destruct (new_run_reads_previous_run w _ 0 "second" "gen_candidates"
              "out.json" Sample.params H1 eq_refl H2 H3 H4 H5)
    as (Hr & _ & _ & Hl).
  split; [exact Hr | exact Hl].
Defined.

(** ** A range of patients *)

Lemma slice_to_itself {A : Type} (l : list A) (a : Z) : Py.slice l a a = [].
Proof. unfold Py.slice. cbv zeta. now rewrite Z.sub_diag. Qed.

(** X21: without a positive [_n_patients] and without a single patient id, a
    range [fromto_patients] of two or more numbers selects the patients from
    its first up to its LAST number, while the directory suffix is made of
    its first and its SECOND number; a range of one number leaves no patient
    selected and then raises [IndexError], with [n_patients] not updated; an
    empty range raises [IndexError] with the patients as they were read. *)
Theorem patient_range (n a b : Z) (rest : list Z) (w w1 : State)
    (ps : list string) :
  n <= 0 ->
  read_patients w = (w1, Ok tt) ->
  patients w1 = Some ps ->
  let sel := Py.slice ps a (last (b :: rest) b) in
  _init_patients n None (Some (a :: b :: rest)) w
  = (set_n_patients (Some (Z.of_nat (length sel)))
       (set_step_dir_suffix ("_fromto" ++ Py.str a ++ "-" ++ Py.str b)
          (set_patients (Some sel) (set_step_dir_suffix "" w1))),
     Ok tt)
  /\ _init_patients n None (Some [a]) w
     = (set_patients (Some []) (set_step_dir_suffix "" w1), Raise IndexError)
  /\ _init_patients n None (Some []) w
     = (set_step_dir_suffix "" w1, Raise IndexError).
Proof.
  intros Hn Hread Hps sel.
  assert (Hgt : (n >? 0) = false)
    by (destruct (Z.gtb_spec n 0); [lia | reflexivity]).
  assert (start : forall ft,
            _init_patients n None (Some ft) w
            = ((ps <- the_patients ;;
                a <- item ft 0 ;;
                b <- item ft (-1) ;;
                modify (set_patients (Some (Py.slice ps a b))) ;;
                a <- item ft 0 ;;
                b <- item ft 1 ;;
                modify (set_step_dir_suffix
                          ("_fromto" ++ Py.str a ++ "-" ++ Py.str b))) ;;
               ps <- the_patients ;;
               modify (set_n_patients (Some (Z.of_nat (length ps)))))
                (set_step_dir_suffix "" w1)).
  { intros ft. unfold _init_patients. unfold bind at 1. rewrite Hread.
    unfold bind at 1. unfold modify at 1. cbv beta iota. now rewrite Hgt. }
  rewrite !start. unfold item.
  rewrite (index_minus_one (a :: b :: rest) b) by discriminate.
  change (last (a :: b :: rest) b) with (last (b :: rest) b). fold sel.
  rewrite (index_minus_one [a] a) by discriminate.
  rewrite !index_zero, index_one.
  change (Py.index [a] 1) with (@None Z).
  change (Py.index [] 0) with (@None Z).
  unfold the_patients, bind, gets, modify, ret, raise. cbn. rewrite Hps. cbn.
  rewrite slice_to_itself. repeat split.
Qed.

Lemma patient_range_witness :
  let w := Cases2.with_raw_data in
  let w1 := after read_patients w in
  0 <= 0
  /\ patients w1 = Some ["p1"; "p2"; "p3"]
  /\ patients (after (_init_patients 0 None (Some [0; 1; 2])) w)
     = Some ["p1"; "p2"]
  /\ __step_dir_suffix (after (_init_patients 0 None (Some [0; 1; 2])) w)
     = "_fromto0-1"
  /\ answer (_init_patients 0 None (Some [1])) w = Raise IndexError.
Proof.
  intros w w1.
  assert (H1 : 0 <= 0) by lia.
  assert (H2 : read_patients w = (w1, Ok tt)) by (vm_compute; reflexivity).
  assert (H3 : patients w1 = Some ["p1"; "p2"; "p3"])
    by (vm_compute; reflexivity).
  split; [exact H1|]. split; [exact H3|].
  destruct (patient_range 0 0 1 [2] w w1 _ H1 H2 H3) as (Ha & _ & _).
  destruct (patient_range 0 1 1 [] w w1 _ H1 H2 H3) as (_ & Hb & _).
  unfold after, answer. rewrite Ha, Hb. repeat split.
Defined.
